(** * root2xgboost: ROOT event data to XGBoost matrices, and the trainer

    A shallow embedding of [root2xgboost.h] and its implementation file:
    the two [ROOTToXGBoost] adapters, [xgboost_train], [xgboost_data] and
    the [safe_xgboost] macro.  The XGBoost C API and the ROOT/TMVA data
    sources are external; the first is an interface the development is
    parametric in, the second is modelled by the accessors the code calls. *)

From Stdlib Require Import ZArith SpecFloat DecimalString.
From stdpp Require Import base numbers list strings.

Local Open Scope nat_scope.

(** ** Numeric types

    [Float_t] is IEEE binary32 and [Double_t] binary64, both carried by
    [spec_float] with the precision and exponent range fixed per type.
    Row counts ([ULong64_t] / [Long64_t]) are lengths of in-memory
    collections and stay far below 2^63, so they are natural numbers. *)

Definition Float_t := spec_float.
Definition Double_t := spec_float.

#[global] Instance spec_float_eq_dec : EqDecision spec_float.
Proof. solve_decision. Defined.

Module Double.
Definition prec : Z := 53.
Definition emax : Z := 1024.
(** The literal [1.0]. *)
Definition one : Double_t := S754_finite false 4503599627370496 (-52).
(** Integer to double conversion (round to nearest even). *)
Definition of_ULong64 (n : nat) : Double_t :=
  binary_normalize prec emax (Z.of_nat n) 0 false.
Definition add (x y : Double_t) : Double_t := SFadd prec emax x y.
End Double.

Module Float.
Definition prec : Z := 24.
Definition emax : Z := 128.
(** Narrowing conversion [double -> float] (round to nearest even). *)
Definition of_Double (x : Double_t) : Float_t :=
  match x with
  | S754_finite s m e => binary_round prec emax s m e
  | _ => x
  end.
(** The constants [0.0] and [1.0] once stored in a [Float_t]. *)
Definition zero : Float_t := S754_zero false.
Definition one : Float_t := S754_finite false 8388608 (-23).
(** The integer value of a float that holds one, if it does. *)
Definition to_Z (x : Float_t) : option Z :=
  match x with
  | S754_zero _ => Some 0%Z
  | S754_finite s m e =>
      match e with
      | Zneg p =>
          if decide ((Z.pos m mod 2 ^ Z.pos p)%Z = 0%Z)
          then Some (cond_Zopp s (Z.pos m / 2 ^ Z.pos p))
          else None
      | _ => Some (cond_Zopp s (Z.pos m * 2 ^ e))
      end
  | _ => None
  end.
End Float.

(** ** Outcomes of a C++ computation

    A computation returns, throws, or has undefined behaviour. *)

Inductive undefined_behaviour :=
| DivisionByZero
| OutOfBounds
| IndeterminateHandle.

(** [unknown_column] stands for the error the data frame raises when asked
    for a column its tree does not have. *)
Inductive exception :=
| runtime_error (what : string)
| unknown_column (name : string).

Inductive outcome (A : Type) :=
| Ok (a : A)
| Throw (e : exception)
| Undefined (ub : undefined_behaviour).
Arguments Ok {A} a.
Arguments Throw {A} e.
Arguments Undefined {A} ub.

Definition obind {A B} (m : outcome A) (k : A -> outcome B) : outcome B :=
  match m with
  | Ok a => k a
  | Throw e => Throw e
  | Undefined ub => Undefined ub
  end.

(** Integer division [a / b] on unsigned operands: truncating, undefined
    for a zero divisor. *)
Definition udiv (a b : nat) : outcome nat :=
  if decide (b = 0) then Undefined DivisionByZero else Ok (a / b).

(** Arrays are lists of cells; a cell of a freshly allocated array holds no
    determinate value.  [store arr i v] is [arr[i] = v]. *)
Abbreviation cells := (list (option Float_t)).

Definition uninitialised (n : nat) : cells := replicate n None.

Definition store (arr : cells) (i : nat) (v : Float_t) : outcome cells :=
  if decide (i < length arr) then Ok (<[i := Some v]> arr)
  else Undefined OutOfBounds.

(** Loops are folds in the outcome monad: the body runs once per element,
    in order, and the first failure ends the loop. *)
#[global] Instance outcome_ret : MRet outcome := @Ok.
#[global] Instance outcome_bind : MBind outcome := fun A B k m => obind m k.

Fixpoint foldM {A B} (body : B -> A -> outcome B) (l : list A) (b : B)
  : outcome B :=
  match l with
  | [] => Ok b
  | a :: l' => b' ← body b a; foldM body l' b'
  end.

(** ** The external boosting library

    Handles are opaque pointers.  A call is a value; the library is
    whatever executes calls: it returns the [int] status, the value written
    through the call's out-parameter (creation calls only), and its next
    state.  [XGBGetLastError] reads the last error message. *)

Definition DMatrixHandle := Z.
Definition BoosterHandle := Z.

Inductive xgb_call :=
| XGDMatrixCreateFromMat (data : cells) (nrow ncol : nat) (missing : Float_t)
| XGDMatrixSetFloatInfo (handle : DMatrixHandle) (field : string)
    (array : cells) (len : nat)
| XGDMatrixFree (handle : DMatrixHandle)
| XGBoosterCreate (dmats : list DMatrixHandle) (len : nat)
| XGBoosterSetParam (handle : BoosterHandle) (name value : string)
| XGBoosterUpdateOneIter (handle : BoosterHandle) (iter : Z)
    (dtrain : DMatrixHandle).

Class XGBoost (lib : Type) := {
  xgb_exec : xgb_call -> lib -> Z * Z * lib;
  XGBGetLastError : lib -> string
}.

(** A library that follows a script: each call consumes the next status of
    the script (0 once the script is exhausted) and hands out fresh
    handles. *)
Record scripted := { script : list Z; next_handle : Z }.

#[global] Instance scripted_XGBoost : XGBoost scripted := {
  xgb_exec _ s :=
    (hd 0%Z (script s), next_handle s,
     {| script := tl (script s); next_handle := (next_handle s + 1)%Z |});
  XGBGetLastError _ := "scripted failure"
}.

(** ** Exceptions, call sites and the observable trace *)

(** The place of a [safe_xgboost(call)] in the source: [__FILE__],
    [__LINE__] and [#call]. *)
Record call_site := { site_file : string; site_line : nat; site_text : string }.

Inductive action :=
| New_xgboost_data (n_sig n_bgd : nat)
| Get_event (i : nat)
| Called (site : call_site) (call : xgb_call) (err : Z).

Record world (lib : Type) := { xgb : lib; log : list action }.
Arguments xgb {lib} w.
Arguments log {lib} w.
Arguments Build_world {lib} xgb log.

(** A stateful computation: the world is kept when an exception leaves. *)
Definition M (lib A : Type) : Type := world lib -> outcome A * world lib.

#[global] Instance M_ret lib : MRet (M lib) := fun A a w => (Ok a, w).
#[global] Instance M_bind lib : MBind (M lib) := fun A B k m w =>
  match m w with
  | (Ok a, w') => k a w'
  | (Throw e, w') => (Throw e, w')
  | (Undefined ub, w') => (Undefined ub, w')
  end.

Definition lift {lib A} (o : outcome A) : M lib A := fun w => (o, w).

Definition emit {lib} (a : action) : M lib unit := fun w =>
  (Ok tt, {| xgb := xgb w; log := log w ++ [a] |}).

Fixpoint for_each {lib A B} (body : B -> A -> M lib B) (l : list A) (b : B)
  : M lib B :=
  match l with
  | [] => mret b
  | a :: l' => b' ← body b a; for_each body l' b'
  end.

(** [std::to_string] on a line number. *)
Definition to_string (n : nat) : string :=
  DecimalString.NilEmpty.string_of_uint (Nat.to_uint n).

Definition error_message (site : call_site) (last_error : string) : string :=
  site_file site +:+ ":" +:+ to_string (site_line site) +:+ ": error in "
  +:+ site_text site +:+ ":" +:+ last_error.

(** The macro [safe_xgboost(call)]: run the call, and throw when its status
    is not zero. *)
Definition safe_xgboost {lib} `{XGBoost lib} (site : call_site)
    (call : xgb_call) : M lib Z := fun w =>
  let '(err, out, s) := xgb_exec call (xgb w) in
  let w' := {| xgb := s; log := log w ++ [Called site call err] |} in
  if decide (err ≠ 0%Z)
  then (Throw (runtime_error (error_message site (XGBGetLastError s))), w')
  else (Ok out, w').

(** ** [xgboost_data] *)

Record xgboost_data := {
  sb_dmats : option DMatrixHandle;
  weights : cells;
  labels : cells;
  n_sig : nat;
  n_bgd : nat
}.

Definition set_labels (d : xgboost_data) (l : cells) : xgboost_data :=
  {| sb_dmats := sb_dmats d; weights := weights d; labels := l;
     n_sig := n_sig d; n_bgd := n_bgd d |}.
Definition set_weights (d : xgboost_data) (w : cells) : xgboost_data :=
  {| sb_dmats := sb_dmats d; weights := w; labels := labels d;
     n_sig := n_sig d; n_bgd := n_bgd d |}.
Definition set_sb_dmats (d : xgboost_data) (h : DMatrixHandle) : xgboost_data :=
  {| sb_dmats := Some h; weights := weights d; labels := labels d;
     n_sig := n_sig d; n_bgd := n_bgd d |}.

(** [new xgboost_data(n_sig, n_bgd)]: the two arrays are allocated and left
    unset, and so is the matrix handle. *)
Definition new_xgboost_data {lib} (n_sig n_bgd : nat) : M lib xgboost_data :=
  _ ← emit (New_xgboost_data n_sig n_bgd);
  mret {| sb_dmats := None;
          weights := uninitialised (n_sig + n_bgd);
          labels := uninitialised (n_sig + n_bgd);
          n_sig := n_sig; n_bgd := n_bgd |}.

(** [(data->labels)[k] = l; (data->weights)[k] = w;] *)
Definition set_row (l w : Float_t) (d : xgboost_data) (k : nat)
  : outcome xgboost_data :=
  ls ← store (labels d) k l;
  ws ← store (weights d) k w;
  Ok (set_weights (set_labels d ls) ws).

Definition dquote : string := String (Ascii.ascii_of_nat 34) "".

(** ** The data sources

    A tree has named branches and entries; the data frame over it counts
    the entries and takes a column by name. *)
Record TTree := { branches : list string; entries : list (string -> Float_t) }.

Definition Count (t : TTree) : nat := length (entries t).

Definition Take (t : TTree) (var : string) : outcome (list Float_t) :=
  if decide (var ∈ branches t) then Ok (map (fun e => e var) (entries t))
  else Throw (unknown_column var).

(** The partition selector [TMVA::Types::ETreeType]; [kValidation] is
    another name of [kMaxTreeType]. *)
Inductive ETreeType :=
| kTraining | kTesting | kMaxTreeType | kTrainingOriginal.

(** An event, through the accessors the adapter calls. *)
Record Event := {
  GetValue : nat -> Float_t;
  GetOriginalWeight : Double_t;
  GetClass : nat
}.

Record DataSet := {
  GetNVariables : nat;
  GetNEvtSigTest : nat;
  GetNEvtBkgdTest : nat;
  GetNEvtSigTrain : nat;
  GetNEvtBkgdTrain : nat;
  GetEventCollection : ETreeType -> list Event
}.

Record DataSetInfo := {
  GetDataSet : DataSet;
  fSignalClass : nat
}.

(** [DataSetInfo::IsSignal]: the event is of the signal class. *)
Definition IsSignal (dataset_info : DataSetInfo) (ev : Event) : bool :=
  bool_decide (GetClass ev = fSignalClass dataset_info).

(** ** The adapters and the trainer *)

Section root2xgboost.
Context {lib : Type} `{XGBoost lib}.
(** [__FILE__] in the implementation file and in the header. *)
Variables (cxx_file hxx_file : string).

Definition site (line : nat) (text : string) : call_site :=
  {| site_file := cxx_file; site_line := line; site_text := text |}.

(** [xgboost_data::free]. *)
Definition free (d : xgboost_data) : M lib unit :=
  h ← lift (from_option Ok (Undefined IndeterminateHandle) (sb_dmats d));
  _ ← safe_xgboost
        {| site_file := hxx_file; site_line := 52;
           site_text := "XGDMatrixFree(sb_dmats[0])" |}
        (XGDMatrixFree h);
  mret tt.

(** One pass of an inner loop of the tree adapter: the values of a column
    go to [sb_mat[i][j]], [i] counting on from where it stands. *)
Definition fill_column (n_vars j : nat) (col : list Float_t)
    (st : cells * nat) : outcome (cells * nat) :=
  foldM (fun '(sb_mat, i) v =>
           sb_mat' ← store sb_mat (i * n_vars + j) v;
           Ok (sb_mat', S i))
        col st.

(** The body of the loop over the variables: column [j] of the matrix
    receives the signal column, then the background column. *)
Definition fill_variable (signal_tree background_tree : TTree)
    (n_vars : nat) (st : cells * nat) (var : string)
  : outcome (cells * nat) :=
  let '(sb_mat, j) := st in
  sig_col ← Take signal_tree var;
  '(sb_mat, i) ← fill_column n_vars j sig_col (sb_mat, 0);
  bgd_col ← Take background_tree var;
  '(sb_mat, _) ← fill_column n_vars j bgd_col (sb_mat, i);
  Ok (sb_mat, S j).

Definition fill_tree_matrix (signal_tree background_tree : TTree)
    (variables : list string) (sb_mat : cells) : outcome cells :=
  '(sb_mat, _) ← foldM
      (fill_variable signal_tree background_tree (length variables))
      variables (sb_mat, 0);
  Ok sb_mat.

(** The balanced weight [1.0 + (n_other / n_own)]: the quotient is
    computed on the two [ULong64_t] counts, widened to [double] for the
    sum, and narrowed when it is stored in a [Float_t]. *)
Definition balanced_weight (n_other n_own : nat) : outcome Float_t :=
  q ← udiv n_other n_own;
  Ok (Float.of_Double (Double.add Double.one (Double.of_ULong64 q))).

Definition class_weight (given : option Float_t) (n_other n_own : nat)
  : outcome Float_t :=
  match given with
  | None => balanced_weight n_other n_own
  | Some w => Ok w
  end.

Definition ROOTToXGBoost_trees (signal_tree background_tree : TTree)
    (variables : list string) (sig_weight bgd_weight : option Float_t)
  : M lib xgboost_data :=
  let n_sig := Count signal_tree in
  let n_bgd := Count background_tree in
  let n_vars := length variables in
  sb_mat ← lift (fill_tree_matrix signal_tree background_tree variables
                   (uninitialised ((n_sig + n_bgd) * n_vars)));
  data ← new_xgboost_data n_sig n_bgd;
  sw ← lift (class_weight sig_weight n_bgd n_sig);
  data ← lift (foldM (set_row Float.zero sw) (seq 0 n_sig) data);
  bw ← lift (class_weight bgd_weight n_sig n_bgd);
  data ← lift (foldM (set_row Float.one bw) (seq n_sig n_bgd) data);
  h ← safe_xgboost
        (site 71 "XGDMatrixCreateFromMat((Float_t*) sb_mat, *n_sig + *n_bgd, n_vars, 0, &((data->sb_dmats)[0]))")
        (XGDMatrixCreateFromMat sb_mat (n_sig + n_bgd) n_vars Float.zero);
  let data := set_sb_dmats data h in
  _ ← safe_xgboost
        (site 72 ("XGDMatrixSetFloatInfo((data->sb_dmats)[0], " +:+ dquote
                  +:+ "label" +:+ dquote
                  +:+ ", data->labels, *n_sig + *n_bgd)"))
        (XGDMatrixSetFloatInfo h "label" (labels data) (n_sig + n_bgd));
  mret data.

(** The body of the event loop of the dataset adapter. *)
Definition copy_event (dataset_info : DataSetInfo) (n_vars : nat)
    (st : cells * xgboost_data * nat) (event : Event)
  : M lib (cells * xgboost_data * nat) :=
  let '(sb_mat, data, i) := st in
  _ ← emit (Get_event i);
  sb_mat ← lift (foldM (fun sb_mat j =>
                          store sb_mat (i * n_vars + j) (GetValue event j))
                       (seq 0 n_vars) sb_mat);
  data ← lift (if IsSignal dataset_info event
               then set_row Float.zero
                      (Float.of_Double (GetOriginalWeight event)) data i
               else set_row Float.one
                      (Float.of_Double (GetOriginalWeight event)) data i);
  mret (sb_mat, data, S i).

Definition ROOTToXGBoost_dataset (dataset_info : DataSetInfo)
    (type : ETreeType) : M lib xgboost_data :=
  let dataset := GetDataSet dataset_info in
  let n_vars := GetNVariables dataset in
  '(n_sig, n_bgd) ← lift
      match type with
      | kTesting => Ok (GetNEvtSigTest dataset, GetNEvtBkgdTest dataset)
      | kTraining => Ok (GetNEvtSigTrain dataset, GetNEvtBkgdTrain dataset)
      | _ => Throw (runtime_error
               "Unexpected treeType (must be either kTesting or kTraining).")
      end;
  let sb_mat := uninitialised ((n_sig + n_bgd) * n_vars) in
  data ← new_xgboost_data n_sig n_bgd;
  '(sb_mat, data, _) ← for_each (copy_event dataset_info n_vars)
                         (GetEventCollection dataset type) (sb_mat, data, 0);
  h ← safe_xgboost
        (site 131 "XGDMatrixCreateFromMat((Float_t*) sb_mat, n_sig + n_bgd, n_vars, 0, &((data->sb_dmats)[0]))")
        (XGDMatrixCreateFromMat sb_mat (n_sig + n_bgd) n_vars Float.zero);
  let data := set_sb_dmats data h in
  _ ← safe_xgboost
        (site 132 ("XGDMatrixSetFloatInfo((data->sb_dmats)[0], " +:+ dquote
                   +:+ "label" +:+ dquote
                   +:+ ", data->labels, n_sig + n_bgd)"))
        (XGDMatrixSetFloatInfo h "label" (labels data) (n_sig + n_bgd));
  mret data.

(** [UInt_t] to [int], as the iteration number is passed on. *)
Definition int_of_UInt (n : nat) : Z :=
  let z := (Z.of_nat n mod 2 ^ 32)%Z in
  if decide (z < 2 ^ 31)%Z then z else (z - 2 ^ 32)%Z.

Definition kv_pair : Type := string * string.
Definition xgbooster_opts : Type := list kv_pair.

Definition xgboost_train (data : xgboost_data) (opts : xgbooster_opts)
    (n_iter : nat) : M lib BoosterHandle :=
  dmat ← lift (from_option Ok (Undefined IndeterminateHandle) (sb_dmats data));
  booster ← safe_xgboost (site 140 "XGBoosterCreate(data->sb_dmats, 1, &booster)")
              (XGBoosterCreate [dmat] 1);
  _ ← for_each (fun (_ : unit) (opt : kv_pair) =>
                  _ ← safe_xgboost
                        (site 143 "XGBoosterSetParam(booster, opt.first, opt.second)")
                        (XGBoosterSetParam booster opt.1 opt.2);
                  mret tt)
        opts tt;
  _ ← for_each (fun (_ : unit) (iter : nat) =>
                  _ ← safe_xgboost
                        (site 148 "XGBoosterUpdateOneIter(booster, iter, (data->sb_dmats)[0])")
                        (XGBoosterUpdateOneIter booster (int_of_UInt iter) dmat);
                  mret tt)
        (seq 0 n_iter) tt;
  mret booster.

End root2xgboost.

(** ** Vocabulary of the statements *)

(** [overwrite a len v arr]: the array once cells [a .. a+len-1] hold [v]. *)
Definition overwrite (a len : nat) (v : Float_t) (arr : cells) : cells :=
  take a arr ++ replicate len (Some v) ++ drop (a + len) arr.

(** A logged call went well when its status is zero. *)
Definition call_ok (a : action) : Prop :=
  match a with Called _ _ err => err = 0%Z | _ => True end.

(** The call behind a log entry. *)
Definition issued (a : action) : option xgb_call :=
  match a with Called _ call _ => Some call | _ => None end.

(** Between [w] and [w'] the library accepted every call. *)
Definition calls_succeed {lib} (w w' : world lib) : Prop :=
  exists L, log w' = log w ++ L /\ Forall call_ok L.

(** Every requested variable is a branch of both trees. *)
Definition columns_present (signal_tree background_tree : TTree)
    (variables : list string) : Prop :=
  Forall (fun var => var ∈ branches signal_tree) variables
  /\ Forall (fun var => var ∈ branches background_tree) variables.

(** The bundle of the tree adapter before the matrix is attached. *)
Definition tree_bundle (n_s n_b : nat) (sw bw : Float_t) : xgboost_data :=
  {| sb_dmats := None;
     weights := replicate n_s (Some sw) ++ replicate n_b (Some bw);
     labels := replicate n_s (Some Float.zero) ++ replicate n_b (Some Float.one);
     n_sig := n_s; n_bgd := n_b |}.

(** The two closing calls of an adapter: the matrix is created from the
    buffer and the labels are attached to it. *)
Definition wrap_matrix {lib} `{XGBoost lib} (s1 s2 : call_site)
    (sb_mat : cells) (n nv : nat) (d : xgboost_data) : M lib xgboost_data :=
  h ← safe_xgboost s1 (XGDMatrixCreateFromMat sb_mat n nv Float.zero);
  _ ← safe_xgboost s2
        (XGDMatrixSetFloatInfo h "label" (labels (set_sb_dmats d h)) n);
  mret (set_sb_dmats d h).

(** The balanced weight of a quotient, and a bounded check that it holds
    the integer one more than the quotient. *)
Definition balanced_of_Z (q : Z) : Float_t :=
  Float.of_Double
    (Double.add Double.one (binary_normalize Double.prec Double.emax q 0 false)).

Fixpoint exact_from (fuel : nat) (q : Z) : bool :=
  match fuel with
  | 0 => true
  | S fuel' =>
      bool_decide (Float.to_Z (balanced_of_Z q) = Some (1 + q)%Z)
      && exact_from fuel' (q + 1)
  end.

(** The C function a call goes to, and the log entries whose call-site
    text is a call of that function. *)
Definition function_name (call : xgb_call) : string :=
  match call with
  | XGDMatrixCreateFromMat _ _ _ _ => "XGDMatrixCreateFromMat"
  | XGDMatrixSetFloatInfo _ _ _ _ => "XGDMatrixSetFloatInfo"
  | XGDMatrixFree _ => "XGDMatrixFree"
  | XGBoosterCreate _ _ => "XGBoosterCreate"
  | XGBoosterSetParam _ _ _ => "XGBoosterSetParam"
  | XGBoosterUpdateOneIter _ _ _ => "XGBoosterUpdateOneIter"
  end.

Definition names_call (site : call_site) (call : xgb_call) : Prop :=
  String.prefix (function_name call +:+ "(") (site_text site) = true.

Definition well_sited (a : action) : Prop :=
  match a with Called site call _ => names_call site call | _ => True end.

(** [replays s L s']: the library, started in the state [s] and given the
    calls logged in [L] one after the other, answers each with the status
    logged for it and ends in the state [s']. *)
Fixpoint replays {lib} `{XGBoost lib} (s : lib) (L : list action) (s' : lib)
  : Prop :=
  match L with
  | [] => s' = s
  | Called _ call err :: L' =>
      (xgb_exec call s).1.1 = err /\ replays (xgb_exec call s).2 L' s'
  | _ :: L' => replays s L' s'
  end.

(** [accepts s calls]: the library, started in the state [s], answers each
    of [calls], made one after the other, with the status zero. *)
Fixpoint accepts {lib} `{XGBoost lib} (s : lib) (calls : list xgb_call)
  : Prop :=
  match calls with
  | [] => True
  | call :: calls' =>
      (xgb_exec call s).1.1 = 0%Z /\ accepts (xgb_exec call s).2 calls'
  end.

(** A run from [w] is checked when the calls it logged are the calls the
    library received, with the statuses the library returned, every one
    carries the text of that call, and the calls all returned zero, or all
    did but the last, which ended the run with the error of
    [safe_xgboost]: file, line and text of that call, followed by the
    library's last error. *)
Definition checked_run {lib} `{XGBoost lib} {A} (w : world lib)
    (r : outcome A * world lib) : Prop :=
  exists L, log r.2 = log w ++ L
    /\ replays (xgb w) L (xgb r.2)
    /\ Forall well_sited L
    /\ (Forall call_ok L
        \/ exists L0 site call err,
             L = L0 ++ [Called site call err]
             /\ Forall call_ok L0 /\ err <> 0%Z
             /\ r.1 = Throw (runtime_error
                        (error_message site (XGBGetLastError (xgb r.2))))).

Definition checked {lib} `{XGBoost lib} {A} (m : M lib A) : Prop :=
  forall w, checked_run w (m w).

(** [splice a vs arr]: the array once the cells from [a] on hold the values
    [vs]. *)
Definition splice (a : nat) (vs : list Float_t) (arr : cells) : cells :=
  take a arr ++ map Some vs ++ drop (a + length vs) arr.

(** What the dataset adapter writes for one event. *)
Definition event_row (n_vars : nat) (ev : Event) : list Float_t :=
  map (GetValue ev) (seq 0 n_vars).

Definition event_label (dataset_info : DataSetInfo) (ev : Event) : Float_t :=
  if IsSignal dataset_info ev then Float.zero else Float.one.

Definition event_weight (ev : Event) : Float_t :=
  Float.of_Double (GetOriginalWeight ev).

(** The counts the dataset records for a partition. *)
Definition recorded (dataset : DataSet) (type : ETreeType)
  : option (nat * nat) :=
  match type with
  | kTesting => Some (GetNEvtSigTest dataset, GetNEvtBkgdTest dataset)
  | kTraining => Some (GetNEvtSigTrain dataset, GetNEvtBkgdTrain dataset)
  | _ => None
  end.

(** The bundle of the dataset adapter before the matrix is attached. *)
Definition dataset_bundle (dataset_info : DataSetInfo) (n_s n_b : nat)
    (events : list Event) : xgboost_data :=
  {| sb_dmats := None;
     weights := splice 0 (map event_weight events) (uninitialised (n_s + n_b));
     labels := splice 0 (map (event_label dataset_info) events)
                 (uninitialised (n_s + n_b));
     n_sig := n_s; n_bgd := n_b |}.

(** The state of the event loop once [evs] have been copied from row [i0],
    and the world once [n] events from [i0] on have been visited. *)
Definition copied (dataset_info : DataSetInfo) (n_vars : nat)
    (evs : list Event) (st : cells * xgboost_data * nat)
  : cells * xgboost_data * nat :=
  let '(sb_mat, d, i0) := st in
  (splice (i0 * n_vars) (flat_map (event_row n_vars) evs) sb_mat,
   set_weights
     (set_labels d (splice i0 (map (event_label dataset_info) evs) (labels d)))
     (splice i0 (map event_weight evs) (weights d)),
   i0 + length evs).

Definition visited {lib} (w : world lib) (i0 n : nat) : world lib :=
  {| xgb := xgb w; log := log w ++ map Get_event (seq i0 n) |}.

(** Two outcomes that differ at most in the weights of the bundle. *)
Definition agree_but_weights (r r' : outcome xgboost_data) : Prop :=
  match r, r' with
  | Ok d, Ok d' =>
      sb_dmats d = sb_dmats d' /\ labels d = labels d'
      /\ n_sig d = n_sig d' /\ n_bgd d = n_bgd d'
  | Throw e, Throw e' => e = e'
  | Undefined ub, Undefined ub' => ub = ub'
  | _, _ => False
  end.

(** A dataset whose events carry other weights. *)
Definition reweigh (f : Event -> Double_t) (ev : Event) : Event :=
  {| GetValue := GetValue ev; GetOriginalWeight := f ev;
     GetClass := GetClass ev |}.

Definition reweigh_info (f : Event -> Double_t) (dataset_info : DataSetInfo)
  : DataSetInfo :=
  let dataset := GetDataSet dataset_info in
  {| GetDataSet :=
       {| GetNVariables := GetNVariables dataset;
          GetNEvtSigTest := GetNEvtSigTest dataset;
          GetNEvtBkgdTest := GetNEvtBkgdTest dataset;
          GetNEvtSigTrain := GetNEvtSigTrain dataset;
          GetNEvtBkgdTrain := GetNEvtBkgdTrain dataset;
          GetEventCollection := fun type =>
            map (reweigh f) (GetEventCollection dataset type) |};
     fSignalClass := fSignalClass dataset_info |}.

(** The gap between the two weighted class totals, and the bound the
    balanced weights are meant to keep it under. *)
Definition weighted_gap (sw bw : Z) (n_s n_b : nat) : Z :=
  Z.abs (sw * Z.of_nat n_s - bw * Z.of_nat n_b).

Definition imbalance_bound (n_s n_b : nat) : Z :=
  Z.of_nat n_s + Z.of_nat n_b - 2 * Z.min (Z.of_nat n_s) (Z.of_nat n_b).

(** ** Concrete inputs

    Two small trees over the branches [x] and [y], three signal and four
    background entries, and a library that accepts every call. *)
Definition float_of_nat (n : nat) : Float_t :=
  Float.of_Double (Double.of_ULong64 n).

Definition entry (x y : nat) : string -> Float_t :=
  fun var => if decide (var = "x") then float_of_nat x else float_of_nat y.

Definition demo_signal : TTree :=
  {| branches := ["x"; "y"];
     entries := [entry 1 2; entry 3 4; entry 5 6] |}.

Definition demo_background : TTree :=
  {| branches := ["x"; "y"];
     entries := [entry 7 8; entry 9 10; entry 11 12; entry 13 14] |}.

Definition empty_tree : TTree := {| branches := ["x"; "y"]; entries := [] |}.

Definition accepting : world scripted :=
  {| xgb := {| script := []; next_handle := 100 |}; log := [] |}.

(** The same library, failing its second call. *)
Definition failing_second : world scripted :=
  {| xgb := {| script := [0; -1]%Z; next_handle := 100 |}; log := [] |}.

(** A small dataset: two variables, signal class 0; the training part has
    two signal events and one background event, the testing part one of
    each. *)
Definition event (cls : nat) (x y : nat) (weight : nat) : Event :=
  {| GetValue := fun j => if decide (j = 0) then float_of_nat x
                          else float_of_nat y;
     GetOriginalWeight := Double.of_ULong64 weight;
     GetClass := cls |}.

Definition demo_dataset : DataSetInfo :=
  {| GetDataSet :=
       {| GetNVariables := 2;
          GetNEvtSigTest := 1; GetNEvtBkgdTest := 1;
          GetNEvtSigTrain := 2; GetNEvtBkgdTrain := 1;
          GetEventCollection := fun type =>
            match type with
            | kTraining => [event 0 1 2 1; event 1 3 4 2; event 0 5 6 1]
            | kTesting => [event 1 7 8 1; event 0 9 10 1]
            | _ => []
            end |};
     fSignalClass := 0 |}.

Definition demo_bundle : xgboost_data :=
  {| sb_dmats := Some 7%Z; weights := []; labels := [];
     n_sig := 0; n_bgd := 0 |}.

(** Tactics for the concrete inputs. *)
Ltac run_succeeds :=
  eexists; split; [cbv; reflexivity | repeat constructor].

Ltac columns_there :=
  split; repeat first
    [ apply Forall_nil_2 | apply Forall_cons_2
    | apply list_elem_of_here | apply list_elem_of_further ].

(** ** Further vocabulary *)

(** [variables] up to its first element that is not a branch of both
    trees. *)
Definition first_missing (signal_tree background_tree : TTree)
    (variables : list string) (var : string) : Prop :=
  exists pre post,
    variables = pre ++ var :: post
    /\ columns_present signal_tree background_tree pre
    /\ (var ∉ branches signal_tree \/ var ∉ branches background_tree).

(** A tree that lacks the branch [y]. *)
Definition narrow_tree : TTree :=
  {| branches := ["x"]; entries := [entry 7 8; entry 9 10] |}.

(** The constant [2.0] in a [Float_t]. *)
Definition Float_two : Float_t := S754_finite false 8388608 (-22).

(** A dataset whose recorded counts do not match its collections: the
    training part records four events and holds three, the testing part
    records one event and holds two. *)
Definition miscounted_dataset : DataSetInfo :=
  {| GetDataSet :=
       {| GetNVariables := 2;
          GetNEvtSigTest := 1; GetNEvtBkgdTest := 0;
          GetNEvtSigTrain := 2; GetNEvtBkgdTrain := 2;
          GetEventCollection := fun type =>
            match type with
            | kTraining => [event 0 1 2 1; event 1 3 4 2; event 0 5 6 1]
            | kTesting => [event 1 7 8 1; event 0 9 10 1]
            | _ => []
            end |};
     fSignalClass := 0 |}.

(** The calls of a training run on the matrix [dmat] with the booster
    [booster]. *)
Definition training_plan (booster : BoosterHandle) (dmat : DMatrixHandle)
    (opts : list (string * string)) (n_iter : nat) : list xgb_call :=
  XGBoosterCreate [dmat] 1
  :: map (fun opt => XGBoosterSetParam booster opt.1 opt.2) opts
  ++ map (fun iter => XGBoosterUpdateOneIter booster (int_of_UInt iter) dmat)
       (seq 0 n_iter).

(** The matrix handles a call names are all [h]. *)
Definition names_only (h : DMatrixHandle) (call : xgb_call) : Prop :=
  match call with
  | XGDMatrixSetFloatInfo d _ _ _ => d = h
  | XGDMatrixFree d => d = h
  | XGBoosterCreate dmats len => dmats = [h] /\ len = 1
  | XGBoosterUpdateOneIter _ _ d => d = h
  | _ => True
  end.

(** Training on a bundle and releasing it, in the order the users of the
    bundle call the two. *)
Definition train_release {lib} `{XGBoost lib} (cxx_file hxx_file : string)
    (data : xgboost_data) (opts : xgbooster_opts) (n_iter : nat)
  : M lib BoosterHandle :=
  booster ← xgboost_train cxx_file data opts n_iter;
  _ ← free hxx_file data;
  mret booster.

(** [convert] is one of the two adapters, applied to its arguments. *)
Definition is_adapter {lib} `{XGBoost lib} (cxx_file : string)
    (convert : M lib xgboost_data) : Prop :=
  (exists signal_tree background_tree variables sig_weight bgd_weight,
     convert = ROOTToXGBoost_trees cxx_file signal_tree background_tree
                 variables sig_weight bgd_weight)
  \/ (exists dataset_info type,
        convert = ROOTToXGBoost_dataset cxx_file dataset_info type).

(** ** The XGBoost side of the testing benchmark

    [BM_XGBOOST_BDTTesting] converts the testing partition of a dataset
    and then, once per benchmark iteration, loads a saved model, predicts
    on the converted matrix and releases what it holds.  The random trees,
    the data loader that turns them into the dataset, the output file and
    the memory counters do not touch the boosting library; the dataset is
    an argument here and the rest is left out.  The calls the benchmark
    makes beyond those of the adapters and the trainer are the
    [model_call]s. *)

Inductive model_call :=
| XGBoosterLoadModel (handle : BoosterHandle) (fname : string)
| XGBoosterPredict (handle : BoosterHandle) (dmat : DMatrixHandle)
    (option_mask : Z) (ntree_limit : nat)
| XGBoosterFree (handle : BoosterHandle).

Class XGBoostModels (lib : Type) := {
  xgb_exec_model : model_call -> lib -> Z * lib
}.

#[global] Instance scripted_XGBoostModels : XGBoostModels scripted := {
  xgb_exec_model _ s :=
    (hd 0%Z (script s),
     {| script := tl (script s); next_handle := next_handle s |})
}.

(** The trace of the benchmark: what the adapter and [free] log, the call
    whose status is not looked at, and the checked model calls. *)
Inductive bench_action :=
| Core (a : action)
| Unchecked (call : xgb_call) (err : Z)
| Called_model (site : call_site) (call : model_call) (err : Z).

Record bench_world (lib : Type) := { bxgb : lib; blog : list bench_action }.
Arguments bxgb {lib} b.
Arguments blog {lib} b.
Arguments Build_bench_world {lib} bxgb blog.

Definition BM (lib A : Type) : Type :=
  bench_world lib -> outcome A * bench_world lib.

#[global] Instance BM_ret lib : MRet (BM lib) := fun A a bw => (Ok a, bw).
#[global] Instance BM_bind lib : MBind (BM lib) := fun A B k m bw =>
  match m bw with
  | (Ok a, bw') => k a bw'
  | (Throw e, bw') => (Throw e, bw')
  | (Undefined ub, bw') => (Undefined ub, bw')
  end.

Definition blift {lib A} (o : outcome A) : BM lib A := fun bw => (o, bw).

(** A computation of the converter library, run inside the benchmark. *)
Definition core {lib A} (m : M lib A) : BM lib A := fun bw =>
  let '(r, w') := m {| xgb := bxgb bw; log := [] |} in
  (r, {| bxgb := xgb w'; blog := blog bw ++ map Core (log w') |}).

(** A call outside [safe_xgboost]: the status is dropped, and the handle
    is the one the call wrote, if it wrote one. *)
Definition unchecked {lib} `{XGBoost lib} (call : xgb_call)
  : BM lib (option Z) := fun bw =>
  let '(err, out, s) := xgb_exec call (bxgb bw) in
  (Ok (if decide (err = 0%Z) then Some out else None),
   {| bxgb := s; blog := blog bw ++ [Unchecked call err] |}).

(** [safe_xgboost] around a model call. *)
Definition safe_model {lib} `{XGBoost lib} `{XGBoostModels lib}
    (site : call_site) (call : model_call) : BM lib unit := fun bw =>
  let '(err, s) := xgb_exec_model call (bxgb bw) in
  let bw' := {| bxgb := s; blog := blog bw ++ [Called_model site call err] |} in
  if decide (err ≠ 0%Z)
  then (Throw (runtime_error (error_message site (XGBGetLastError s))), bw')
  else (Ok tt, bw').

(** [for(auto _: state)]: the benchmark library decides how often the body
    runs. *)
Fixpoint each_iteration {lib} (iterations : nat) (body : BM lib unit)
  : BM lib unit :=
  match iterations with
  | 0 => mret tt
  | S n => _ ← body; each_iteration n body
  end.

(** [std::to_string] on a benchmark argument. *)
Definition to_string_int (z : Z) : string :=
  DecimalString.NilEmpty.string_of_int (Z.to_int z).

Section benchmark.
Context {lib : Type} `{XGBoost lib} `{XGBoostModels lib}.
(** [__FILE__] in the benchmark, the implementation file and the header. *)
Variables (bench_file cxx_file hxx_file : string).

Definition bench_site (line : nat) (text : string) : call_site :=
  {| site_file := bench_file; site_line := line; site_text := text |}.

Definition model_file (range0 range1 : Z) : string :=
  "BDT_" +:+ to_string_int range0 +:+ "_" +:+ to_string_int range1
  +:+ ".model".

(** The body of the benchmark loop. *)
Definition BM_XGBOOST_BDTTesting_iteration (xg_test_data : xgboost_data)
    (range0 range1 : Z) : BM lib unit :=
  let fname := model_file range0 range1 in
  xgbooster ← unchecked (XGBoosterCreate [] 0);
  xgbooster ← blift (from_option Ok (Undefined IndeterminateHandle) xgbooster);
  _ ← safe_model
        (bench_site 311 "XGBoosterLoadModel(xgbooster, fname.c_str())")
        (XGBoosterLoadModel xgbooster fname);
  dmat ← blift (from_option Ok (Undefined IndeterminateHandle)
                  (sb_dmats xg_test_data));
  _ ← safe_model
        (bench_site 322 "XGBoosterPredict(xgbooster, (xg_test_data->sb_dmats)[0], 0, 0, &output_length, &output_result)")
        (XGBoosterPredict xgbooster dmat 0 0);
  _ ← core (free hxx_file xg_test_data);
  safe_model (bench_site 335 "XGBoosterFree(xgbooster)")
    (XGBoosterFree xgbooster).

Definition BM_XGBOOST_BDTTesting (dataset_info : DataSetInfo)
    (range0 range1 : Z) (iterations : nat) : BM lib unit :=
  xg_test_data ← core (ROOTToXGBoost_dataset cxx_file dataset_info kTesting);
  each_iteration iterations
    (BM_XGBOOST_BDTTesting_iteration xg_test_data range0 range1).

(** What one iteration logs when every call is accepted, for the booster
    [b] and the matrix [h]. *)
Definition iteration_trace (range0 range1 : Z) (h : DMatrixHandle)
    (b : BoosterHandle) : list bench_action :=
  [Unchecked (XGBoosterCreate [] 0) 0;
   Called_model
     (bench_site 311 "XGBoosterLoadModel(xgbooster, fname.c_str())")
     (XGBoosterLoadModel b (model_file range0 range1)) 0;
   Called_model
     (bench_site 322 "XGBoosterPredict(xgbooster, (xg_test_data->sb_dmats)[0], 0, 0, &output_length, &output_result)")
     (XGBoosterPredict b h 0 0) 0;
   Core (Called {| site_file := hxx_file; site_line := 52;
                   site_text := "XGDMatrixFree(sb_dmats[0])" |}
           (XGDMatrixFree h) 0);
   Called_model (bench_site 335 "XGBoosterFree(xgbooster)")
     (XGBoosterFree b) 0].

End benchmark.

(** A logged benchmark call went well when its status is zero. *)
Definition bench_ok (a : bench_action) : Prop :=
  match a with
  | Core a => call_ok a
  | Unchecked _ err => err = 0%Z
  | Called_model _ _ err => err = 0%Z
  end.

Definition bench_calls_succeed {lib} (bw bw' : bench_world lib) : Prop :=
  exists L, blog bw' = blog bw ++ L /\ Forall bench_ok L.

Definition bench_accepting : bench_world scripted :=
  {| bxgb := {| script := []; next_handle := 100 |}; blog := [] |}.

(** [a] records a release of the matrix [h]. *)
Definition frees_matrix (h : DMatrixHandle) (a : bench_action) : bool :=
  match a with
  | Core (Called _ (XGDMatrixFree h') _) => bool_decide (h' = h)
  | _ => false
  end.

(** A library that accepts the two calls of the adapter and turns the
    creation of the booster down. *)
Definition bench_rejecting : bench_world scripted :=
  {| bxgb := {| script := [0; 0; 1]%Z; next_handle := 100 |}; blog := [] |}.

(** * Properties *)

(** ** Arrays and loops *)

Lemma flat_index_inj n i c i' c' :
  c < n -> c' < n -> i * n + c = i' * n + c' -> i = i' /\ c = c'.
Proof.
  intros Hc Hc' E.
  assert (i = i') as ->; [|lia].
  destruct (Nat.lt_trichotomy i i') as [Hlt | [-> | Hlt]]; [|done|].
  - assert (S i * n <= i' * n) by (apply Nat.mul_le_mono_r; lia). lia.
  - assert (S i' * n <= i * n) by (apply Nat.mul_le_mono_r; lia). lia.
Qed.

Lemma store_Ok arr i v :
  i < length arr -> store arr i v = Ok (<[i := Some v]> arr).
Proof. intros Hi. unfold store. case_decide; [done | lia]. Qed.

Lemma fill_column_spec n_vars j col : forall sb_mat i0,
  j < n_vars -> (i0 + length col) * n_vars <= length sb_mat ->
  exists sb_mat',
    fill_column n_vars j col (sb_mat, i0) = Ok (sb_mat', i0 + length col)
    /\ length sb_mat' = length sb_mat
    /\ (forall k v, col !! k = Some v ->
          sb_mat' !! ((i0 + k) * n_vars + j) = Some (Some v))
    /\ (forall i c, c < n_vars -> (c <> j \/ i < i0 \/ i0 + length col <= i) ->
          sb_mat' !! (i * n_vars + c) = sb_mat !! (i * n_vars + c)).
Proof.
  induction col as [|v col IH]; intros sb_mat i0 Hj Hlen; simpl in *.
  - exists sb_mat. rewrite Nat.add_0_r. split; [done|]. split; [done|].
    split; [|done]. intros k v Hk. by rewrite lookup_nil in Hk.
  - assert (Hi : i0 * n_vars + j < length sb_mat) by nia.
    unfold fill_column. simpl. rewrite (store_Ok _ _ _ Hi). simpl.
    destruct (IH (<[i0 * n_vars + j := Some v]> sb_mat) (S i0) Hj)
      as (sb_mat' & Hrun & Hl & Hset & Hkeep).
    { rewrite length_insert. lia. }
    exists sb_mat'. unfold fill_column in Hrun.
    rewrite length_insert in Hl.
    split; [etrans; [exact Hrun | do 2 f_equal; lia]|].
    split; [done|]. split.
    + intros [|k] v' Hk; simpl in Hk.
      * injection Hk as <-. rewrite Nat.add_0_r.
        rewrite Hkeep by (auto; lia).
        by rewrite list_lookup_insert_eq.
      * replace (i0 + S k) with (S i0 + k) by lia. by apply Hset.
    + intros i c Hc Hout. rewrite Hkeep by (auto; lia).
      apply list_lookup_insert_ne. intros E.
      apply flat_index_inj in E as [-> ->]; [lia | lia | done].
Qed.

Section tree_matrix.
Variables (signal_tree background_tree : TTree) (n_vars : nat).

Lemma fill_variable_spec : forall rest j sb_mat,
  j + length rest = n_vars ->
  Forall (fun var => var ∈ branches signal_tree) rest ->
  Forall (fun var => var ∈ branches background_tree) rest ->
  length sb_mat = (Count signal_tree + Count background_tree) * n_vars ->
  exists sb_mat',
    foldM (fill_variable signal_tree background_tree n_vars) rest (sb_mat, j)
      = Ok (sb_mat', n_vars)
    /\ length sb_mat' = length sb_mat
    /\ (forall i e jj var,
          (entries signal_tree ++ entries background_tree) !! i = Some e ->
          rest !! jj = Some var ->
          sb_mat' !! (i * n_vars + (j + jj)) = Some (Some (e var)))
    /\ (forall i c, c < j ->
          sb_mat' !! (i * n_vars + c) = sb_mat !! (i * n_vars + c)).
Proof.
  induction rest as [|var rest IH]; intros j sb_mat Hj Hsig Hbgd Hlen;
    simpl in *.
  - rewrite Nat.add_0_r in Hj. subst j. exists sb_mat.
    split; [done|]. split; [done|]. split; [|done].
    intros i e jj var _ Hjj. by rewrite lookup_nil in Hjj.
  - apply Forall_cons in Hsig as [Hs Hsig].
    apply Forall_cons in Hbgd as [Hb Hbgd].
    unfold Take. rewrite !decide_True by done. simpl.
    set (sig_col := map (fun e => e var) (entries signal_tree)).
    set (bgd_col := map (fun e => e var) (entries background_tree)).
    assert (Hls : length sig_col = Count signal_tree)
      by apply length_map.
    assert (Hlb : length bgd_col = Count background_tree)
      by apply length_map.
    destruct (fill_column_spec n_vars j sig_col sb_mat 0)
      as (m1 & Hrun1 & Hl1 & Hset1 & Hkeep1); [lia | nia |].
    rewrite Hrun1. simpl.
    destruct (fill_column_spec n_vars j bgd_col m1 (length sig_col))
      as (m2 & Hrun2 & Hl2 & Hset2 & Hkeep2); [lia | nia |].
    rewrite Hrun2. simpl.
    destruct (IH (S j) m2) as (m3 & Hrun3 & Hl3 & Hset3 & Hkeep3);
      [lia | done | done | lia |].
    exists m3. split; [done|]. split; [lia|]. split.
    + intros i e [|jj] var' Hi Hjj; simpl in Hjj.
      * injection Hjj as <-. rewrite Nat.add_0_r.
        rewrite Hkeep3 by lia.
        apply lookup_app_Some in Hi as [Hi | [Hge Hi]].
        -- rewrite Hkeep2.
           ++ apply (Hset1 i). unfold sig_col.
              by rewrite list_lookup_fmap, Hi.
           ++ lia.
           ++ right; left. apply lookup_lt_Some in Hi.
              unfold Count in Hls. lia.
        -- unfold Count in Hls.
           replace i with (length sig_col + (i - length (entries signal_tree)))
             at 1 by lia.
           apply Hset2. unfold bgd_col. by rewrite list_lookup_fmap, Hi.
      * replace (j + S jj) with (S j + jj) by lia. by apply (Hset3 i e jj).
    + intros i c Hc. rewrite Hkeep3 by lia.
      rewrite Hkeep2 by (auto; lia). apply Hkeep1; [lia | left; lia].
Qed.
End tree_matrix.

(** The loops that set a run of rows to one label and one weight. *)
Lemma overwrite_step a len v arr :
  a < length arr ->
  overwrite (S a) len v (<[a := Some v]> arr) = overwrite a (S len) v arr.
Proof.
  intros Ha. unfold overwrite.
  rewrite (take_S_r _ a (Some v)) by (by apply list_lookup_insert_eq).
  rewrite take_insert_ge by lia. rewrite drop_insert_lt by lia.
  replace (a + S len) with (S a + len) by lia.
  by rewrite <- app_assoc.
Qed.

Lemma set_row_Ok l w d k :
  k < length (labels d) -> k < length (weights d) ->
  set_row l w d k
  = Ok (set_weights (set_labels d (<[k := Some l]> (labels d)))
          (<[k := Some w]> (weights d))).
Proof.
  intros Hl Hw. unfold set_row. rewrite (store_Ok (labels d)) by done. simpl.
  by rewrite (store_Ok (weights d)) by done.
Qed.

Lemma set_rows_spec l w : forall len a d,
  a + len <= length (labels d) -> length (weights d) = length (labels d) ->
  foldM (set_row l w) (seq a len) d
  = Ok (set_weights (set_labels d (overwrite a len l (labels d)))
          (overwrite a len w (weights d))).
Proof.
  induction len as [|len IH]; intros a d Ha Hw; simpl.
  - unfold overwrite. simpl. rewrite Nat.add_0_r, !take_drop.
    by destruct d.
  - rewrite set_row_Ok by lia. simpl.
    rewrite IH; simpl; rewrite ?length_insert; [|lia|lia].
    rewrite !overwrite_step by lia. done.
Qed.

(** ** Running computations *)

Section running.
Context {lib : Type} `{XGBoost lib}.

Lemma lift_bind_Ok {A B} (a : A) (k : A -> M lib B) w :
  (lift (Ok a) ≫= k) w = k a w.
Proof. reflexivity. Qed.

Lemma lift_bind_Throw {A B} e (k : A -> M lib B) w :
  (lift (Throw e) ≫= k) w = (Throw e, w).
Proof. reflexivity. Qed.

Lemma lift_bind_Undefined {A B} ub (k : A -> M lib B) w :
  (lift (Undefined ub) ≫= k) w = (Undefined ub, w).
Proof. reflexivity. Qed.

Lemma ret_run {A} (a : A) (w : world lib) :
  (mret a : M lib A) w = (Ok a, w).
Proof. reflexivity. Qed.

Lemma ret_bind {A B} (a : A) (k : A -> M lib B) w :
  (mret a ≫= k) w = k a w.
Proof. reflexivity. Qed.

Lemma M_bind_assoc {A B C} (m : M lib A) (f : A -> M lib B)
    (g : B -> M lib C) w :
  ((m ≫= f) ≫= g) w = (m ≫= fun a => f a ≫= g) w.
Proof.
  unfold mbind, M_bind. by destruct (m w) as [[a|e|ub] w'].
Qed.

Lemma bind_run {A B} (m : M lib A) (k : A -> M lib B) w :
  (m ≫= k) w
  = match (m w).1 with
    | Ok a => k a (m w).2
    | Throw e => (Throw e, (m w).2)
    | Undefined ub => (Undefined ub, (m w).2)
    end.
Proof. unfold mbind, M_bind. by destruct (m w) as [[a|e|ub] w']. Qed.

Lemma safe_xgboost_bind {B} st call (k : Z -> M lib B) w :
  (safe_xgboost st call ≫= k) w
  = let '(err, out, s) := xgb_exec call (xgb w) in
    let w' := {| xgb := s; log := log w ++ [Called st call err] |} in
    if decide (err ≠ 0%Z)
    then (Throw (runtime_error (error_message st (XGBGetLastError s))), w')
    else k out w'.
Proof.
  unfold mbind, M_bind, safe_xgboost.
  destruct (xgb_exec call (xgb w)) as [[err out] s]. by case_decide.
Qed.

Lemma emit_bind {B} a (k : unit -> M lib B) w :
  (emit a ≫= k) w = k tt {| xgb := xgb w; log := log w ++ [a] |}.
Proof. reflexivity. Qed.

Lemma new_xgboost_data_bind {B} n_s n_b (k : xgboost_data -> M lib B) w :
  (new_xgboost_data n_s n_b ≫= k) w
  = k {| sb_dmats := None;
         weights := uninitialised (n_s + n_b);
         labels := uninitialised (n_s + n_b);
         n_sig := n_s; n_bgd := n_b |}
      {| xgb := xgb w; log := log w ++ [New_xgboost_data n_s n_b] |}.
Proof. reflexivity. Qed.

Lemma calls_succeed_failed (w0 w' : world lib) L0 site call err :
  log w' = (log w0 ++ L0 ++ [Called site call err])%list ->
  calls_succeed w0 w' -> err = 0%Z.
Proof.
  intros E (L & HL & Hok). rewrite E in HL.
  apply app_inv_head in HL. subst L.
  apply Forall_app in Hok as [_ Hok]. by inversion_clear Hok.
Qed.

(** The two closing calls of an adapter: the matrix is created from the
    buffer, and the labels are attached to it. *)
Lemma wrap_matrix_run s1 s2 sb_mat n nv (d : xgboost_data) w0 L0 w :
  log w = (log w0 ++ L0)%list ->
  let run := wrap_matrix s1 s2 sb_mat n nv d w in
  calls_succeed w0 run.2 ->
  exists h,
    run.1 = Ok (set_sb_dmats d h)
    /\ log run.2
       = (log w ++ [Called s1 (XGDMatrixCreateFromMat sb_mat n nv Float.zero) 0;
                    Called s2 (XGDMatrixSetFloatInfo h "label" (labels d) n) 0])%list.
Proof.
  intros Hw. unfold wrap_matrix, mbind, M_bind, mret, M_ret, safe_xgboost.
  simpl.
  destruct (xgb_exec (XGDMatrixCreateFromMat sb_mat n nv Float.zero) (xgb w))
    as [[err1 h] s] eqn:E1.
  case_decide as Herr1; simpl.
  { intros Hok. destruct Herr1.
    eapply (calls_succeed_failed _ _ L0); [|exact Hok].
    simpl. by rewrite Hw, <- app_assoc. }
  subst err1.
  destruct (xgb_exec (XGDMatrixSetFloatInfo h "label" (labels d) n) s)
    as [[err2 o] s'] eqn:E2.
  case_decide as Herr2; simpl.
  { intros Hok. destruct Herr2.
    eapply (calls_succeed_failed _ _ (L0 ++ [_])); [|exact Hok].
    simpl. by rewrite Hw, <- !app_assoc. }
  subst err2.
  intros _. exists h. split; [done|]. by rewrite <- app_assoc.
Qed.

Lemma wrap_matrix_defined s1 s2 sb_mat n nv (d : xgboost_data) w ub :
  (wrap_matrix s1 s2 sb_mat n nv d w).1 <> Undefined ub.
Proof.
  unfold wrap_matrix, mbind, M_bind, mret, M_ret, safe_xgboost. simpl.
  destruct (xgb_exec _ (xgb w)) as [[err1 h] s].
  case_decide; simpl; [done|].
  destruct (xgb_exec _ s) as [[err2 o] s'].
  by case_decide.
Qed.
End running.

Lemma overwrite_front a b v (x : option Float_t) :
  overwrite 0 a v (replicate (a + b) x)
  = replicate a (Some v) ++ replicate b x.
Proof.
  unfold overwrite. simpl. by rewrite drop_replicate_add.
Qed.

Lemma overwrite_back a b v (l : cells) (x : option Float_t) :
  length l = a ->
  overwrite a b v (l ++ replicate b x) = l ++ replicate b (Some v).
Proof.
  intros <-. unfold overwrite.
  rewrite take_app_length, drop_ge, app_nil_r; [done|].
  rewrite length_app, length_replicate. lia.
Qed.

Section tree_adapter.
Context {lib : Type} `{XGBoost lib}.
Variables (cxx_file : string).
Variables (signal_tree background_tree : TTree) (variables : list string).
Let n_s := Count signal_tree.
Let n_b := Count background_tree.
Let n_v := length variables.

Lemma fill_tree_matrix_spec :
  columns_present signal_tree background_tree variables ->
  exists sb_mat,
    fill_tree_matrix signal_tree background_tree variables
      (uninitialised ((n_s + n_b) * n_v)) = Ok sb_mat
    /\ length sb_mat = (n_s + n_b) * n_v
    /\ (forall i e j var,
          (entries signal_tree ++ entries background_tree) !! i = Some e ->
          variables !! j = Some var ->
          sb_mat !! (i * n_v + j) = Some (Some (e var))).
Proof.
  intros [Hs Hb]. unfold fill_tree_matrix.
  destruct (fill_variable_spec signal_tree background_tree n_v variables 0
              (uninitialised ((n_s + n_b) * n_v)))
    as (sb_mat & Hrun & Hlen & Hset & _); [done | done | done | |].
  { unfold uninitialised. by rewrite length_replicate. }
  exists sb_mat. fold n_v. rewrite Hrun. simpl. split; [done|].
  unfold uninitialised in Hlen. rewrite length_replicate in Hlen.
  split; [done|]. intros i e j var Hi Hj. by apply (Hset i e j var).
Qed.

Lemma trees_run_eq sig_weight bgd_weight sb_mat sw bw w :
  fill_tree_matrix signal_tree background_tree variables
    (uninitialised ((n_s + n_b) * n_v)) = Ok sb_mat ->
  class_weight sig_weight n_b n_s = Ok sw ->
  class_weight bgd_weight n_s n_b = Ok bw ->
  ROOTToXGBoost_trees cxx_file signal_tree background_tree variables
    sig_weight bgd_weight w
  = wrap_matrix
      (site cxx_file 71 "XGDMatrixCreateFromMat((Float_t*) sb_mat, *n_sig + *n_bgd, n_vars, 0, &((data->sb_dmats)[0]))")
      (site cxx_file 72 ("XGDMatrixSetFloatInfo((data->sb_dmats)[0], " +:+ dquote
                  +:+ "label" +:+ dquote
                  +:+ ", data->labels, *n_sig + *n_bgd)"))
      sb_mat (n_s + n_b) n_v (tree_bundle n_s n_b sw bw)
      {| xgb := xgb w; log := log w ++ [New_xgboost_data n_s n_b] |}.
Proof.
  intros Hfill Hsw Hbw.
  unfold ROOTToXGBoost_trees. fold n_s n_b n_v.
  rewrite Hfill, lift_bind_Ok, new_xgboost_data_bind.
  rewrite Hsw, lift_bind_Ok.
  rewrite set_rows_spec; simpl;
    [| unfold uninitialised; rewrite length_replicate; lia | done].
  rewrite lift_bind_Ok, Hbw, lift_bind_Ok.
  rewrite set_rows_spec; simpl;
    [| unfold overwrite, uninitialised;
       rewrite !length_app, !length_replicate, !length_drop, !length_replicate;
       simpl; lia
     | unfold overwrite, uninitialised;
       rewrite !length_app, !length_replicate, !length_drop, !length_replicate;
       simpl; lia ].
  rewrite lift_bind_Ok. unfold uninitialised.
  rewrite !overwrite_front, !overwrite_back by apply length_replicate.
  reflexivity.
Qed.

Lemma trees_run sig_weight bgd_weight sw bw w :
  columns_present signal_tree background_tree variables ->
  class_weight sig_weight n_b n_s = Ok sw ->
  class_weight bgd_weight n_s n_b = Ok bw ->
  let run := ROOTToXGBoost_trees cxx_file signal_tree background_tree
               variables sig_weight bgd_weight w in
  calls_succeed w run.2 ->
  exists sb_mat h,
    fill_tree_matrix signal_tree background_tree variables
      (uninitialised ((n_s + n_b) * n_v)) = Ok sb_mat
    /\ run.1 = Ok (set_sb_dmats (tree_bundle n_s n_b sw bw) h)
    /\ exists s1 s2,
        log run.2
        = (log w ++ [New_xgboost_data n_s n_b;
             Called s1 (XGDMatrixCreateFromMat sb_mat (n_s + n_b) n_v Float.zero) 0;
             Called s2 (XGDMatrixSetFloatInfo h "label"
                          (labels (tree_bundle n_s n_b sw bw)) (n_s + n_b)) 0])%list.
Proof.
  intros Hcols Hsw Hbw.
  destruct (fill_tree_matrix_spec Hcols) as (sb_mat & Hfill & _).
  rewrite (trees_run_eq _ _ _ _ _ _ Hfill Hsw Hbw).
  intros run Hok.
  destruct (wrap_matrix_run _ _ _ _ _ _ w [New_xgboost_data n_s n_b]
              {| xgb := xgb w; log := log w ++ [New_xgboost_data n_s n_b] |}
              eq_refl Hok)
    as (h & Hr & Hlog).
  exists sb_mat, h. split; [done|]. split; [exact Hr|].
  eexists _, _. unfold run. rewrite Hlog. simpl. by rewrite <- app_assoc.
Qed.
End tree_adapter.

(** ** Floating-point values of the balanced weights *)

Lemma exact_from_spec fuel : forall q k,
  exact_from fuel q = true -> (0 <= k < Z.of_nat fuel)%Z ->
  Float.to_Z (balanced_of_Z (q + k)) = Some (1 + (q + k))%Z.
Proof.
  induction fuel as [|fuel IH]; intros q k Hrun Hk; [lia|].
  simpl in Hrun. apply andb_true_iff in Hrun as [Hq Hrest].
  destruct (decide (k = 0%Z)) as [->|Hne].
  - rewrite Z.add_0_r. by apply bool_decide_eq_true_1 in Hq.
  - replace (q + k)%Z with ((q + 1) + (k - 1))%Z by lia.
    apply IH; [done | lia].
Qed.

Lemma balanced_value_small q :
  (Z.of_nat q < 65536)%Z ->
  Float.to_Z (Float.of_Double (Double.add Double.one (Double.of_ULong64 q)))
  = Some (1 + Z.of_nat q)%Z.
Proof.
  intros Hq.
  assert (Hall : exact_from (Z.to_nat 65536) 0 = true)
    by (vm_compute; reflexivity).
  apply (exact_from_spec _ 0 (Z.of_nat q) Hall). lia.
Qed.

(** ** Every call is checked *)

Lemma string_app_assoc (a b c : string) :
  (a +:+ b) +:+ c = a +:+ (b +:+ c).
Proof.
  induction a as [|x a IH]; [reflexivity|].
  change (String x ((a +:+ b) +:+ c) = String x (a +:+ (b +:+ c))).
  by rewrite IH.
Qed.

Section checked.
Context {lib : Type} `{XGBoost lib}.

Lemma replays_app (s s' s'' : lib) L1 L2 :
  replays s L1 s' -> replays s' L2 s'' -> replays s (L1 ++ L2) s''.
Proof.
  revert s. induction L1 as [|a L1 IH]; intros s; cbn [replays app].
  - by intros ->.
  - destruct a as [n_s n_b|i|st call err]; [by apply IH..|].
    intros [Herr H1] H2. split; [done|]. by apply IH.
Qed.

(** Logged calls that all went well were accepted by the library. *)
Lemma replays_accepts (s s' : lib) L :
  replays s L s' -> Forall call_ok L -> accepts s (omap issued L).
Proof.
  revert s. induction L as [|a L IH]; intros s; [done|].
  destruct a as [n_s n_b|i|st call err]; cbn [replays];
    intros Hr Hall; apply Forall_cons in Hall as [Ha Hall];
    [by apply IH..|].
  destruct Hr as [Herr Hr]. simpl in Ha. subst err.
  change (omap issued (Called st call 0 :: L)) with (call :: omap issued L).
  split; [done|]. by apply IH.
Qed.

(** Logged calls one of which was turned down: the library does not
    accept a list of calls that starts with them. *)
Lemma replays_rejects (s s' : lib) L plan :
  replays s L s' -> ~ Forall call_ok L -> omap issued L `prefix_of` plan ->
  ~ accepts s plan.
Proof.
  revert s plan. induction L as [|a L IH]; intros s plan;
    [by intros _ Hn; destruct Hn|].
  destruct a as [n_s n_b|i|st call err]; cbn [replays]; intros Hr Hn Hpre.
  1,2: apply (IH s plan Hr); [|done];
       intros Hall; apply Hn; by constructor.
  destruct Hr as [Herr Hr].
  change (omap issued (Called st call err :: L))
    with (call :: omap issued L) in Hpre.
  destruct Hpre as [rest ->]. cbn [app accepts]. intros [Hz Hacc].
  apply (IH _ (omap issued L ++ rest) Hr); [|by eexists|done].
  intros Hall. apply Hn. constructor; [|done]. simpl. congruence.
Qed.

Lemma checked_ret {A} (a : A) : checked (mret a : M lib A).
Proof.
  intros w. exists []. simpl.
  split; [by rewrite app_nil_r|]. split; [done|]. split; [done | by left].
Qed.

Lemma checked_lift {A} (o : outcome A) : checked (lift o : M lib A).
Proof.
  intros w. exists []. simpl.
  split; [by rewrite app_nil_r|]. split; [done|]. split; [done | by left].
Qed.

Lemma checked_emit a : issued a = None -> checked (emit a : M lib unit).
Proof.
  intros Ha w. exists [a]. simpl. split; [done|].
  split; [by destruct a|].
  split; [|left]; apply Forall_singleton; by destruct a.
Qed.

Lemma checked_safe_xgboost site call :
  names_call site call -> checked (safe_xgboost site call).
Proof.
  intros Hsite w. unfold safe_xgboost.
  destruct (xgb_exec call (xgb w)) as [[err out] s] eqn:Hexec.
  exists [Called site call err].
  assert (Hrep : forall r : outcome Z,
            replays (xgb w) [Called site call err]
              (xgb (r, {| xgb := s; log := log w ++ [Called site call err] |}).2)).
  { intros r. cbn [replays snd xgb]. by rewrite Hexec. }
  case_decide as Herr.
  - split; [done|]. split; [apply Hrep|].
    split; [by apply Forall_singleton|].
    right. by exists [], site, call, err.
  - split; [done|]. split; [apply Hrep|].
    split; [by apply Forall_singleton|].
    left. apply Forall_singleton. simpl.
    by destruct (decide (err = 0%Z)).
Qed.

Lemma checked_bind {A B} (m : M lib A) (k : A -> M lib B) :
  checked m -> (forall a, checked (k a)) -> checked (m ≫= k).
Proof.
  intros Hm Hk w. unfold mbind, M_bind.
  destruct (Hm w) as (L1 & Hlog1 & Hrep1 & Hs1 & H1).
  destruct (m w) as [[a|e|ub] w1] eqn:Em; simpl in *.
  - destruct H1 as [Hok1 | (L0 & st & c & err & _ & _ & _ & Habs)];
      [|done].
    destruct (Hk a w1) as (L2 & Hlog2 & Hrep2 & Hs2 & H2).
    exists (L1 ++ L2). split; [by rewrite Hlog2, Hlog1, app_assoc|].
    split; [by eapply replays_app|].
    split; [by apply Forall_app|].
    destruct H2 as [Hok2 | (L0 & st & c & err & -> & Hok0 & Herr & Hr)].
    + left. by apply Forall_app.
    + right. exists (L1 ++ L0), st, c, err.
      split; [by rewrite app_assoc|]. split; [by apply Forall_app|]. done.
  - exists L1. split; [done|]. split; [done|]. split; [done|].
    destruct H1 as [Hok1 | (L0 & st & c & err & -> & Hok0 & Herr & Hr)];
      [by left|].
    right. exists L0, st, c, err. repeat split; [done..|].
    injection Hr as ->. reflexivity.
  - exists L1. split; [done|]. split; [done|]. split; [done|].
    destruct H1 as [Hok1 | (L0 & st & c & err & _ & _ & _ & Habs)];
      [by left | done].
Qed.

Lemma checked_for_each {A B} (body : B -> A -> M lib B) l :
  (forall b a, checked (body b a)) -> forall b, checked (for_each body l b).
Proof.
  intros Hbody. induction l as [|a l IH]; intros b; simpl.
  - apply checked_ret.
  - apply checked_bind; [apply Hbody | apply IH].
Qed.

Lemma xgboost_train_checked cxx_file (data : xgboost_data) opts n_iter :
  checked (xgboost_train cxx_file data opts n_iter).
Proof.
  unfold xgboost_train.
  repeat first
    [ apply checked_bind | apply checked_for_each | intros ?
    | apply checked_lift | apply checked_ret
    | apply checked_safe_xgboost; reflexivity ].
Qed.
End checked.

(** ** Loops of checked calls *)

Section call_loops.
Context {lib : Type} `{XGBoost lib}.

Lemma not_all_ok_cons a L : ~ Forall call_ok L -> ~ Forall call_ok (a :: L).
Proof. intros Hn Hall. apply Hn. by inversion Hall. Qed.

Lemma call_loop_run {X} st (mk : X -> xgb_call) l : forall w,
  let run := for_each (fun (_ : unit) x =>
                         _ ← safe_xgboost st (mk x); mret tt) l tt w in
  exists L, log run.2 = log w ++ L
    /\ Forall (fun a => is_Some (issued a)) L
    /\ ((run.1 = Ok tt /\ Forall call_ok L /\ omap issued L = map mk l)
        \/ (exists e, run.1 = Throw e /\ ~ Forall call_ok L
                      /\ omap issued L `prefix_of` map mk l)).
Proof.
  induction l as [|x l IH]; intros w; simpl.
  - exists []. rewrite app_nil_r. split; [done|]. split; [done|]. by left.
  - rewrite M_bind_assoc, safe_xgboost_bind.
    destruct (xgb_exec (mk x) (xgb w)) as [[err out] s].
    case_decide as Herr; simpl.
    + exists [Called st (mk x) err]. split; [done|].
      split; [by repeat constructor|]. right. eexists.
      split; [done|]. split.
      * intros Hall. inversion Hall; subst. done.
      * simpl. apply prefix_cons, prefix_nil.
    + rewrite ret_bind.
      destruct (IH {| xgb := s; log := log w ++ [Called st (mk x) err] |})
        as (L & Hlog & Hcalls & Hcase).
      exists (Called st (mk x) err :: L). simpl in Hlog.
      split; [by rewrite Hlog, <- app_assoc|].
      split; [by repeat constructor|].
      destruct Hcase as [(Hr & Hall & Hplan) | (e & Hr & Hn & Hpre)].
      * left. split; [done|]. split; [by constructor|].
        change (omap issued (Called st (mk x) err :: L))
          with (mk x :: omap issued L).
        by rewrite Hplan.
      * right. exists e. split; [done|].
        split; [by apply not_all_ok_cons|].
        change (omap issued (Called st (mk x) err :: L))
          with (mk x :: omap issued L).
        by apply prefix_cons.
Qed.
End call_loops.

(** ** The event loop of the dataset adapter *)

Lemma length_splice a vs arr :
  a + length vs <= length arr -> length (splice a vs arr) = length arr.
Proof.
  intros Hle. unfold splice.
  rewrite !length_app, length_map, length_take, length_drop. lia.
Qed.

Lemma splice_nil a arr : splice a [] arr = arr.
Proof. unfold splice. simpl. by rewrite Nat.add_0_r, take_drop. Qed.

Lemma splice_step a v vs arr :
  a < length arr ->
  splice (S a) vs (<[a := Some v]> arr) = splice a (v :: vs) arr.
Proof.
  intros Ha. unfold splice.
  rewrite (take_S_r _ a (Some v)) by (by apply list_lookup_insert_eq).
  rewrite take_insert_ge by lia. rewrite drop_insert_lt by lia.
  simpl. replace (a + S (length vs)) with (S a + length vs) by lia.
  by rewrite <- app_assoc.
Qed.

Lemma splice_splice a vs ws arr :
  a + length vs <= length arr ->
  splice (a + length vs) ws (splice a vs arr) = splice a (vs ++ ws) arr.
Proof.
  revert a arr. induction vs as [|v vs IH]; intros a arr Hle; simpl in *.
  - by rewrite Nat.add_0_r, splice_nil.
  - rewrite <- !splice_step by lia.
    replace (a + S (length vs)) with (S a + length vs) by lia.
    apply IH. rewrite length_insert. lia.
Qed.

Lemma splice_all vs n :
  length vs = n -> splice 0 vs (uninitialised n) = map Some vs.
Proof.
  intros <-. unfold splice, uninitialised. simpl.
  rewrite drop_ge, app_nil_r; [done|]. by rewrite length_replicate.
Qed.

Lemma for_each_cons {lib A B} (body : B -> A -> M lib B) a l b :
  for_each body (a :: l) b = (b' ← body b a; for_each body l b').
Proof. reflexivity. Qed.

Lemma for_each_app {lib A B} (body : B -> A -> M lib B) l1 l2 b w :
  for_each body (l1 ++ l2) b w
  = (b' ← for_each body l1 b; for_each body l2 b') w.
Proof.
  revert b w. induction l1 as [|a l1 IH]; intros b w; simpl.
  - reflexivity.
  - rewrite M_bind_assoc, !(bind_run (body b a)).
    destruct (body b a w).1; [apply IH | done | done].
Qed.

Section event_loop.
Context {lib : Type} `{XGBoost lib}.
Variables (dataset_info : DataSetInfo) (n_vars N : nat).

Lemma fill_event_spec i ev : forall len a sb_mat,
  i * n_vars + a + len <= length sb_mat ->
  foldM (fun sb_mat j => store sb_mat (i * n_vars + j) (GetValue ev j))
    (seq a len) sb_mat
  = Ok (splice (i * n_vars + a) (map (GetValue ev) (seq a len)) sb_mat).
Proof.
  induction len as [|len IH]; intros a sb_mat Hle; simpl.
  - by rewrite splice_nil.
  - rewrite store_Ok by lia. simpl.
    rewrite IH by (rewrite length_insert; lia).
    rewrite <- splice_step by lia.
    by replace (i * n_vars + S a) with (S (i * n_vars + a)) by lia.
Qed.

Lemma length_event_rows evs :
  length (flat_map (event_row n_vars) evs) = length evs * n_vars.
Proof.
  induction evs as [|e evs IH]; simpl; [done|].
  rewrite length_app, IH. unfold event_row.
  by rewrite length_map, length_seq.
Qed.

Lemma copy_event_Ok sb_mat d i ev (w : world lib) :
  length sb_mat = N * n_vars -> length (labels d) = N ->
  length (weights d) = N -> i < N ->
  copy_event dataset_info n_vars (sb_mat, d, i) ev w
  = (Ok (copied dataset_info n_vars [ev] (sb_mat, d, i)), visited w i 1).
Proof.
  intros Hm Hl Hw Hi. unfold copy_event. cbv beta iota.
  assert (i * n_vars + n_vars <= N * n_vars) by nia.
  rewrite emit_bind.
  rewrite (fill_event_spec i ev n_vars 0 sb_mat) by lia.
  rewrite lift_bind_Ok.
  assert (Hrow : forall l,
            (if IsSignal dataset_info ev
             then set_row Float.zero l d i else set_row Float.one l d i)
            = set_row (event_label dataset_info ev) l d i).
  { intros l. unfold event_label. by destruct (IsSignal dataset_info ev). }
  rewrite Hrow, set_row_Ok by lia. rewrite lift_bind_Ok.
  unfold copied, visited, event_weight. simpl.
  rewrite app_nil_r, !Nat.add_0_r.
  rewrite <- !splice_step, !splice_nil by lia.
  rewrite Nat.add_1_r. reflexivity.
Qed.

Lemma copy_event_overflow sb_mat d ev (w : world lib) :
  length sb_mat = N * n_vars -> length (labels d) = N ->
  (copy_event dataset_info n_vars (sb_mat, d, N) ev w : _ * world lib)
  = (Undefined OutOfBounds, visited w N 1).
Proof.
  intros Hm Hl. unfold copy_event. cbv beta iota. rewrite emit_bind.
  destruct n_vars as [|nv].
  - simpl foldM. rewrite lift_bind_Ok.
    assert (Hrow : forall l v, set_row l v d N = Undefined OutOfBounds).
    { intros l v. unfold set_row, store.
      by rewrite (decide_False (P := N < length (labels d))) by lia. }
    by destruct (IsSignal dataset_info ev); rewrite Hrow.
  - assert (Hst : forall v, store sb_mat (N * S nv + 0) v
                            = Undefined OutOfBounds).
    { intros v. unfold store. by rewrite decide_False by lia. }
    change (seq 0 (S nv)) with (0 :: seq 1 nv). simpl foldM.
    rewrite Hst. reflexivity.
Qed.

Lemma visited_visited (w : world lib) i n m :
  visited (visited w i n) (i + n) m = visited w i (n + m).
Proof.
  unfold visited. simpl. by rewrite seq_app, map_app, app_assoc.
Qed.

Lemma events_run_ok : forall evs sb_mat d i0 (w : world lib),
  length sb_mat = N * n_vars -> length (labels d) = N ->
  length (weights d) = N -> i0 + length evs <= N ->
  for_each (copy_event dataset_info n_vars) evs (sb_mat, d, i0) w
  = (Ok (copied dataset_info n_vars evs (sb_mat, d, i0)),
     visited w i0 (length evs)).
Proof.
  induction evs as [|ev evs IH]; intros sb_mat d i0 w Hm Hl Hw Hle.
  - unfold copied, visited. simpl.
    rewrite !splice_nil, app_nil_r, Nat.add_0_r.
    by destruct d, w.
  - simpl in Hle. rewrite for_each_cons.
    rewrite bind_run, (copy_event_Ok _ _ _ _ _ Hm Hl Hw) by lia.
    cbn [fst snd]. unfold copied at 1. simpl length.
    assert (Hrow : length (flat_map (event_row n_vars) [ev]) = n_vars).
    { rewrite length_event_rows. simpl. lia. }
    assert (i0 * n_vars + n_vars <= N * n_vars) by nia.
    rewrite IH; simpl; rewrite ?length_splice; simpl; try lia.
    f_equal.
    + f_equal. unfold copied. simpl.
      replace ((i0 + 1) * n_vars)
        with (i0 * n_vars + length (event_row n_vars ev ++ [])) by
        (simpl in Hrow; lia).
      rewrite splice_splice by (simpl in Hrow; lia).
      rewrite app_nil_r.
      change (splice (i0 + 1) ?vs (splice i0 [?v] ?arr))
        with (splice (i0 + length [v]) vs (splice i0 [v] arr)).
      rewrite !splice_splice by (simpl; lia). simpl.
      replace (i0 + 1 + length evs) with (i0 + S (length evs)) by lia.
      reflexivity.
    + rewrite (visited_visited w i0 1 (length evs)). reflexivity.
    + simpl in Hrow. lia.
Qed.

Lemma events_run_overflow evs sb_mat d i0 (w : world lib) :
  length sb_mat = N * n_vars -> length (labels d) = N ->
  length (weights d) = N -> i0 <= N < i0 + length evs ->
  for_each (copy_event dataset_info n_vars) evs (sb_mat, d, i0) w
  = (Undefined OutOfBounds, visited w i0 (N - i0 + 1)).
Proof.
  intros Hm Hl Hw Hi.
  rewrite <- (take_drop (N - i0) evs) at 1.
  rewrite for_each_app, bind_run.
  assert (Htake : length (take (N - i0) evs) = N - i0)
    by (rewrite length_take; lia).
  rewrite events_run_ok by (rewrite ?Htake; lia).
  cbn [fst snd]. unfold copied. rewrite Htake.
  destruct (drop (N - i0) evs) as [|ev rest] eqn:Edrop.
  { apply (f_equal length) in Edrop. rewrite length_drop in Edrop.
    simpl in Edrop. lia. }
  rewrite for_each_cons, bind_run.
  replace (i0 + (N - i0)) with N by lia.
  rewrite copy_event_overflow;
    simpl; rewrite ?length_splice; rewrite ?length_event_rows, ?length_map;
    rewrite ?Htake; try lia; try nia.
  cbn [fst snd]. rewrite <- (visited_visited w i0 (N - i0) 1).
  by replace (i0 + (N - i0)) with N by lia.
Qed.
End event_loop.

Section dataset_adapter.
Context {lib : Type} `{XGBoost lib}.
Variables (cxx_file : string) (dataset_info : DataSetInfo).
Let dataset := GetDataSet dataset_info.
Let n_v := GetNVariables dataset.

Lemma dataset_run_eq type n_s n_b (w : world lib) :
  recorded dataset type = Some (n_s, n_b) ->
  let evs := GetEventCollection dataset type in
  let w1 := {| xgb := xgb w; log := log w ++ [New_xgboost_data n_s n_b] |} in
  ROOTToXGBoost_dataset cxx_file dataset_info type w
  = if decide (length evs <= n_s + n_b)
    then wrap_matrix
           (site cxx_file 131 "XGDMatrixCreateFromMat((Float_t*) sb_mat, n_sig + n_bgd, n_vars, 0, &((data->sb_dmats)[0]))")
           (site cxx_file 132 ("XGDMatrixSetFloatInfo((data->sb_dmats)[0], " +:+ dquote
                   +:+ "label" +:+ dquote
                   +:+ ", data->labels, n_sig + n_bgd)"))
           (splice 0 (flat_map (event_row n_v) evs)
              (uninitialised ((n_s + n_b) * n_v)))
           (n_s + n_b) n_v (dataset_bundle dataset_info n_s n_b evs)
           (visited w1 0 (length evs))
    else (Undefined OutOfBounds, visited w1 0 (n_s + n_b + 1)).
Proof.
  intros Hrec evs w1. unfold ROOTToXGBoost_dataset.
  fold dataset. fold n_v.
  assert (Hcounts :
    match type with
    | kTesting => Ok (GetNEvtSigTest dataset, GetNEvtBkgdTest dataset)
    | kTraining => Ok (GetNEvtSigTrain dataset, GetNEvtBkgdTrain dataset)
    | _ => Throw (runtime_error
             "Unexpected treeType (must be either kTesting or kTraining).")
    end = Ok (n_s, n_b)).
  { destruct type; simpl in Hrec; try discriminate; by injection Hrec as <- <-. }
  rewrite Hcounts, lift_bind_Ok. cbv beta iota.
  rewrite new_xgboost_data_bind, bind_run. fold evs w1.
  case_decide as Hlen.
  - rewrite (events_run_ok dataset_info n_v (n_s + n_b));
      [| simpl; unfold uninitialised; rewrite ?length_replicate; lia ..].
    reflexivity.
  - rewrite (events_run_overflow dataset_info n_v (n_s + n_b));
      [| simpl; unfold uninitialised; rewrite ?length_replicate; lia ..].
    simpl. by rewrite Nat.sub_0_r.
Qed.
End dataset_adapter.

(** ** Outcomes of the adapters, case by case *)

Section adapters.
Context {lib : Type} `{XGBoost lib}.
Variables (cxx_file : string).

Lemma wrap_matrix_Ok_inv s1 s2 sb_mat n nv (d d1 : xgboost_data) w :
  (wrap_matrix s1 s2 sb_mat n nv d w).1 = Ok d1 ->
  exists h,
    d1 = set_sb_dmats d h
    /\ log (wrap_matrix s1 s2 sb_mat n nv d w).2
       = log w ++ [Called s1 (XGDMatrixCreateFromMat sb_mat n nv Float.zero) 0;
                   Called s2 (XGDMatrixSetFloatInfo h "label" (labels d) n) 0].
Proof.
  unfold wrap_matrix. rewrite safe_xgboost_bind.
  destruct (xgb_exec _ (xgb w)) as [[err1 h] s].
  case_decide as Herr1; simpl; [done|]. subst err1.
  rewrite safe_xgboost_bind. cbn [xgb log].
  destruct (xgb_exec _ s) as [[err2 o] s'].
  case_decide as Herr2; simpl; [done|]. subst err2.
  intros [= <-]. exists h. split; [done|]. by rewrite <- app_assoc.
Qed.

Lemma wrap_matrix_agree s1 s2 sb_mat n nv (d d' : xgboost_data) w :
  labels d = labels d' -> n_sig d = n_sig d' -> n_bgd d = n_bgd d' ->
  (wrap_matrix s1 s2 sb_mat n nv d' w).2 = (wrap_matrix s1 s2 sb_mat n nv d w).2
  /\ agree_but_weights (wrap_matrix s1 s2 sb_mat n nv d w).1
       (wrap_matrix s1 s2 sb_mat n nv d' w).1.
Proof.
  intros Hl Hs Hb. unfold wrap_matrix. rewrite !safe_xgboost_bind.
  destruct (xgb_exec _ (xgb w)) as [[err1 h] s].
  case_decide as Herr1; simpl; [done|].
  rewrite !safe_xgboost_bind. cbn [xgb log labels set_sb_dmats].
  rewrite <- Hl.
  destruct (xgb_exec _ s) as [[err2 o] s'].
  case_decide as Herr2; simpl; done.
Qed.

Lemma class_weight_not_Throw given n_other n_own e :
  class_weight given n_other n_own <> Throw e.
Proof.
  destruct given as [v|]; simpl; [done|].
  unfold balanced_weight, udiv. by case_decide.
Qed.

Lemma trees_run_cases signal_tree background_tree variables
    sig_weight bgd_weight (w : world lib) :
  let n_s := Count signal_tree in
  let n_b := Count background_tree in
  let n_v := length variables in
  let w1 := {| xgb := xgb w; log := log w ++ [New_xgboost_data n_s n_b] |} in
  ROOTToXGBoost_trees cxx_file signal_tree background_tree variables
    sig_weight bgd_weight w
  = match fill_tree_matrix signal_tree background_tree variables
            (uninitialised ((n_s + n_b) * n_v)) with
    | Ok sb_mat =>
        match class_weight sig_weight n_b n_s,
              class_weight bgd_weight n_s n_b with
        | Ok sw, Ok bw =>
            wrap_matrix
              (site cxx_file 71 "XGDMatrixCreateFromMat((Float_t*) sb_mat, *n_sig + *n_bgd, n_vars, 0, &((data->sb_dmats)[0]))")
              (site cxx_file 72 ("XGDMatrixSetFloatInfo((data->sb_dmats)[0], " +:+ dquote
                  +:+ "label" +:+ dquote
                  +:+ ", data->labels, *n_sig + *n_bgd)"))
              sb_mat (n_s + n_b) n_v (tree_bundle n_s n_b sw bw) w1
        | Ok _, Throw e => (Throw e, w1)
        | Ok _, Undefined ub => (Undefined ub, w1)
        | Throw e, _ => (Throw e, w1)
        | Undefined ub, _ => (Undefined ub, w1)
        end
    | Throw e => (Throw e, w)
    | Undefined ub => (Undefined ub, w)
    end.
Proof.
  intros n_s n_b n_v w1.
  destruct (fill_tree_matrix _ _ _ _) as [sb_mat|e|ub] eqn:Hfill.
  2,3: unfold ROOTToXGBoost_trees; fold n_s n_b n_v; by rewrite Hfill.
  destruct (class_weight sig_weight n_b n_s) as [sw|e|ub] eqn:Hsw.
  2,3: unfold ROOTToXGBoost_trees; fold n_s n_b n_v;
       rewrite Hfill, lift_bind_Ok, new_xgboost_data_bind; by rewrite Hsw.
  destruct (class_weight bgd_weight n_s n_b) as [bw|e|ub] eqn:Hbw.
  - by apply trees_run_eq.
  - unfold ROOTToXGBoost_trees. fold n_s n_b n_v.
    rewrite Hfill, lift_bind_Ok, new_xgboost_data_bind, Hsw, lift_bind_Ok.
    rewrite set_rows_spec; simpl;
      [| unfold uninitialised; rewrite length_replicate; lia | done].
    by rewrite lift_bind_Ok, Hbw.
  - unfold ROOTToXGBoost_trees. fold n_s n_b n_v.
    rewrite Hfill, lift_bind_Ok, new_xgboost_data_bind, Hsw, lift_bind_Ok.
    rewrite set_rows_spec; simpl;
      [| unfold uninitialised; rewrite length_replicate; lia | done].
    by rewrite lift_bind_Ok, Hbw.
Qed.

Lemma dataset_run_invalid dataset_info type (w : world lib) :
  recorded (GetDataSet dataset_info) type = None ->
  ROOTToXGBoost_dataset cxx_file dataset_info type w
  = (Throw (runtime_error
              "Unexpected treeType (must be either kTesting or kTraining)."),
     w).
Proof. by destruct type. Qed.
End adapters.

(** ** Counting labels *)

Lemma filter_split_length {A} (p : A -> bool) (l : list A) :
  length (filter (fun a => p a = true) l)
  + length (filter (fun a => p a = false) l) = length l.
Proof.
  induction l as [|a l IH]; [done|].
  rewrite !filter_cons. destruct (p a) eqn:Ep; repeat case_decide;
    simpl; try done; lia.
Qed.

Lemma count_event_labels dataset_info (evs : list Event) :
  length (filter (fun c => c = Some Float.zero)
            (map Some (map (event_label dataset_info) evs)))
  = length (filter (fun ev => IsSignal dataset_info ev = true) evs)
  /\ length (filter (fun c => c = Some Float.one)
               (map Some (map (event_label dataset_info) evs)))
     = length (filter (fun ev => IsSignal dataset_info ev = false) evs).
Proof.
  induction evs as [|ev evs [IH0 IH1]]; [done|]. simpl map.
  rewrite !filter_cons.
  assert (Hcase :
    (IsSignal dataset_info ev = true
     /\ event_label dataset_info ev = Float.zero)
    \/ (IsSignal dataset_info ev = false
        /\ event_label dataset_info ev = Float.one)).
  { unfold event_label. destruct (IsSignal dataset_info ev); auto. }
  destruct Hcase as [[Es El] | [Es El]]; repeat case_decide;
    simpl; rewrite ?IH0, ?IH1; try done; unfold Float.zero, Float.one in *;
    congruence.
Qed.

Lemma event_rows_reweigh f n_vars (evs : list Event) :
  flat_map (event_row n_vars) (map (reweigh f) evs)
  = flat_map (event_row n_vars) evs.
Proof. induction evs as [|ev evs IH]; simpl; [done | by rewrite IH]. Qed.

Lemma event_labels_reweigh f dataset_info (evs : list Event) :
  map (event_label (reweigh_info f dataset_info)) (map (reweigh f) evs)
  = map (event_label dataset_info) evs.
Proof. induction evs as [|ev evs IH]; simpl; [done | by rewrite IH]. Qed.

(** ** Where the balanced weight is undefined *)

Lemma class_weight_Undefined_inv given n_other n_own ub :
  class_weight given n_other n_own = Undefined ub ->
  ub = DivisionByZero /\ given = None /\ n_own = 0.
Proof.
  destruct given as [v|]; simpl; [done|].
  unfold balanced_weight, udiv. case_decide; simpl; [|done].
  by intros [= <-].
Qed.

(** * The specified properties *)

Section claims.
Context {lib : Type} `{XGBoost lib}.
Variables (cxx_file hxx_file : string).

(** C1.  Tree-pair adapter, row order and labels: when the variables are
    branches of both trees, the class weights are determined and the
    library accepts the calls, the adapter returns a bundle; the matrix it
    hands to [XGDMatrixCreateFromMat] holds signal entry [i] in row [i] and
    background entry [i] in row [n_sig + i], one column per variable in
    the order requested; the label is 0.0 on [0, n_sig) and 1.0 on
    [n_sig, n_sig + n_bgd). *)
Theorem C1_tree_rows_and_labels
    (signal_tree background_tree : TTree) (variables : list string)
    (sig_weight bgd_weight : option Float_t) (sw bw : Float_t)
    (w : world lib) :
  let n_s := Count signal_tree in
  let n_b := Count background_tree in
  let n_v := length variables in
  let run := ROOTToXGBoost_trees cxx_file signal_tree background_tree
               variables sig_weight bgd_weight w in
  columns_present signal_tree background_tree variables ->
  class_weight sig_weight n_b n_s = Ok sw ->
  class_weight bgd_weight n_s n_b = Ok bw ->
  calls_succeed w run.2 ->
  exists data sb_mat s,
    run.1 = Ok data
    /\ n_sig data = n_s /\ n_bgd data = n_b
    /\ Called s (XGDMatrixCreateFromMat sb_mat (n_s + n_b) n_v Float.zero) 0
       ∈ log run.2
    /\ length sb_mat = (n_s + n_b) * n_v
    /\ (forall i e j var,
          entries signal_tree !! i = Some e -> variables !! j = Some var ->
          sb_mat !! (i * n_v + j) = Some (Some (e var)))
    /\ (forall i e j var,
          entries background_tree !! i = Some e -> variables !! j = Some var ->
          sb_mat !! ((n_s + i) * n_v + j) = Some (Some (e var)))
    /\ length (labels data) = n_s + n_b
    /\ (forall k, k < n_s -> labels data !! k = Some (Some Float.zero))
    /\ (forall k, n_s <= k < n_s + n_b ->
          labels data !! k = Some (Some Float.one)).
Proof.
  intros n_s n_b n_v run Hcols Hsw Hbw Hok.
  destruct (trees_run cxx_file _ _ _ _ _ _ _ w Hcols Hsw Hbw Hok)
    as (sb_mat & h & Hfill & Hr & s1 & s2 & Hlog).
  destruct (fill_tree_matrix_spec _ _ _ Hcols)
    as (sb_mat' & Hfill' & Hlen & Hcell).
  rewrite Hfill in Hfill'. injection Hfill' as <-.
  exists (set_sb_dmats (tree_bundle n_s n_b sw bw) h), sb_mat, s1.
  split; [exact Hr|]. split; [done|]. split; [done|]. split.
  { fold run in Hlog. fold n_s n_b n_v in Hlog. rewrite Hlog.
    apply elem_of_app; right. apply list_elem_of_further, list_elem_of_here. }
  split; [exact Hlen|]. split.
  { intros i e j var Hi Hj. apply (Hcell i e j var); [|done].
    by apply lookup_app_l_Some. }
  split.
  { intros i e j var Hi Hj. apply (Hcell (n_s + i) e j var); [|done].
    unfold n_s, Count. by rewrite lookup_app_r, Nat.add_sub'; [|lia]. }
  simpl. split; [by rewrite length_app, !length_replicate|]. split.
  - intros k Hk. rewrite lookup_app_l by (by rewrite length_replicate).
    by apply lookup_replicate_2.
  - intros k Hk. rewrite lookup_app_r by (rewrite length_replicate; lia).
    rewrite length_replicate. apply lookup_replicate_2. lia.
Qed.


(** C4.  Explicit weights of the tree-pair adapter: a supplied signal
    weight [W] is the weight of every signal row, and a supplied
    background weight [W] the weight of every background row, whatever the
    two counts are. *)
Theorem C4_explicit_weight_uniform
    (signal_tree background_tree : TTree) (variables : list string)
    (sig_weight bgd_weight : option Float_t) (sw bw : Float_t)
    (w : world lib) :
  let n_s := Count signal_tree in
  let n_b := Count background_tree in
  let run := ROOTToXGBoost_trees cxx_file signal_tree background_tree
               variables sig_weight bgd_weight w in
  columns_present signal_tree background_tree variables ->
  class_weight sig_weight n_b n_s = Ok sw ->
  class_weight bgd_weight n_s n_b = Ok bw ->
  calls_succeed w run.2 ->
  exists data,
    run.1 = Ok data
    /\ length (weights data) = n_s + n_b
    /\ (forall W, sig_weight = Some W -> forall k, k < n_s ->
          weights data !! k = Some (Some W))
    /\ (forall W, bgd_weight = Some W -> forall k, n_s <= k < n_s + n_b ->
          weights data !! k = Some (Some W)).
Proof.
  intros n_s n_b run Hcols Hsw Hbw Hok.
  destruct (trees_run cxx_file _ _ _ _ _ _ _ w Hcols Hsw Hbw Hok)
    as (sb_mat & h & _ & Hr & _).
  exists (set_sb_dmats (tree_bundle n_s n_b sw bw) h).
  split; [exact Hr|]. simpl.
  split; [by rewrite length_app, !length_replicate|]. split.
  - intros W -> k Hk. simpl in Hsw. injection Hsw as <-.
    rewrite lookup_app_l by (by rewrite length_replicate).
    by apply lookup_replicate_2.
  - intros W -> k Hk. simpl in Hbw. injection Hbw as <-.
    rewrite lookup_app_r by (rewrite length_replicate; lia).
    rewrite length_replicate. apply lookup_replicate_2. lia.
Qed.

(** C5.  Dataset adapter, labels: for a training or testing partition
    whose recorded signal and background counts are the numbers of signal
    and background events of its collection, and a library that accepts
    the calls, the adapter returns a bundle whose label of row [i] is 0.0
    when the dataset classifies event [i] as signal and 1.0 otherwise;
    exactly the recorded signal count of labels are 0.0 and exactly the
    recorded background count are 1.0. *)
Theorem C5_dataset_labels_match_recorded_counts
    (dataset_info : DataSetInfo) (type : ETreeType) (n_s n_b : nat)
    (w : world lib) :
  let dataset := GetDataSet dataset_info in
  let evs := GetEventCollection dataset type in
  let run := ROOTToXGBoost_dataset cxx_file dataset_info type w in
  recorded dataset type = Some (n_s, n_b) ->
  length (filter (fun ev => IsSignal dataset_info ev = true) evs) = n_s ->
  length (filter (fun ev => IsSignal dataset_info ev = false) evs) = n_b ->
  calls_succeed w run.2 ->
  exists data,
    run.1 = Ok data
    /\ n_sig data = n_s /\ n_bgd data = n_b
    /\ length (labels data) = n_s + n_b
    /\ (forall i ev, evs !! i = Some ev ->
          labels data !! i
          = Some (Some (if IsSignal dataset_info ev
                        then Float.zero else Float.one)))
    /\ length (filter (fun c => c = Some Float.zero) (labels data)) = n_s
    /\ length (filter (fun c => c = Some Float.one) (labels data)) = n_b.
Proof.
  intros dataset evs run Hrec Hsig Hbgd Hok.
  assert (Hlen : length evs = n_s + n_b).
  { rewrite <- Hsig, <- Hbgd. symmetry.
    apply (filter_split_length (IsSignal dataset_info)). }
  revert Hok. unfold run.
  rewrite (dataset_run_eq cxx_file dataset_info type n_s n_b w Hrec).
  fold dataset evs. rewrite decide_True by lia. intros Hok.
  assert (Hlog0 :
    log (visited {| xgb := xgb w; log := log w ++ [New_xgboost_data n_s n_b] |}
           0 (length evs))
    = log w ++ New_xgboost_data n_s n_b :: map Get_event (seq 0 (length evs))).
  { simpl. by rewrite <- app_assoc. }
  destruct (wrap_matrix_run _ _ _ _ _ _ w _ _ Hlog0 Hok) as (h & Hr & _).
  exists (set_sb_dmats (dataset_bundle dataset_info n_s n_b evs) h).
  split; [exact Hr|]. split; [done|]. split; [done|].
  simpl labels.
  rewrite splice_all by (by rewrite length_map).
  split; [by rewrite !length_map|]. split.
  { intros i ev Hi. rewrite !list_lookup_fmap, Hi. reflexivity. }
  destruct (count_event_labels dataset_info evs) as [H0 H1].
  by rewrite H0, H1.
Qed.

(** C6.  Invalid partition selector: for a selector that is neither
    training nor testing the dataset adapter throws the error "Unexpected
    treeType ..." and leaves the world as it found it: no bundle has been
    allocated, no event visited, no library call made. *)
Theorem C6_invalid_partition_aborts
    (dataset_info : DataSetInfo) (type : ETreeType) (w : world lib) :
  type <> kTraining -> type <> kTesting ->
  ROOTToXGBoost_dataset cxx_file dataset_info type w
  = (Throw (runtime_error
              "Unexpected treeType (must be either kTesting or kTraining)."),
     w).
Proof. intros Htrain Htest. by destruct type. Qed.

(** C7.  The trainer: on a bundle that wraps a matrix, [xgboost_train]
    creates the booster on that one matrix, sets the options in the order
    given, and runs the update iterations 0, 1, ..., n_iter - 1 on the same
    matrix, nothing else and nothing in between.  The calls it logs are
    the calls the library received, with the statuses the library
    returned.  When the library accepts the calls of this plan, the run
    makes every one of them and returns the booster the library created;
    when the library turns one down, the run has made the plan up to that
    call and throws.  With [n_iter = 0] no update iteration is made. *)
Theorem C7_train_issues_the_plan
    (data : xgboost_data) (dmat : DMatrixHandle) (opts : xgbooster_opts)
    (n_iter : nat) (w : world lib) :
  let run := xgboost_train cxx_file data opts n_iter w in
  let booster := (xgb_exec (XGBoosterCreate [dmat] 1) (xgb w)).1.2 in
  let plan :=
    XGBoosterCreate [dmat] 1
    :: map (fun opt : kv_pair => XGBoosterSetParam booster opt.1 opt.2) opts
    ++ map (fun iter => XGBoosterUpdateOneIter booster (int_of_UInt iter) dmat)
         (seq 0 n_iter) in
  sb_dmats data = Some dmat ->
  exists L,
    log run.2 = log w ++ L
    /\ Forall (fun a => is_Some (issued a)) L
    /\ replays (xgb w) L (xgb run.2)
    /\ ((run.1 = Ok booster /\ Forall call_ok L /\ omap issued L = plan)
        \/ (exists e, run.1 = Throw e /\ ~ Forall call_ok L
                      /\ omap issued L `prefix_of` plan))
    /\ (accepts (xgb w) plan ->
        run.1 = Ok booster /\ omap issued L = plan)
    /\ (~ accepts (xgb w) plan ->
        exists e, run.1 = Throw e /\ omap issued L `prefix_of` plan)
    /\ (n_iter = 0 -> forall h iter d,
          XGBoosterUpdateOneIter h iter d ∉ omap issued L).
Proof.
  intros run booster plan Hd.
  assert (Hmain : exists L,
    log run.2 = log w ++ L
    /\ Forall (fun a => is_Some (issued a)) L
    /\ ((run.1 = Ok booster /\ Forall call_ok L /\ omap issued L = plan)
        \/ (exists e, run.1 = Throw e /\ ~ Forall call_ok L
                      /\ omap issued L `prefix_of` plan))).
  { unfold run, xgboost_train. rewrite Hd. simpl from_option.
    rewrite lift_bind_Ok, safe_xgboost_bind.
    unfold plan, booster.
    destruct (xgb_exec (XGBoosterCreate [dmat] 1) (xgb w)) as [[err b] s].
    simpl. clear run booster plan.
    set (create := Called _ (XGBoosterCreate [dmat] 1) err).
    case_decide as Herr; simpl.
    { exists [create]. split; [done|]. split; [by repeat constructor|].
      right. eexists. split; [done|]. split.
      - intros Hall. inversion Hall; subst. done.
      - apply prefix_cons, prefix_nil. }
    subst err. rewrite bind_run.
    match goal with |- context [for_each ?f opts tt ?w1] =>
      destruct (call_loop_run
                  (site cxx_file 143
                     "XGBoosterSetParam(booster, opt.first, opt.second)")
                  (fun opt : kv_pair => XGBoosterSetParam b opt.1 opt.2)
                  opts w1) as (L1 & Hlog1 & Hc1 & Hcase1)
    end.
    simpl in Hlog1.
    destruct Hcase1 as [(Hr1 & Hall1 & Hplan1) | (e & Hr1 & Hn1 & Hpre1)];
      rewrite Hr1.
    2: { exists (create :: L1). cbn [fst snd]. rewrite Hlog1, <- app_assoc.
         split; [done|]. split; [by repeat constructor|]. right. exists e.
         split; [done|]. split; [by apply not_all_ok_cons|].
         change (omap issued (create :: L1))
           with (XGBoosterCreate [dmat] 1 :: omap issued L1).
         by apply prefix_cons, prefix_app_r. }
    rewrite bind_run.
    match goal with |- context [for_each ?f (seq 0 n_iter) tt ?w2] =>
      destruct (call_loop_run
                  (site cxx_file 148
                     "XGBoosterUpdateOneIter(booster, iter, (data->sb_dmats)[0])")
                  (fun iter => XGBoosterUpdateOneIter b (int_of_UInt iter) dmat)
                  (seq 0 n_iter) w2)
        as (L2 & Hlog2 & Hc2 & Hcase2)
    end.
    exists (create :: L1 ++ L2).
    assert (Homap : omap issued (create :: L1 ++ L2)
                    = XGBoosterCreate [dmat] 1
                      :: omap issued L1 ++ omap issued L2).
    { change (omap issued (create :: L1 ++ L2))
        with (XGBoosterCreate [dmat] 1 :: omap issued (L1 ++ L2)).
      by rewrite omap_app. }
    destruct Hcase2 as [(Hr2 & Hall2 & Hplan2) | (e & Hr2 & Hn2 & Hpre2)];
      rewrite Hr2; rewrite ?ret_run; cbn [fst snd];
      rewrite Hlog2, Hlog1, <- !app_assoc.
    - split; [done|]. split; [constructor; [by eexists | by apply Forall_app]|].
      left. split; [done|].
      split; [constructor; [done | by apply Forall_app]|].
      by rewrite Homap, Hplan1, Hplan2.
    - split; [done|]. split; [constructor; [by eexists | by apply Forall_app]|].
      right. exists e. split; [done|]. split.
      + apply not_all_ok_cons. intros Hall.
        apply Forall_app in Hall as [_ Hall]. by apply Hn2.
      + rewrite Homap, Hplan1. by apply prefix_cons, prefix_app. }
  destruct Hmain as (L & Hlog & Hcalls & Hcase).
  assert (Hrep : replays (xgb w) L (xgb run.2)).
  { destruct (xgboost_train_checked cxx_file data opts n_iter w)
      as (L' & Hlog' & Hrep & _).
    fold run in Hlog', Hrep. rewrite Hlog in Hlog'.
    apply app_inv_head in Hlog'. by subst L'. }
  exists L. split; [done|]. split; [done|]. split; [done|].
  split; [done|]. split; [|split].
  { intros Hacc. destruct Hcase as [(Hr & _ & Hplan) | (e & _ & Hn & Hpre)];
      [done|].
    by destruct (replays_rejects _ _ _ _ Hrep Hn Hpre). }
  { intros Hrej. destruct Hcase as [(_ & Hall & Hplan) | (e & Hr & _ & Hpre)].
    - destruct Hrej. rewrite <- Hplan. by eapply replays_accepts.
    - by exists e. }
  intros -> h iter d Hin.
  assert (Hplan : XGBoosterUpdateOneIter h iter d ∈ plan).
  { destruct Hcase as [(_ & _ & <-) | (e & _ & _ & Hpre)]; [done|].
    by eapply elem_of_prefix. }
  unfold plan in Hplan. simpl in Hplan. rewrite app_nil_r in Hplan.
  apply elem_of_cons in Hplan as [Habs | Hplan]; [done|].
  apply list_elem_of_fmap in Hplan as (opt & Habs & _). done.
Qed.

(** C8.  Every call into the library made by the two adapters, the trainer
    and [free] goes through [safe_xgboost] with the text of that very call.
    In every run the calls logged are the calls the library received, in
    order and with the statuses the library returned; they all returned
    zero, or the first one that did not is the last call of the run and
    the run ends with the error naming that call's file, line and text and
    carrying the library's last error; no result is returned then. *)
Theorem C8_every_library_call_is_checked
    (signal_tree background_tree : TTree) (variables : list string)
    (sig_weight bgd_weight : option Float_t)
    (dataset_info : DataSetInfo) (type : ETreeType)
    (data : xgboost_data) (opts : xgbooster_opts) (n_iter : nat) :
  checked (ROOTToXGBoost_trees cxx_file signal_tree background_tree
             variables sig_weight bgd_weight)
  /\ checked (ROOTToXGBoost_dataset cxx_file dataset_info type)
  /\ checked (xgboost_train cxx_file data opts n_iter)
  /\ checked (free hxx_file data)
  /\ (forall site last_error,
        exists pre, error_message site last_error
                    = pre +:+ site_text site +:+ ":" +:+ last_error).
Proof.
  split; [|split; [|split; [|split]]].
  - unfold ROOTToXGBoost_trees.
    repeat first
      [ apply checked_bind | intros ? | apply checked_lift
      | apply checked_ret | apply checked_safe_xgboost; reflexivity
      | apply checked_emit; reflexivity ].
  - unfold ROOTToXGBoost_dataset.
    apply checked_bind; [apply checked_lift|]. intros [n_s n_b].
    apply checked_bind.
    { apply checked_bind; [by apply checked_emit | intros; apply checked_ret]. }
    intros d. apply checked_bind.
    { apply checked_for_each. intros [[sb_mat d'] i] ev. unfold copy_event.
      repeat first
        [ apply checked_bind | intros ? | apply checked_lift
        | apply checked_ret | apply checked_emit; reflexivity ]. }
    intros [[sb_mat d'] i].
    repeat first
      [ apply checked_bind | intros ? | apply checked_lift
      | apply checked_ret | apply checked_safe_xgboost; reflexivity ].
  - unfold xgboost_train.
    repeat first
      [ apply checked_bind | apply checked_for_each | intros ?
      | apply checked_lift | apply checked_ret | apply checked_safe_xgboost; reflexivity ].
  - unfold free.
    repeat first
      [ apply checked_bind | intros ? | apply checked_lift
      | apply checked_ret | apply checked_safe_xgboost; reflexivity ].
  - intros st last_error. unfold error_message.
    exists (site_file st +:+ ":" +:+ to_string (site_line st) +:+ ": error in ").
    by rewrite !string_app_assoc.
Qed.

(** C9.  The weights stay in the bundle.  Two runs of the tree adapter
    that differ only in the weight arguments (neither running into
    undefined behaviour), and two runs of the dataset adapter on datasets
    that differ only in the event weights, leave the library and the trace
    in the same state and agree on everything but the weights; the trainer
    does the same on bundles that differ only in the weights; and in a
    run of either adapter that returns a bundle, the calls made are the
    creation of the matrix and one [XGDMatrixSetFloatInfo], for the field
    "label" with the label array. *)
Theorem C9_weights_never_reach_the_library :
  (forall signal_tree background_tree variables
          sig_weight bgd_weight sig_weight' bgd_weight' (w : world lib),
     let run := ROOTToXGBoost_trees cxx_file signal_tree background_tree
                  variables sig_weight bgd_weight w in
     let run' := ROOTToXGBoost_trees cxx_file signal_tree background_tree
                   variables sig_weight' bgd_weight' w in
     (forall ub, run.1 <> Undefined ub) ->
     (forall ub, run'.1 <> Undefined ub) ->
     run'.2 = run.2 /\ agree_but_weights run.1 run'.1)
  /\ (forall dataset_info type f (w : world lib),
        let run := ROOTToXGBoost_dataset cxx_file dataset_info type w in
        let run' := ROOTToXGBoost_dataset cxx_file
                      (reweigh_info f dataset_info) type w in
        run'.2 = run.2 /\ agree_but_weights run.1 run'.1)
  /\ (forall data ws opts n_iter (w : world lib),
        xgboost_train cxx_file (set_weights data ws) opts n_iter w
        = xgboost_train cxx_file data opts n_iter w)
  /\ (forall signal_tree background_tree variables sig_weight bgd_weight
             (w : world lib) data,
        let run := ROOTToXGBoost_trees cxx_file signal_tree background_tree
                     variables sig_weight bgd_weight w in
        run.1 = Ok data ->
        exists L sb_mat h,
          log run.2 = log w ++ L /\ sb_dmats data = Some h
          /\ omap issued L
             = [XGDMatrixCreateFromMat sb_mat (n_sig data + n_bgd data)
                  (length variables) Float.zero;
                XGDMatrixSetFloatInfo h "label" (labels data)
                  (n_sig data + n_bgd data)])
  /\ (forall dataset_info type (w : world lib) data,
        let run := ROOTToXGBoost_dataset cxx_file dataset_info type w in
        run.1 = Ok data ->
        exists L sb_mat h,
          log run.2 = log w ++ L /\ sb_dmats data = Some h
          /\ omap issued L
             = [XGDMatrixCreateFromMat sb_mat (n_sig data + n_bgd data)
                  (GetNVariables (GetDataSet dataset_info)) Float.zero;
                XGDMatrixSetFloatInfo h "label" (labels data)
                  (n_sig data + n_bgd data)]).
Proof.
  split; [|split; [|split; [|split]]].
  - intros signal_tree background_tree variables
      sig_weight bgd_weight sig_weight' bgd_weight' w run run' Hdef Hdef'.
    revert Hdef Hdef'. unfold run, run'. rewrite !trees_run_cases.
    destruct (fill_tree_matrix _ _ _ _) as [sb_mat|e|ub]; [|done|].
    2: { intros Hdef _. by destruct (Hdef ub). }
    destruct (class_weight sig_weight _ _) as [sw|e|ub] eqn:Hsw.
    2: { by destruct (class_weight_not_Throw _ _ _ _ Hsw). }
    2: { intros Hdef _. by destruct (Hdef ub). }
    destruct (class_weight bgd_weight _ _) as [bw|e|ub] eqn:Hbw.
    2: { by destruct (class_weight_not_Throw _ _ _ _ Hbw). }
    2: { intros Hdef _. by destruct (Hdef ub). }
    destruct (class_weight sig_weight' _ _) as [sw'|e|ub] eqn:Hsw'.
    2: { by destruct (class_weight_not_Throw _ _ _ _ Hsw'). }
    2: { intros _ Hdef. by destruct (Hdef ub). }
    destruct (class_weight bgd_weight' _ _) as [bw'|e|ub] eqn:Hbw'.
    2: { by destruct (class_weight_not_Throw _ _ _ _ Hbw'). }
    2: { intros _ Hdef. by destruct (Hdef ub). }
    intros _ _. by apply wrap_matrix_agree.
  - intros dataset_info type f w run run'. unfold run, run'.
    destruct (recorded (GetDataSet dataset_info) type) as [[n_s n_b]|] eqn:Hrec.
    2: { rewrite !dataset_run_invalid; [done | | done]. by destruct type. }
    rewrite (dataset_run_eq cxx_file dataset_info type n_s n_b w Hrec).
    rewrite (dataset_run_eq cxx_file (reweigh_info f dataset_info) type
               n_s n_b w) by (by destruct type).
    simpl GetDataSet. simpl GetEventCollection. simpl GetNVariables.
    rewrite length_map, event_rows_reweigh.
    case_decide; [|done].
    apply wrap_matrix_agree; [|done..].
    simpl. by rewrite event_labels_reweigh.
  - reflexivity.
  - intros signal_tree background_tree variables sig_weight bgd_weight w data
      run. unfold run. rewrite trees_run_cases.
    destruct (fill_tree_matrix _ _ _ _) as [sb_mat|e|ub]; [|done..].
    destruct (class_weight sig_weight _ _) as [sw|e|ub]; [|done..].
    destruct (class_weight bgd_weight _ _) as [bw|e|ub]; [|done..].
    intros Hr. apply wrap_matrix_Ok_inv in Hr as (h & -> & Hlog).
    eexists (New_xgboost_data _ _ :: _), sb_mat, h.
    rewrite Hlog. simpl. split; [by rewrite <- app_assoc|]. done.
  - intros dataset_info type w data run. unfold run.
    destruct (recorded (GetDataSet dataset_info) type) as [[n_s n_b]|] eqn:Hrec.
    2: { by rewrite dataset_run_invalid. }
    rewrite (dataset_run_eq cxx_file dataset_info type n_s n_b w Hrec).
    case_decide; [|done].
    intros Hr. apply wrap_matrix_Ok_inv in Hr as (h & -> & Hlog).
    eexists (New_xgboost_data _ _ :: map Get_event _ ++ _), _, h.
    rewrite Hlog. simpl. split; [by rewrite <- !app_assoc|]. split; [done|].
    rewrite omap_app.
    assert (Hnone : forall l, omap issued (map Get_event l) = []).
    { induction l as [|i l IH]; simpl; [done | exact IH]. }
    by rewrite Hnone.
Qed.

(** C10.  The balanced weight divides by the count of its own class
    without a guard: with a null signal weight and an empty signal tree
    the adapter divides by zero, and so it does with a null background
    weight and an empty background tree, whatever the other weight is;
    the adapter divides by zero in these two cases only, so with both
    trees non-empty the division by zero is not reached. *)
Theorem C10_balanced_weight_needs_nonempty_classes
    (signal_tree background_tree : TTree) (variables : list string)
    (sig_weight bgd_weight : option Float_t) (w : world lib) :
  let n_s := Count signal_tree in
  let n_b := Count background_tree in
  let run := ROOTToXGBoost_trees cxx_file signal_tree background_tree
               variables sig_weight bgd_weight w in
  columns_present signal_tree background_tree variables ->
  (sig_weight = None -> n_s = 0 -> run.1 = Undefined DivisionByZero)
  /\ (bgd_weight = None -> n_b = 0 -> run.1 = Undefined DivisionByZero)
  /\ (run.1 = Undefined DivisionByZero ->
      (sig_weight = None /\ n_s = 0) \/ (bgd_weight = None /\ n_b = 0))
  /\ (0 < n_s -> 0 < n_b -> run.1 <> Undefined DivisionByZero).
Proof.
  intros n_s n_b run Hcols.
  destruct (fill_tree_matrix_spec _ _ _ Hcols) as (sb_mat & Hfill & _).
  assert (Hrun : run.1
    = match class_weight sig_weight n_b n_s,
            class_weight bgd_weight n_s n_b with
      | Ok sw, Ok bw =>
          (wrap_matrix
             (site cxx_file 71 "XGDMatrixCreateFromMat((Float_t*) sb_mat, *n_sig + *n_bgd, n_vars, 0, &((data->sb_dmats)[0]))")
             (site cxx_file 72 ("XGDMatrixSetFloatInfo((data->sb_dmats)[0], " +:+ dquote
                 +:+ "label" +:+ dquote
                 +:+ ", data->labels, *n_sig + *n_bgd)"))
             sb_mat (n_s + n_b) (length variables) (tree_bundle n_s n_b sw bw)
             {| xgb := xgb w; log := log w ++ [New_xgboost_data n_s n_b] |}).1
      | Ok _, Throw e => Throw e
      | Ok _, Undefined ub => Undefined ub
      | Throw e, _ => Throw e
      | Undefined ub, _ => Undefined ub
      end).
  { unfold run. rewrite trees_run_cases. cbv zeta. rewrite Hfill.
    fold n_s n_b.
    by destruct (class_weight sig_weight n_b n_s),
                (class_weight bgd_weight n_s n_b). }
  assert (Hzero : forall given n_other,
            class_weight given n_other 0 = Undefined DivisionByZero
            \/ exists v, given = Some v).
  { intros [v|] n_other; [right; by exists v | by left]. }
  assert (Hinv : run.1 = Undefined DivisionByZero ->
            (sig_weight = None /\ n_s = 0) \/ (bgd_weight = None /\ n_b = 0)).
  { rewrite Hrun.
    destruct (class_weight sig_weight n_b n_s) as [sw|e|ub1] eqn:Hsw.
    - destruct (class_weight bgd_weight n_s n_b) as [bw|e|ub2] eqn:Hbw.
      + intros Habs. by destruct (wrap_matrix_defined _ _ _ _ _ _ _ _ Habs).
      + done.
      + intros _. apply class_weight_Undefined_inv in Hbw as (_ & -> & Hz).
        by right.
    - done.
    - intros _. apply class_weight_Undefined_inv in Hsw as (_ & -> & Hz).
      by left. }
  split; [|split; [|split]].
  - intros -> Hz. rewrite Hrun, Hz. reflexivity.
  - intros -> Hz. rewrite Hrun, Hz.
    destruct (class_weight sig_weight 0 n_s) as [sw|e|ub] eqn:Hsw.
    + reflexivity.
    + by destruct (class_weight_not_Throw _ _ _ _ Hsw).
    + by apply class_weight_Undefined_inv in Hsw as (-> & _).
  - exact Hinv.
  - intros Hs Hb Hdiv. destruct (Hinv Hdiv) as [[_ Hz]|[_ Hz]]; lia.
Qed.

End claims.

(** * The properties on concrete inputs *)

(** C1 on the two demonstration trees, no weights given. *)
Lemma C1_tree_rows_and_labels_witness :
  let n_s := Count demo_signal in
  let n_b := Count demo_background in
  let n_v := length ["x"; "y"] in
  let run := ROOTToXGBoost_trees "root2xgboost.cpp" demo_signal
               demo_background ["x"; "y"] None None accepting in
  columns_present demo_signal demo_background ["x"; "y"]
  /\ class_weight None n_b n_s = Ok (float_of_nat 2)
  /\ class_weight None n_s n_b = Ok (float_of_nat 1)
  /\ calls_succeed accepting run.2
  /\ exists data sb_mat s,
       run.1 = Ok data
       /\ n_sig data = n_s /\ n_bgd data = n_b
       /\ Called s (XGDMatrixCreateFromMat sb_mat (n_s + n_b) n_v Float.zero) 0
          ∈ log run.2
       /\ length sb_mat = (n_s + n_b) * n_v
       /\ (forall i e j var,
             entries demo_signal !! i = Some e -> ["x"; "y"] !! j = Some var ->
             sb_mat !! (i * n_v + j) = Some (Some (e var)))
       /\ (forall i e j var,
             entries demo_background !! i = Some e ->
             ["x"; "y"] !! j = Some var ->
             sb_mat !! ((n_s + i) * n_v + j) = Some (Some (e var)))
       /\ length (labels data) = n_s + n_b
       /\ (forall k, k < n_s -> labels data !! k = Some (Some Float.zero))
       /\ (forall k, n_s <= k < n_s + n_b ->
             labels data !! k = Some (Some Float.one)).
Proof.
  intros n_s n_b n_v run.
  assert (Hcols : columns_present demo_signal demo_background ["x"; "y"])
    by columns_there.
  assert (Hsw : class_weight None n_b n_s = Ok (float_of_nat 2))
    by reflexivity.
  assert (Hbw : class_weight None n_s n_b = Ok (float_of_nat 1))
    by reflexivity.
  assert (Hok : calls_succeed accepting run.2) by run_succeeds.
  repeat (split; [assumption|]).
  exact (C1_tree_rows_and_labels "root2xgboost.cpp" demo_signal
           demo_background ["x"; "y"] None None _ _ accepting
           Hcols Hsw Hbw Hok).
Defined.


(** C4 on the two demonstration trees with the weights 5.0 and 7.0. *)
Lemma C4_explicit_weight_uniform_witness :
  let n_s := Count demo_signal in
  let n_b := Count demo_background in
  let sig_weight := Some (float_of_nat 5) in
  let bgd_weight := Some (float_of_nat 7) in
  let run := ROOTToXGBoost_trees "root2xgboost.cpp" demo_signal
               demo_background ["x"; "y"] sig_weight bgd_weight accepting in
  columns_present demo_signal demo_background ["x"; "y"]
  /\ class_weight sig_weight n_b n_s = Ok (float_of_nat 5)
  /\ class_weight bgd_weight n_s n_b = Ok (float_of_nat 7)
  /\ calls_succeed accepting run.2
  /\ exists data,
       run.1 = Ok data
       /\ length (weights data) = n_s + n_b
       /\ (forall W, sig_weight = Some W -> forall k, k < n_s ->
             weights data !! k = Some (Some W))
       /\ (forall W, bgd_weight = Some W -> forall k, n_s <= k < n_s + n_b ->
             weights data !! k = Some (Some W)).
Proof.
  intros n_s n_b sig_weight bgd_weight run.
  assert (Hcols : columns_present demo_signal demo_background ["x"; "y"])
    by columns_there.
  assert (Hsw : class_weight sig_weight n_b n_s = Ok (float_of_nat 5))
    by reflexivity.
  assert (Hbw : class_weight bgd_weight n_s n_b = Ok (float_of_nat 7))
    by reflexivity.
  assert (Hok : calls_succeed accepting run.2) by run_succeeds.
  repeat (split; [assumption|]).
  exact (C4_explicit_weight_uniform "root2xgboost.cpp" demo_signal
           demo_background ["x"; "y"] sig_weight bgd_weight _ _ accepting
           Hcols Hsw Hbw Hok).
Defined.

(** C5 on the training partition of the demonstration dataset: two signal
    events and one background event. *)
Lemma C5_dataset_labels_match_recorded_counts_witness :
  let dataset := GetDataSet demo_dataset in
  let evs := GetEventCollection dataset kTraining in
  let run := ROOTToXGBoost_dataset "root2xgboost.cpp" demo_dataset kTraining
               accepting in
  recorded dataset kTraining = Some (2, 1)
  /\ length (filter (fun ev => IsSignal demo_dataset ev = true) evs) = 2
  /\ length (filter (fun ev => IsSignal demo_dataset ev = false) evs) = 1
  /\ calls_succeed accepting run.2
  /\ exists data,
       run.1 = Ok data
       /\ n_sig data = 2 /\ n_bgd data = 1
       /\ length (labels data) = 2 + 1
       /\ (forall i ev, evs !! i = Some ev ->
             labels data !! i
             = Some (Some (if IsSignal demo_dataset ev
                           then Float.zero else Float.one)))
       /\ length (filter (fun c => c = Some Float.zero) (labels data)) = 2
       /\ length (filter (fun c => c = Some Float.one) (labels data)) = 1.
Proof.
  intros dataset evs run.
  assert (Hrec : recorded dataset kTraining = Some (2, 1)) by reflexivity.
  assert (Hsig : length (filter (fun ev => IsSignal demo_dataset ev = true)
                           evs) = 2) by reflexivity.
  assert (Hbgd : length (filter (fun ev => IsSignal demo_dataset ev = false)
                           evs) = 1) by reflexivity.
  assert (Hok : calls_succeed accepting run.2) by run_succeeds.
  repeat (split; [assumption|]).
  exact (C5_dataset_labels_match_recorded_counts "root2xgboost.cpp"
           demo_dataset kTraining 2 1 accepting Hrec Hsig Hbgd Hok).
Defined.

(** C6 on the selector [kMaxTreeType]. *)
Lemma C6_invalid_partition_aborts_witness :
  kMaxTreeType <> kTraining /\ kMaxTreeType <> kTesting
  /\ ROOTToXGBoost_dataset "root2xgboost.cpp" demo_dataset kMaxTreeType
       accepting
     = (Throw (runtime_error
                 "Unexpected treeType (must be either kTesting or kTraining)."),
        accepting).
Proof.
  assert (Htrain : kMaxTreeType <> kTraining) by discriminate.
  assert (Htest : kMaxTreeType <> kTesting) by discriminate.
  repeat (split; [assumption|]).
  exact (C6_invalid_partition_aborts "root2xgboost.cpp" demo_dataset
           kMaxTreeType accepting Htrain Htest).
Defined.

(** C7 on a bundle wrapping the matrix 7, two options and three
    iterations. *)
Lemma C7_train_issues_the_plan_witness :
  let opts := [("max_depth", "3"); ("eta", "1")] in
  let run := xgboost_train "root2xgboost.cpp" demo_bundle opts 3 accepting in
  let booster := (xgb_exec (XGBoosterCreate [7%Z] 1) (xgb accepting)).1.2 in
  let plan :=
    XGBoosterCreate [7%Z] 1
    :: map (fun opt : kv_pair => XGBoosterSetParam booster opt.1 opt.2) opts
    ++ map (fun iter => XGBoosterUpdateOneIter booster (int_of_UInt iter) 7%Z)
         (seq 0 3) in
  sb_dmats demo_bundle = Some 7%Z
  /\ accepts (xgb accepting) plan
  /\ exists L,
       log run.2 = log accepting ++ L
       /\ Forall (fun a => is_Some (issued a)) L
       /\ replays (xgb accepting) L (xgb run.2)
       /\ ((run.1 = Ok booster /\ Forall call_ok L /\ omap issued L = plan)
           \/ (exists e, run.1 = Throw e /\ ~ Forall call_ok L
                         /\ omap issued L `prefix_of` plan))
       /\ (accepts (xgb accepting) plan ->
           run.1 = Ok booster /\ omap issued L = plan)
       /\ (~ accepts (xgb accepting) plan ->
           exists e, run.1 = Throw e /\ omap issued L `prefix_of` plan)
       /\ (3 = 0 -> forall h iter d,
             XGBoosterUpdateOneIter h iter d ∉ omap issued L).
Proof.
  intros opts run booster plan.
  assert (Hd : sb_dmats demo_bundle = Some 7%Z) by reflexivity.
  assert (Hacc : accepts (xgb accepting) plan) by (cbv; repeat split).
  repeat (split; [assumption|]).
  exact (C7_train_issues_the_plan "root2xgboost.cpp" demo_bundle 7%Z opts 3
           accepting Hd).
Defined.

(** C9 on the demonstration trees: the run without weights against the run
    with the weights 5.0 and 7.0. *)
Lemma C9_weights_never_reach_the_library_witness :
  let run := ROOTToXGBoost_trees "root2xgboost.cpp" demo_signal
               demo_background ["x"; "y"] None None accepting in
  let run' := ROOTToXGBoost_trees "root2xgboost.cpp" demo_signal
                demo_background ["x"; "y"]
                (Some (float_of_nat 5)) (Some (float_of_nat 7)) accepting in
  (forall ub, run.1 <> Undefined ub)
  /\ (forall ub, run'.1 <> Undefined ub)
  /\ run'.2 = run.2 /\ agree_but_weights run.1 run'.1.
Proof.
  intros run run'.
  assert (Hdef : forall ub, run.1 <> Undefined ub)
    by (intros ub; cbv; discriminate).
  assert (Hdef' : forall ub, run'.1 <> Undefined ub)
    by (intros ub; cbv; discriminate).
  repeat (split; [assumption|]).
  exact (proj1 (C9_weights_never_reach_the_library "root2xgboost.cpp")
           demo_signal demo_background ["x"; "y"] None None
           (Some (float_of_nat 5)) (Some (float_of_nat 7)) accepting
           Hdef Hdef').
Defined.

(** C10 on an empty background tree, no weights given. *)
Lemma C10_balanced_weight_needs_nonempty_classes_witness :
  let n_s := Count demo_signal in
  let n_b := Count empty_tree in
  let sig_weight : option Float_t := None in
  let bgd_weight : option Float_t := None in
  let run := ROOTToXGBoost_trees "root2xgboost.cpp" demo_signal empty_tree
               ["x"; "y"] sig_weight bgd_weight accepting in
  columns_present demo_signal empty_tree ["x"; "y"]
  /\ (sig_weight = None -> n_s = 0 -> run.1 = Undefined DivisionByZero)
  /\ (bgd_weight = None -> n_b = 0 -> run.1 = Undefined DivisionByZero)
  /\ (run.1 = Undefined DivisionByZero ->
      (sig_weight = None /\ n_s = 0) \/ (bgd_weight = None /\ n_b = 0))
  /\ (0 < n_s -> 0 < n_b -> run.1 <> Undefined DivisionByZero).
Proof.
  intros n_s n_b sig_weight bgd_weight run.
  assert (Hcols : columns_present demo_signal empty_tree ["x"; "y"])
    by columns_there.
  split; [assumption|].
  exact (C10_balanced_weight_needs_nonempty_classes "root2xgboost.cpp"
           demo_signal empty_tree ["x"; "y"] sig_weight bgd_weight accepting
           Hcols).
Defined.

(** A failing call: the library rejects the second call of the tree
    adapter, and the run ends with the error of [safe_xgboost] for line
    72. *)
Example tree_adapter_rejected_label_call :
  (ROOTToXGBoost_trees "root2xgboost.cpp" demo_signal demo_background
     ["x"; "y"] None None failing_second).1
  = Throw (runtime_error
      ("root2xgboost.cpp:72: error in XGDMatrixSetFloatInfo((data->sb_dmats)[0], "
       +:+ dquote +:+ "label" +:+ dquote
       +:+ ", data->labels, *n_sig + *n_bgd):scripted failure")).
Proof. vm_compute. reflexivity. Qed.

(** C3.  Balance of the computed weights, on the demonstration trees
    (three signal entries, four background entries) with no weights given:
    the adapter returns the weights 2.0 and 1.0, so the weighted totals
    are 6 and 4; they differ by 2, above the bound 3 + 4 - 2 * 3 = 1. *)
Lemma C3_weights_of_3_and_4_exceed_the_bound :
  let run := ROOTToXGBoost_trees "root2xgboost.cpp" demo_signal
               demo_background ["x"; "y"] None None accepting in
  exists data sw bw,
    run.1 = Ok data
    /\ n_sig data = 3 /\ n_bgd data = 4
    /\ (forall k, k < 3 -> weights data !! k = Some (Some sw))
    /\ (forall k, 3 <= k < 7 -> weights data !! k = Some (Some bw))
    /\ Float.to_Z sw = Some 2%Z /\ Float.to_Z bw = Some 1%Z
    /\ weighted_gap 2 1 3 4 = 2%Z
    /\ imbalance_bound 3 4 = 1%Z
    /\ ~ (weighted_gap 2 1 3 4 <= imbalance_bound 3 4)%Z.
Proof.
  intros run.
  exists {| sb_dmats := Some 100%Z;
            weights := replicate 3 (Some (float_of_nat 2))
                       ++ replicate 4 (Some (float_of_nat 1));
            labels := replicate 3 (Some Float.zero)
                      ++ replicate 4 (Some Float.one);
            n_sig := 3; n_bgd := 4 |},
    (float_of_nat 2), (float_of_nat 1).
  split; [vm_compute; reflexivity|]. split; [done|]. split; [done|].
  split.
  { intros k Hk. destruct k as [|[|[|k]]]; [reflexivity..|lia]. }
  split.
  { intros k Hk.
    destruct k as [|[|[|[|[|[|[|k]]]]]]]; try lia; reflexivity. }
  split; [reflexivity|]. split; [reflexivity|]. split; [reflexivity|].
  split; [reflexivity|]. vm_compute. intros Hle. apply Hle. reflexivity.
Qed.

(** * Further properties of the adapters, the trainer and [free] *)

(** ** The tree adapter on variables that are missing *)

Section tree_matrix_total.
Variables (signal_tree background_tree : TTree) (n_vars : nat).

Lemma fill_variable_Ok j sb_mat var :
  j < n_vars ->
  var ∈ branches signal_tree -> var ∈ branches background_tree ->
  length sb_mat = (Count signal_tree + Count background_tree) * n_vars ->
  exists sb_mat',
    fill_variable signal_tree background_tree n_vars (sb_mat, j) var
    = Ok (sb_mat', S j)
    /\ length sb_mat' = length sb_mat.
Proof.
  intros Hj Hs Hb Hlen. unfold fill_variable, Take.
  rewrite !decide_True by done. simpl.
  set (sig_col := map (fun e => e var) (entries signal_tree)).
  set (bgd_col := map (fun e => e var) (entries background_tree)).
  assert (Hls : length sig_col = Count signal_tree) by apply length_map.
  assert (Hlb : length bgd_col = Count background_tree) by apply length_map.
  destruct (fill_column_spec n_vars j sig_col sb_mat 0)
    as (m1 & Hrun1 & Hl1 & _); [lia | nia |].
  rewrite Hrun1. simpl.
  destruct (fill_column_spec n_vars j bgd_col m1 (length sig_col))
    as (m2 & Hrun2 & Hl2 & _); [lia | nia |].
  rewrite Hrun2. simpl. exists m2. split; [done | lia].
Qed.

Lemma fill_variable_missing j sb_mat var :
  j < n_vars ->
  var ∉ branches signal_tree \/ var ∉ branches background_tree ->
  length sb_mat = (Count signal_tree + Count background_tree) * n_vars ->
  fill_variable signal_tree background_tree n_vars (sb_mat, j) var
  = Throw (unknown_column var).
Proof.
  intros Hj Hmiss Hlen. unfold fill_variable, Take.
  destruct (decide (var ∈ branches signal_tree)) as [Hs|Hs]; [|done].
  destruct Hmiss as [Hmiss|Hb]; [done|]. simpl.
  set (sig_col := map (fun e => e var) (entries signal_tree)).
  assert (Hls : length sig_col = Count signal_tree) by apply length_map.
  destruct (fill_column_spec n_vars j sig_col sb_mat 0)
    as (m1 & Hrun1 & _); [lia | nia |].
  rewrite Hrun1. simpl. by rewrite decide_False.
Qed.

Lemma fill_variables_missing : forall pre j sb_mat var post,
  j + length (pre ++ var :: post) = n_vars ->
  columns_present signal_tree background_tree pre ->
  var ∉ branches signal_tree \/ var ∉ branches background_tree ->
  length sb_mat = (Count signal_tree + Count background_tree) * n_vars ->
  foldM (fill_variable signal_tree background_tree n_vars)
    (pre ++ var :: post) (sb_mat, j)
  = Throw (unknown_column var).
Proof.
  induction pre as [|v pre IH]; intros j sb_mat var post Hj [Hs Hb] Hmiss Hlen;
    rewrite length_app in Hj; cbn [app foldM length] in *.
  - rewrite fill_variable_missing; [done | lia | done | done].
  - apply Forall_cons in Hs as [Hv Hs]. apply Forall_cons in Hb as [Hv' Hb].
    destruct (fill_variable_Ok j sb_mat v) as (m & Hrun & Hl);
      [lia | done | done | done |].
    rewrite Hrun. simpl. apply IH; [|done|done|lia].
    rewrite length_app. simpl. lia.
Qed.
End tree_matrix_total.

Lemma present_or_first_missing signal_tree background_tree variables :
  columns_present signal_tree background_tree variables
  \/ exists var, first_missing signal_tree background_tree variables var.
Proof.
  induction variables as [|v variables IH].
  - left. by split.
  - destruct (decide (v ∈ branches signal_tree)) as [Hs|Hs].
    2: { right. exists v, [], variables. split; [done|].
         split; [by split | by left]. }
    destruct (decide (v ∈ branches background_tree)) as [Hb|Hb].
    2: { right. exists v, [], variables. split; [done|].
         split; [by split | by right]. }
    destruct IH as [[Hs' Hb'] | (var & pre & post & -> & [Hs' Hb'] & Hmiss)].
    + left. split; by constructor.
    + right. exists var, (v :: pre), post. split; [done|].
      split; [split; by constructor | done].
Qed.

Lemma fill_tree_matrix_missing signal_tree background_tree variables var :
  first_missing signal_tree background_tree variables var ->
  fill_tree_matrix signal_tree background_tree variables
    (uninitialised ((Count signal_tree + Count background_tree)
                    * length variables))
  = Throw (unknown_column var).
Proof.
  intros (pre & post & Hsplit & Hcols & Hmiss). unfold fill_tree_matrix.
  rewrite Hsplit at 2.
  rewrite (fill_variables_missing signal_tree background_tree
             (length variables) pre 0 _ var post); [done | | done | done |].
  - by rewrite Hsplit.
  - unfold uninitialised. by rewrite length_replicate.
Qed.

(** ** Integer arithmetic of the balanced weights *)

Lemma balanced_gap_le_min (n_s n_b : nat) :
  0 < n_s -> 0 < n_b ->
  (weighted_gap (1 + Z.of_nat (n_b / n_s)) (1 + Z.of_nat (n_s / n_b)) n_s n_b
   <= Z.min (Z.of_nat n_s) (Z.of_nat n_b))%Z
  /\ (n_s = n_b ->
      weighted_gap (1 + Z.of_nat (n_b / n_s)) (1 + Z.of_nat (n_s / n_b))
        n_s n_b = 0%Z).
Proof.
  intros Hs Hb. unfold weighted_gap.
  pose proof (Nat.div_mod_eq n_b n_s) as E1.
  pose proof (Nat.mod_upper_bound n_b n_s) as U1.
  pose proof (Nat.div_mod_eq n_s n_b) as E2.
  pose proof (Nat.mod_upper_bound n_s n_b) as U2.
  destruct (Nat.lt_trichotomy n_s n_b) as [Hlt | [-> | Hlt]].
  - rewrite (Nat.div_small n_s n_b) by done. split; [|lia].
    set (q := n_b / n_s) in *. set (r := n_b mod n_s) in *.
    assert (Eq : (Z.of_nat n_b
                  = Z.of_nat n_s * Z.of_nat q + Z.of_nat r)%Z) by lia.
    rewrite Eq. lia.
  - rewrite Nat.div_same by lia. split; [lia | intros _; lia].
  - rewrite (Nat.div_small n_b n_s) by done. split; [|lia].
    set (q := n_s / n_b) in *. set (r := n_s mod n_b) in *.
    assert (Eq : (Z.of_nat n_s
                  = Z.of_nat n_b * Z.of_nat q + Z.of_nat r)%Z) by lia.
    rewrite Eq. lia.
Qed.

(** ** The arrays of the dataset adapter *)

Lemma event_row_lookup n_vars (ev : Event) j :
  j < n_vars -> event_row n_vars ev !! j = Some (GetValue ev j).
Proof.
  intros Hj. unfold event_row.
  by rewrite list_lookup_fmap, lookup_seq_lt.
Qed.

Lemma event_rows_lookup n_vars : forall (evs : list Event) i ev j,
  evs !! i = Some ev -> j < n_vars ->
  flat_map (event_row n_vars) evs !! (i * n_vars + j) = Some (GetValue ev j).
Proof.
  assert (Hrow : forall ev, length (event_row n_vars ev) = n_vars).
  { intros ev. unfold event_row. by rewrite length_map, length_seq. }
  induction evs as [|e evs IH]; intros i ev j Hi Hj; [done|].
  simpl flat_map. destruct i as [|i]; simpl in Hi.
  - injection Hi as ->. rewrite lookup_app_l by (rewrite Hrow; lia).
    by apply event_row_lookup.
  - rewrite lookup_app_r by (rewrite Hrow; lia). rewrite Hrow.
    replace (S i * n_vars + j - n_vars) with (i * n_vars + j) by lia.
    by apply IH.
Qed.

Lemma splice_lookup_set vs (arr : cells) k v :
  vs !! k = Some v -> splice 0 vs arr !! k = Some (Some v).
Proof.
  intros Hk. unfold splice. simpl.
  rewrite lookup_app_l by (rewrite length_map; by eapply lookup_lt_Some).
  by rewrite list_lookup_fmap, Hk.
Qed.

Lemma splice_lookup_rest vs (arr : cells) k :
  length vs <= k -> splice 0 vs arr !! k = arr !! k.
Proof.
  intros Hk. unfold splice. simpl.
  rewrite lookup_app_r by (by rewrite length_map).
  rewrite length_map, lookup_drop. f_equal. lia.
Qed.

Section dataset_runs.
Context {lib : Type} `{XGBoost lib}.
Variables (cxx_file : string) (dataset_info : DataSetInfo).

Lemma dataset_run type n_s n_b (w : world lib) :
  let dataset := GetDataSet dataset_info in
  let evs := GetEventCollection dataset type in
  let n_v := GetNVariables dataset in
  let run := ROOTToXGBoost_dataset cxx_file dataset_info type w in
  let sb_mat := splice 0 (flat_map (event_row n_v) evs)
                  (uninitialised ((n_s + n_b) * n_v)) in
  recorded dataset type = Some (n_s, n_b) ->
  length evs <= n_s + n_b ->
  calls_succeed w run.2 ->
  exists h s1 s2,
    run.1 = Ok (set_sb_dmats (dataset_bundle dataset_info n_s n_b evs) h)
    /\ log run.2
       = log w ++ New_xgboost_data n_s n_b
           :: map Get_event (seq 0 (length evs))
           ++ [Called s1 (XGDMatrixCreateFromMat sb_mat (n_s + n_b) n_v
                            Float.zero) 0;
               Called s2 (XGDMatrixSetFloatInfo h "label"
                            (labels (dataset_bundle dataset_info n_s n_b evs))
                            (n_s + n_b)) 0].
Proof.
  intros dataset evs n_v run sb_mat Hrec Hlen. unfold run.
  rewrite (dataset_run_eq cxx_file dataset_info type n_s n_b w Hrec).
  fold dataset evs n_v. rewrite decide_True by done. intros Hok.
  assert (Hlog0 :
    log (visited {| xgb := xgb w; log := log w ++ [New_xgboost_data n_s n_b] |}
           0 (length evs))
    = log w ++ New_xgboost_data n_s n_b :: map Get_event (seq 0 (length evs))).
  { simpl. by rewrite <- app_assoc. }
  destruct (wrap_matrix_run _ _ _ _ _ _ w _ _ Hlog0 Hok) as (h & Hr & Hlog).
  eexists h, _, _. split; [exact Hr|].
  rewrite Hlog, Hlog0, <- app_assoc. reflexivity.
Qed.
End dataset_runs.

(** ** The trainer and [free], run by run *)

Section trainer_runs.
Context {lib : Type} `{XGBoost lib}.
Variables (cxx_file hxx_file : string).

Lemma train_run (data : xgboost_data) dmat opts n_iter (w : world lib) :
  let run := xgboost_train cxx_file data opts n_iter w in
  let booster := (xgb_exec (XGBoosterCreate [dmat] 1) (xgb w)).1.2 in
  let plan := training_plan booster dmat opts n_iter in
  sb_dmats data = Some dmat ->
  exists L,
    log run.2 = log w ++ L
    /\ ((run.1 = Ok booster /\ Forall call_ok L /\ omap issued L = plan)
        \/ (exists e, run.1 = Throw e /\ ~ Forall call_ok L
                      /\ omap issued L `prefix_of` plan)).
Proof.
  intros run booster plan Hd.
  unfold run, xgboost_train. rewrite Hd. simpl from_option.
  rewrite lift_bind_Ok, safe_xgboost_bind.
  unfold plan, training_plan, booster.
  destruct (xgb_exec (XGBoosterCreate [dmat] 1) (xgb w)) as [[err b] s].
  simpl. clear run booster plan.
  set (create := Called _ (XGBoosterCreate [dmat] 1) err).
  case_decide as Herr; simpl.
  { exists [create]. split; [done|].
    right. eexists. split; [done|]. split.
    - intros Hall. inversion Hall; subst. done.
    - apply prefix_cons, prefix_nil. }
  subst err. rewrite bind_run.
  match goal with |- context [for_each ?f opts tt ?w1] =>
    destruct (call_loop_run
                (site cxx_file 143
                   "XGBoosterSetParam(booster, opt.first, opt.second)")
                (fun opt : kv_pair => XGBoosterSetParam b opt.1 opt.2)
                opts w1) as (L1 & Hlog1 & _ & Hcase1)
  end.
  simpl in Hlog1.
  destruct Hcase1 as [(Hr1 & Hall1 & Hplan1) | (e & Hr1 & Hn1 & Hpre1)];
    rewrite Hr1.
  2: { exists (create :: L1). cbn [fst snd]. rewrite Hlog1, <- app_assoc.
       split; [done|]. right. exists e.
       split; [done|]. split; [by apply not_all_ok_cons|].
       change (omap issued (create :: L1))
         with (XGBoosterCreate [dmat] 1 :: omap issued L1).
       by apply prefix_cons, prefix_app_r. }
  rewrite bind_run.
  match goal with |- context [for_each ?f (seq 0 n_iter) tt ?w2] =>
    destruct (call_loop_run
                (site cxx_file 148
                   "XGBoosterUpdateOneIter(booster, iter, (data->sb_dmats)[0])")
                (fun iter => XGBoosterUpdateOneIter b (int_of_UInt iter) dmat)
                (seq 0 n_iter) w2)
      as (L2 & Hlog2 & _ & Hcase2)
  end.
  exists (create :: L1 ++ L2).
  assert (Homap : omap issued (create :: L1 ++ L2)
                  = XGBoosterCreate [dmat] 1
                    :: omap issued L1 ++ omap issued L2).
  { change (omap issued (create :: L1 ++ L2))
      with (XGBoosterCreate [dmat] 1 :: omap issued (L1 ++ L2)).
    by rewrite omap_app. }
  destruct Hcase2 as [(Hr2 & Hall2 & Hplan2) | (e & Hr2 & Hn2 & Hpre2)];
    rewrite Hr2; rewrite ?ret_run; cbn [fst snd];
    rewrite Hlog2, Hlog1, <- !app_assoc.
  - split; [done|]. left. split; [done|].
    split; [constructor; [done | by apply Forall_app]|].
    by rewrite Homap, Hplan1, Hplan2.
  - split; [done|]. right. exists e. split; [done|]. split.
    + apply not_all_ok_cons. intros Hall.
      apply Forall_app in Hall as [_ Hall]. by apply Hn2.
    + rewrite Homap, Hplan1. by apply prefix_cons, prefix_app.
Qed.

Lemma training_plan_names_only booster dmat opts n_iter call :
  call ∈ training_plan booster dmat opts n_iter -> names_only dmat call.
Proof.
  unfold training_plan. intros Hin.
  apply elem_of_cons in Hin as [-> | Hin]; [done|].
  apply elem_of_app in Hin as [Hin | Hin];
    apply list_elem_of_fmap in Hin as (x & -> & _); done.
Qed.

Lemma free_run (data : xgboost_data) h (w : world lib) :
  sb_dmats data = Some h ->
  let st := {| site_file := hxx_file; site_line := 52;
               site_text := "XGDMatrixFree(sb_dmats[0])" |} in
  let '(err, _, s) := xgb_exec (XGDMatrixFree h) (xgb w) in
  free hxx_file data w
  = (if decide (err = 0%Z) then Ok tt
     else Throw (runtime_error (error_message st (XGBGetLastError s))),
     {| xgb := s; log := log w ++ [Called st (XGDMatrixFree h) err] |}).
Proof.
  intros Hd st. unfold free. rewrite Hd. simpl from_option.
  rewrite lift_bind_Ok, safe_xgboost_bind.
  destruct (xgb_exec (XGDMatrixFree h) (xgb w)) as [[err out] s].
  by destruct (decide (err = 0%Z)) as [->|Hne]; simpl;
    [|rewrite decide_True by done].
Qed.

Lemma wrap_matrix_handle s1 s2 sb_mat n nv (d d1 : xgboost_data) (w : world lib) :
  (wrap_matrix s1 s2 sb_mat n nv d w).1 = Ok d1 ->
  sb_dmats d1
  = Some (xgb_exec (XGDMatrixCreateFromMat sb_mat n nv Float.zero) (xgb w)).1.2.
Proof.
  unfold wrap_matrix. rewrite safe_xgboost_bind.
  destruct (xgb_exec _ (xgb w)) as [[err1 h] s].
  case_decide as Herr1; simpl; [done|].
  rewrite safe_xgboost_bind. cbn [xgb log].
  destruct (xgb_exec _ s) as [[err2 o] s'].
  case_decide as Herr2; simpl; [done|]. by intros [= <-].
Qed.
End trainer_runs.

Section more_claims.
Context {lib : Type} `{XGBoost lib}.
Variables (cxx_file hxx_file : string).

(** X1.  A variable that is missing: when some requested variable is not a
    branch of both trees, the tree adapter throws the data frame's error
    for the first such variable, and leaves the world as it found it: no
    bundle allocated, no library call made. *)
Theorem X1_tree_adapter_missing_variable
    (signal_tree background_tree : TTree) (variables : list string)
    (sig_weight bgd_weight : option Float_t) (var : string) (w : world lib) :
  first_missing signal_tree background_tree variables var ->
  ROOTToXGBoost_trees cxx_file signal_tree background_tree variables
    sig_weight bgd_weight w
  = (Throw (unknown_column var), w).
Proof.
  intros Hmiss. rewrite trees_run_cases.
  by rewrite (fill_tree_matrix_missing _ _ _ _ Hmiss).
Qed.

(** X2.  Where the tree adapter leaves defined behaviour.  With an array
    of positive bounds at line 29 (some row and some variable), the only
    undefined behaviour of a run is the division by zero of a balanced
    weight, for a null weight whose own class is empty: the matrix fill
    and the label and weight loops stay within their arrays.  The division
    is reached after the bundle was allocated and before any library
    call. *)
Theorem X2_tree_adapter_only_divides_by_zero
    (signal_tree background_tree : TTree) (variables : list string)
    (sig_weight bgd_weight : option Float_t) (w : world lib)
    (ub : undefined_behaviour) :
  let n_s := Count signal_tree in
  let n_b := Count background_tree in
  let run := ROOTToXGBoost_trees cxx_file signal_tree background_tree
               variables sig_weight bgd_weight w in
  0 < n_s + n_b ->
  0 < length variables ->
  run.1 = Undefined ub ->
  ub = DivisionByZero
  /\ ((sig_weight = None /\ n_s = 0) \/ (bgd_weight = None /\ n_b = 0))
  /\ run.2 = {| xgb := xgb w; log := log w ++ [New_xgboost_data n_s n_b] |}.
Proof.
  intros n_s n_b run _ _. unfold run. rewrite trees_run_cases.
  destruct (present_or_first_missing signal_tree background_tree variables)
    as [Hcols | [var Hmiss]].
  2: { by rewrite (fill_tree_matrix_missing _ _ _ _ Hmiss). }
  destruct (fill_tree_matrix_spec _ _ _ Hcols) as (sb_mat & -> & _).
  fold n_s n_b.
  destruct (class_weight sig_weight _ _) as [sw|e|ub1] eqn:Hsw; simpl.
  - destruct (class_weight bgd_weight _ _) as [bw|e|ub2] eqn:Hbw; simpl.
    + intros Habs. by destruct (wrap_matrix_defined _ _ _ _ _ _ _ _ Habs).
    + done.
    + intros [= ->].
      apply class_weight_Undefined_inv in Hbw as (-> & -> & Hz). auto.
  - done.
  - intros [= ->].
    apply class_weight_Undefined_inv in Hsw as (-> & -> & Hz). auto.
Qed.

(** X3.  How far the balanced weights are from balancing: with no weights
    given, both classes non-empty and quotients below 65536, the signal
    rows carry the integer [1 + n_bgd / n_sig] and the background rows
    [1 + n_sig / n_bgd], and the two weighted class totals differ by at
    most the size of the smaller class; they are equal when the classes
    have the same size. *)
Theorem X3_balanced_totals_differ_by_at_most_the_smaller_class
    (signal_tree background_tree : TTree) (variables : list string)
    (w : world lib) :
  let n_s := Count signal_tree in
  let n_b := Count background_tree in
  let run := ROOTToXGBoost_trees cxx_file signal_tree background_tree
               variables None None w in
  let sw := (1 + Z.of_nat (n_b / n_s))%Z in
  let bw := (1 + Z.of_nat (n_s / n_b))%Z in
  columns_present signal_tree background_tree variables ->
  0 < n_s -> 0 < n_b ->
  (Z.of_nat (n_b / n_s) < 65536)%Z -> (Z.of_nat (n_s / n_b) < 65536)%Z ->
  calls_succeed w run.2 ->
  exists data fs fb,
    run.1 = Ok data
    /\ (forall k, k < n_s -> weights data !! k = Some (Some fs))
    /\ (forall k, n_s <= k < n_s + n_b -> weights data !! k = Some (Some fb))
    /\ Float.to_Z fs = Some sw /\ Float.to_Z fb = Some bw
    /\ (weighted_gap sw bw n_s n_b <= Z.min (Z.of_nat n_s) (Z.of_nat n_b))%Z
    /\ (n_s = n_b -> weighted_gap sw bw n_s n_b = 0%Z).
Proof.
  intros n_s n_b run sw bw Hcols Hs Hb Hq1 Hq2 Hok.
  assert (Hbal : forall n_other n_own, 0 < n_own ->
            class_weight None n_other n_own
            = Ok (Float.of_Double
                    (Double.add Double.one
                       (Double.of_ULong64 (n_other / n_own))))).
  { intros n_other n_own Hpos. simpl. unfold balanced_weight, udiv.
    by rewrite decide_False by lia. }
  destruct (trees_run cxx_file _ _ _ _ _ _ _ w Hcols
              (Hbal n_b n_s Hs) (Hbal n_s n_b Hb) Hok)
    as (sb_mat & h & _ & Hr & _).
  eexists _, _, _. split; [exact Hr|]. simpl. split.
  { intros k Hk. rewrite lookup_app_l by (by rewrite length_replicate).
    by apply lookup_replicate_2. }
  split.
  { intros k Hk. rewrite lookup_app_r by (rewrite length_replicate; lia).
    rewrite length_replicate. apply lookup_replicate_2. lia. }
  split; [by apply balanced_value_small|].
  split; [by apply balanced_value_small|].
  by apply balanced_gap_le_min.
Qed.

(** X4.  The larger class is never weighted up: with a null weight, a class
    that is larger than the other gets the weight 1.0 on every row, since
    the quotient of the counts truncates to zero; two classes of the same
    size get 2.0 on every row. *)
Theorem X4_majority_class_weight_is_one
    (signal_tree background_tree : TTree) (variables : list string)
    (sig_weight bgd_weight : option Float_t) (sw bw : Float_t)
    (w : world lib) :
  let n_s := Count signal_tree in
  let n_b := Count background_tree in
  let run := ROOTToXGBoost_trees cxx_file signal_tree background_tree
               variables sig_weight bgd_weight w in
  columns_present signal_tree background_tree variables ->
  class_weight sig_weight n_b n_s = Ok sw ->
  class_weight bgd_weight n_s n_b = Ok bw ->
  calls_succeed w run.2 ->
  exists data,
    run.1 = Ok data
    /\ (sig_weight = None -> n_b < n_s -> forall k, k < n_s ->
          weights data !! k = Some (Some Float.one))
    /\ (bgd_weight = None -> n_s < n_b -> forall k, n_s <= k < n_s + n_b ->
          weights data !! k = Some (Some Float.one))
    /\ (sig_weight = None -> bgd_weight = None -> n_s = n_b ->
        forall k, k < n_s + n_b -> weights data !! k = Some (Some Float_two)).
Proof.
  intros n_s n_b run Hcols Hsw Hbw Hok.
  assert (Hbal : forall n_other n_own v,
            class_weight None n_other n_own = Ok v ->
            0 < n_own
            /\ v = Float.of_Double
                     (Double.add Double.one
                        (Double.of_ULong64 (n_other / n_own)))).
  { intros n_other n_own v. simpl. unfold balanced_weight, udiv.
    case_decide as Hz; [done|]. simpl. intros [= <-]. split; [lia | done]. }
  destruct (trees_run cxx_file _ _ _ _ _ _ _ w Hcols Hsw Hbw Hok)
    as (sb_mat & h & _ & Hr & _).
  eexists. split; [exact Hr|]. simpl. split; [|split].
  - intros -> Hlt k Hk. destruct (Hbal _ _ _ Hsw) as [_ ->].
    rewrite (Nat.div_small n_b n_s) by done.
    rewrite lookup_app_l by (by rewrite length_replicate).
    by apply lookup_replicate_2.
  - intros -> Hlt k Hk. destruct (Hbal _ _ _ Hbw) as [_ ->].
    rewrite (Nat.div_small n_s n_b) by done.
    rewrite lookup_app_r by (rewrite length_replicate; lia).
    rewrite length_replicate. apply lookup_replicate_2. lia.
  - intros -> -> Heq k Hk.
    destruct (Hbal _ _ _ Hsw) as [Hpos ->].
    destruct (Hbal _ _ _ Hbw) as [_ ->].
    rewrite <- Heq, Nat.div_same by lia.
    change (Float.of_Double (Double.add Double.one (Double.of_ULong64 1)))
      with Float_two.
    rewrite <- replicate_add. apply lookup_replicate_2. lia.
Qed.

(** X5.  Dataset adapter, feature matrix: for a training or testing
    partition that holds no more events than the dataset records, and a
    library that accepts the calls, the matrix handed to
    [XGDMatrixCreateFromMat] is row-major with one row per event in the
    order of the collection: cell [i * n_vars + j] holds value [j] of
    event [i]. *)
Theorem X5_dataset_matrix_rows
    (dataset_info : DataSetInfo) (type : ETreeType) (n_s n_b : nat)
    (w : world lib) :
  let dataset := GetDataSet dataset_info in
  let evs := GetEventCollection dataset type in
  let n_v := GetNVariables dataset in
  let run := ROOTToXGBoost_dataset cxx_file dataset_info type w in
  recorded dataset type = Some (n_s, n_b) ->
  length evs <= n_s + n_b ->
  calls_succeed w run.2 ->
  exists data sb_mat s,
    run.1 = Ok data
    /\ Called s (XGDMatrixCreateFromMat sb_mat (n_s + n_b) n_v Float.zero) 0
       ∈ log run.2
    /\ length sb_mat = (n_s + n_b) * n_v
    /\ (forall i ev j, evs !! i = Some ev -> j < n_v ->
          sb_mat !! (i * n_v + j) = Some (Some (GetValue ev j))).
Proof.
  intros dataset evs n_v run Hrec Hlen Hok.
  destruct (dataset_run cxx_file dataset_info type n_s n_b w Hrec Hlen Hok)
    as (h & s1 & s2 & Hr & Hlog).
  eexists _, _, s1. split; [exact Hr|]. split.
  { fold run in Hlog. rewrite Hlog. apply elem_of_app; right.
    apply list_elem_of_further, elem_of_app; right. apply list_elem_of_here. }
  split.
  { rewrite length_splice; unfold uninitialised; rewrite length_replicate;
      [done|].
    rewrite length_event_rows. simpl. apply Nat.mul_le_mono_r. exact Hlen. }
  intros i ev j Hi Hj. apply splice_lookup_set.
  by apply event_rows_lookup.
Qed.

(** X6.  Dataset adapter, weights: under the same conditions row [i] of
    the bundle carries the original weight of event [i], narrowed to
    [Float_t]; the adapter computes no balanced weight, so the weights do
    not depend on the recorded counts. *)
Theorem X6_dataset_weights_are_event_weights
    (dataset_info : DataSetInfo) (type : ETreeType) (n_s n_b : nat)
    (w : world lib) :
  let dataset := GetDataSet dataset_info in
  let evs := GetEventCollection dataset type in
  let run := ROOTToXGBoost_dataset cxx_file dataset_info type w in
  recorded dataset type = Some (n_s, n_b) ->
  length evs <= n_s + n_b ->
  calls_succeed w run.2 ->
  exists data,
    run.1 = Ok data
    /\ length (weights data) = n_s + n_b
    /\ (forall i ev, evs !! i = Some ev ->
          weights data !! i
          = Some (Some (Float.of_Double (GetOriginalWeight ev)))).
Proof.
  intros dataset evs run Hrec Hlen Hok.
  destruct (dataset_run cxx_file dataset_info type n_s n_b w Hrec Hlen Hok)
    as (h & s1 & s2 & Hr & _).
  eexists. split; [exact Hr|]. simpl. split.
  { rewrite length_splice; unfold uninitialised; rewrite length_replicate;
      [done|]. by rewrite length_map. }
  intros i ev Hi. apply splice_lookup_set.
  unfold evs, dataset in Hi. by rewrite list_lookup_fmap, Hi.
Qed.

(** X7.  Dataset adapter, fewer events than recorded: the arrays are sized
    by the recorded counts and never cleared, so when the collection holds
    fewer events the adapter still returns, and the labels, weights and
    matrix rows beyond the last event are handed on unset: the label array
    given to [XGDMatrixSetFloatInfo] is announced with the recorded length
    and holds no value from row [length evs] on. *)
Theorem X7_dataset_short_collection_leaves_rows_unset
    (dataset_info : DataSetInfo) (type : ETreeType) (n_s n_b : nat)
    (w : world lib) :
  let dataset := GetDataSet dataset_info in
  let evs := GetEventCollection dataset type in
  let n_v := GetNVariables dataset in
  let run := ROOTToXGBoost_dataset cxx_file dataset_info type w in
  recorded dataset type = Some (n_s, n_b) ->
  length evs <= n_s + n_b ->
  calls_succeed w run.2 ->
  exists data sb_mat h s1 s2,
    run.1 = Ok data
    /\ Called s1 (XGDMatrixCreateFromMat sb_mat (n_s + n_b) n_v Float.zero) 0
       ∈ log run.2
    /\ Called s2 (XGDMatrixSetFloatInfo h "label" (labels data) (n_s + n_b)) 0
       ∈ log run.2
    /\ (forall k, length evs <= k < n_s + n_b ->
          labels data !! k = Some None /\ weights data !! k = Some None
          /\ forall j, j < n_v -> sb_mat !! (k * n_v + j) = Some None).
Proof.
  intros dataset evs n_v run Hrec Hlen Hok.
  destruct (dataset_run cxx_file dataset_info type n_s n_b w Hrec Hlen Hok)
    as (h & s1 & s2 & Hr & Hlog).
  fold run in Hlog.
  eexists _, _, h, s1, s2. split; [exact Hr|]. split.
  { rewrite Hlog. apply elem_of_app; right.
    apply list_elem_of_further, elem_of_app; right. apply list_elem_of_here. }
  split.
  { rewrite Hlog. apply elem_of_app; right.
    apply list_elem_of_further, elem_of_app; right.
    apply list_elem_of_further, list_elem_of_here. }
  intros k Hk. simpl. unfold uninitialised.
  rewrite !splice_lookup_rest by (rewrite length_map; fold dataset evs; lia).
  split; [apply lookup_replicate_2; lia|].
  split; [apply lookup_replicate_2; lia|].
  intros j Hj. fold dataset evs n_v.
  assert (length evs * n_v <= k * n_v) by (apply Nat.mul_le_mono_r; lia).
  assert (S k * n_v <= (n_s + n_b) * n_v) by (apply Nat.mul_le_mono_r; lia).
  rewrite splice_lookup_rest by (rewrite length_event_rows; lia).
  apply lookup_replicate_2. lia.
Qed.

(** X8.  Dataset adapter, more events than recorded: the event loop has
    no bound of its own, so a training or testing collection that holds
    more events than the dataset records makes the adapter store past the
    end of its arrays, at the first event beyond the recorded count, after
    the bundle was allocated and before any library call. *)
Theorem X8_dataset_long_collection_overflows
    (dataset_info : DataSetInfo) (type : ETreeType) (n_s n_b : nat)
    (w : world lib) :
  let dataset := GetDataSet dataset_info in
  let evs := GetEventCollection dataset type in
  let run := ROOTToXGBoost_dataset cxx_file dataset_info type w in
  recorded dataset type = Some (n_s, n_b) ->
  n_s + n_b < length evs ->
  run.1 = Undefined OutOfBounds
  /\ xgb run.2 = xgb w
  /\ log run.2 = log w ++ New_xgboost_data n_s n_b
                    :: map Get_event (seq 0 (n_s + n_b + 1)).
Proof.
  intros dataset evs run Hrec Hlong. unfold run.
  rewrite (dataset_run_eq cxx_file dataset_info type n_s n_b w Hrec).
  fold dataset evs. rewrite decide_False by lia. simpl.
  split; [done|]. split; [done|]. by rewrite <- app_assoc.
Qed.

(** X9.  [free] keeps no record of the release: on a bundle that wraps
    the matrix [h], a second [free] asks the library to free [h] again.
    When the library accepts the first [XGDMatrixFree h], two releases in
    a row make that call twice, and the outcome is the library's answer
    to the second; when the library turns the first down, that [free]
    throws and the second is not reached. *)
Theorem X9_free_twice_frees_twice
    (data : xgboost_data) (h : DMatrixHandle) (w : world lib) :
  let run := (_ ← free hxx_file data; free hxx_file data) w in
  let st := {| site_file := hxx_file; site_line := 52;
               site_text := "XGDMatrixFree(sb_dmats[0])" |} in
  let first := xgb_exec (XGDMatrixFree h) (xgb w) in
  let second := xgb_exec (XGDMatrixFree h) first.2 in
  sb_dmats data = Some h ->
  (first.1.1 = 0%Z ->
     log run.2 = log w ++ [Called st (XGDMatrixFree h) 0;
                           Called st (XGDMatrixFree h) second.1.1]
     /\ xgb run.2 = second.2
     /\ run.1 = if decide (second.1.1 = 0%Z) then Ok tt
                else Throw (runtime_error
                              (error_message st (XGBGetLastError second.2))))
  /\ (first.1.1 <> 0%Z ->
        log run.2 = log w ++ [Called st (XGDMatrixFree h) first.1.1]
        /\ xgb run.2 = first.2
        /\ run.1 = Throw (runtime_error
                            (error_message st (XGBGetLastError first.2)))).
Proof.
  intros run st first second Hd. unfold run, second, first.
  rewrite bind_run.
  pose proof (free_run hxx_file data h w Hd) as H1. cbv zeta in H1.
  destruct (xgb_exec (XGDMatrixFree h) (xgb w)) as [[err1 o1] s1].
  rewrite H1. cbn [fst snd].
  destruct (decide (err1 = 0%Z)) as [->|Hne1].
  - split; [intros _ | done].
    match goal with |- context [free hxx_file data ?w1] =>
      pose proof (free_run hxx_file data h w1 Hd) as H2; cbv zeta in H2;
      cbn [xgb log] in H2
    end.
    destruct (xgb_exec (XGDMatrixFree h) s1) as [[err2 o2] s2].
    rewrite H2. cbn [fst snd log xgb]. rewrite <- app_assoc.
    split; [reflexivity|]. split; reflexivity.
  - split; [done | intros _]. cbn [fst snd log xgb].
    split; [reflexivity|]. split; reflexivity.
Qed.

(** X10.  The trainer and [free] act on the bundle's matrix only: on a
    bundle that wraps the matrix [h], neither has undefined behaviour,
    every call the trainer issues that names a matrix names [h] (the
    booster is created on [h] alone and every update iteration runs on
    [h]), and [free] issues the single call [XGDMatrixFree h]. *)
Theorem X10_trainer_and_free_use_the_bundle_matrix
    (data : xgboost_data) (h : DMatrixHandle) (opts : xgbooster_opts)
    (n_iter : nat) (w : world lib) :
  let trained := xgboost_train cxx_file data opts n_iter w in
  let released := free hxx_file data w in
  sb_dmats data = Some h ->
  (forall ub, trained.1 <> Undefined ub)
  /\ (exists L, log trained.2 = log w ++ L
       /\ Forall (fun call => names_only h call) (omap issued L))
  /\ (forall ub, released.1 <> Undefined ub)
  /\ (exists L, log released.2 = log w ++ L
       /\ omap issued L = [XGDMatrixFree h]).
Proof.
  intros trained released Hd.
  destruct (train_run cxx_file data h opts n_iter w Hd)
    as (L & Hlog & Hcase).
  fold trained in Hlog, Hcase.
  assert (Hdef : forall ub, trained.1 <> Undefined ub).
  { intros ub. by destruct Hcase as [(-> & _) | (e & -> & _)]. }
  split; [exact Hdef|]. split.
  { exists L. split; [done|]. apply Forall_forall. intros call Hin.
    eapply training_plan_names_only.
    destruct Hcase as [(_ & _ & <-) | (e & _ & _ & Hpre)]; [exact Hin|].
    by eapply elem_of_prefix. }
  unfold released.
  pose proof (free_run hxx_file data h w Hd) as Hf. cbv zeta in Hf.
  destruct (xgb_exec (XGDMatrixFree h) (xgb w)) as [[err o] s].
  rewrite Hf. cbn [fst snd log]. split.
  - intros ub. by destruct (decide (err = 0%Z)).
  - eexists. split; [reflexivity | done].
Qed.

(** X11.  From conversion to release: a bundle returned by either adapter
    wraps the handle the library returned for [XGDMatrixCreateFromMat];
    training on it and releasing it, with a library that accepts the
    calls, creates the booster on that handle, runs every update
    iteration on it, frees it last, and returns the booster the library
    created. *)
Theorem X11_adapter_bundle_trains_and_releases
    (convert : M lib xgboost_data) (opts : xgbooster_opts) (n_iter : nat)
    (w : world lib) (data : xgboost_data) :
  let converted := convert w in
  let rest := train_release cxx_file hxx_file data opts n_iter converted.2 in
  is_adapter cxx_file convert ->
  converted.1 = Ok data ->
  calls_succeed converted.2 rest.2 ->
  exists sb_mat n nv h L,
    let booster := (xgb_exec (XGBoosterCreate [h] 1) (xgb converted.2)).1.2 in
    h = (xgb_exec (XGDMatrixCreateFromMat sb_mat n nv Float.zero) (xgb w)).1.2
    /\ sb_dmats data = Some h
    /\ rest.1 = Ok booster
    /\ log rest.2 = log converted.2 ++ L
    /\ omap issued L = training_plan booster h opts n_iter ++ [XGDMatrixFree h].
Proof.
  intros converted rest Hadapter Hconv Hok.
  assert (Hh : exists sb_mat n nv,
            sb_dmats data
            = Some (xgb_exec (XGDMatrixCreateFromMat sb_mat n nv Float.zero)
                      (xgb w)).1.2).
  { revert Hconv. unfold converted.
    destruct Hadapter as
      [(signal_tree & background_tree & variables & sig_weight & bgd_weight
        & ->) | (dataset_info & type & ->)].
    - rewrite trees_run_cases.
      destruct (fill_tree_matrix _ _ _ _) as [sb_mat|e|ub]; [|done..].
      destruct (class_weight sig_weight _ _) as [sw|e|ub]; [|done..].
      destruct (class_weight bgd_weight _ _) as [bw|e|ub]; [|done..].
      intros Hconv. apply wrap_matrix_handle in Hconv. eauto.
    - destruct (recorded (GetDataSet dataset_info) type)
        as [[n_s n_b]|] eqn:Hrec.
      2: { by rewrite dataset_run_invalid. }
      rewrite (dataset_run_eq cxx_file dataset_info type n_s n_b w Hrec).
      case_decide; [|done].
      intros Hconv. apply wrap_matrix_handle in Hconv. eauto. }
  destruct Hh as (sb_mat & n & nv & Hd).
  exists sb_mat, n, nv. eexists. cbv zeta.
  revert Hok. unfold rest, train_release. rewrite bind_run.
  destruct (train_run cxx_file data _ opts n_iter converted.2 Hd)
    as (Lt & Hlogt & Hcase).
  destruct Hcase as [(Hr & Hall & Hplan) | (e & Hr & Hn & _)]; rewrite Hr.
  2: { cbn [fst snd]. intros (L & HL & HallL). rewrite Hlogt in HL.
       apply app_inv_head in HL. by subst. }
  rewrite bind_run.
  match goal with |- context [free hxx_file data ?wt] =>
    pose proof (free_run hxx_file data _ wt Hd) as Hf; cbv zeta in Hf;
    destruct (xgb_exec (XGDMatrixFree _) (xgb wt)) as [[err o] s];
    rewrite Hf
  end.
  cbn [fst snd]. destruct (decide (err = 0%Z)) as [->|Hne]; cbn [fst snd log].
  - intros _. exists (Lt ++ [Called {| site_file := hxx_file; site_line := 52;
               site_text := "XGDMatrixFree(sb_dmats[0])" |}
               (XGDMatrixFree (xgb_exec (XGDMatrixCreateFromMat sb_mat n nv
                                           Float.zero) (xgb w)).1.2) 0]).
    split; [reflexivity|]. split; [exact Hd|].
    split; [reflexivity|]. rewrite Hlogt, <- app_assoc.
    split; [reflexivity|]. by rewrite omap_app, Hplan.
  - intros Hok. destruct Hne.
    eapply (calls_succeed_failed converted.2 _ Lt); [|exact Hok].
    cbn [log]. by rewrite Hlogt, <- app_assoc.
Qed.

End more_claims.

(** * The testing benchmark *)

Section benchmark_runs.
Context {lib : Type} `{XGBoost lib} `{XGBoostModels lib}.
Variables (bench_file cxx_file hxx_file : string).

Lemma BM_bind_run {A B} (m : BM lib A) (k : A -> BM lib B) bw :
  (m ≫= k) bw
  = match (m bw).1 with
    | Ok a => k a (m bw).2
    | Throw e => (Throw e, (m bw).2)
    | Undefined ub => (Undefined ub, (m bw).2)
    end.
Proof. unfold mbind, BM_bind. by destruct (m bw) as [[a|e|ub] bw']. Qed.

Lemma unchecked_bind {B} call (k : option Z -> BM lib B) bw :
  (unchecked call ≫= k) bw
  = let '(err, out, s) := xgb_exec call (bxgb bw) in
    k (if decide (err = 0%Z) then Some out else None)
      {| bxgb := s; blog := blog bw ++ [Unchecked call err] |}.
Proof.
  unfold mbind, BM_bind, unchecked.
  by destruct (xgb_exec call (bxgb bw)) as [[err out] s].
Qed.

Lemma safe_model_bind {B} st call (k : unit -> BM lib B) bw :
  (safe_model st call ≫= k) bw
  = let '(err, s) := xgb_exec_model call (bxgb bw) in
    let bw' := {| bxgb := s;
                  blog := blog bw ++ [Called_model st call err] |} in
    if decide (err ≠ 0%Z)
    then (Throw (runtime_error (error_message st (XGBGetLastError s))), bw')
    else k tt bw'.
Proof.
  unfold mbind, BM_bind, safe_model.
  destruct (xgb_exec_model call (bxgb bw)) as [err s].
  by case_decide.
Qed.

Lemma blift_bind_Ok {A B} (a : A) (k : A -> BM lib B) bw :
  (blift (Ok a) ≫= k) bw = k a bw.
Proof. done. Qed.

Lemma blift_bind_Undefined {A B} ub (k : A -> BM lib B) bw :
  (blift (Undefined ub) ≫= k) bw = (Undefined ub, bw).
Proof. done. Qed.

Lemma core_run {A} (m : M lib A) bw :
  let r := m {| xgb := bxgb bw; log := [] |} in
  core m bw
  = (r.1, {| bxgb := xgb r.2; blog := blog bw ++ map Core (log r.2) |}).
Proof. unfold core. by destruct (m _) as [r w']. Qed.

Lemma core_free_run (data : xgboost_data) h bw :
  sb_dmats data = Some h ->
  let st := {| site_file := hxx_file; site_line := 52;
               site_text := "XGDMatrixFree(sb_dmats[0])" |} in
  let '(err, _, s) := xgb_exec (XGDMatrixFree h) (bxgb bw) in
  core (free hxx_file data) bw
  = (if decide (err = 0%Z) then Ok tt
     else Throw (runtime_error (error_message st (XGBGetLastError s))),
     {| bxgb := s;
        blog := blog bw ++ [Core (Called st (XGDMatrixFree h) err)] |}).
Proof.
  intros Hd st. unfold core.
  pose proof (free_run hxx_file data h {| xgb := bxgb bw; log := [] |} Hd)
    as Hf.
  cbv zeta in Hf. cbn [xgb log] in Hf.
  destruct (xgb_exec (XGDMatrixFree h) (bxgb bw)) as [[err out] s].
  by rewrite Hf.
Qed.

Lemma not_all_bench_ok_cons a L : ~ Forall bench_ok L -> ~ Forall bench_ok (a :: L).
Proof. intros Hn Hall. inversion Hall; subst. done. Qed.

Lemma iteration_run (data : xgboost_data) h range0 range1 bw :
  sb_dmats data = Some h ->
  let r := BM_XGBOOST_BDTTesting_iteration bench_file hxx_file data
             range0 range1 bw in
  exists L,
    blog r.2 = blog bw ++ L
    /\ ((r.1 = Ok tt
         /\ exists b, L = iteration_trace bench_file hxx_file range0 range1 h b)
        \/ (r.1 <> Ok tt /\ ~ Forall bench_ok L)).
Proof.
  intros Hd r. unfold r, BM_XGBOOST_BDTTesting_iteration. clear r.
  rewrite unchecked_bind.
  destruct (xgb_exec (XGBoosterCreate [] 0) (bxgb bw)) as [[err0 b] s0].
  destruct (decide (err0 = 0%Z)) as [->|Hne0]; cbn [from_option].
  2: { rewrite blift_bind_Undefined.
       exists [Unchecked (XGBoosterCreate [] 0) err0].
       split; [done|]. right. split; [done|].
       intros Hall. inversion Hall; subst. done. }
  rewrite blift_bind_Ok, safe_model_bind. cbn [bxgb blog].
  destruct (xgb_exec_model (XGBoosterLoadModel b _) s0) as [err1 s1].
  cbv zeta.
  destruct (decide (err1 ≠ 0%Z)) as [Hne1|He1]; cbn [fst snd blog].
  { eexists [_; _]. rewrite <- app_assoc. split; [done|]. right.
    split; [done|]. apply not_all_bench_ok_cons.
    intros Hall. inversion Hall; subst. done. }
  assert (err1 = 0%Z) as -> by (by destruct (decide (err1 = 0%Z))).
  rewrite Hd. cbn [from_option].
  rewrite blift_bind_Ok, safe_model_bind. cbn [bxgb blog].
  destruct (xgb_exec_model (XGBoosterPredict b h 0 0) s1) as [err2 s2].
  cbv zeta.
  destruct (decide (err2 ≠ 0%Z)) as [Hne2|He2]; cbn [fst snd blog].
  { eexists [_; _; _]. rewrite <- !app_assoc. split; [done|]. right.
    split; [done|]. do 2 apply not_all_bench_ok_cons.
    intros Hall. inversion Hall; subst. done. }
  assert (err2 = 0%Z) as -> by (by destruct (decide (err2 = 0%Z))).
  rewrite BM_bind_run.
  match goal with |- context [core (free hxx_file data) ?bw1] =>
    pose proof (core_free_run data h bw1 Hd) as Hf; cbv zeta in Hf;
    cbn [bxgb blog] in Hf;
    destruct (xgb_exec (XGDMatrixFree h) s2) as [[err3 o3] s3];
    rewrite Hf
  end.
  cbn [fst snd].
  destruct (decide (err3 = 0%Z)) as [->|Hne3]; cbn [fst snd blog].
  2: { eexists [_; _; _; _]. rewrite <- !app_assoc. split; [done|]. right.
       split; [done|]. do 3 apply not_all_bench_ok_cons.
       intros Hall. inversion Hall; subst. done. }
  unfold safe_model. cbn [bxgb blog].
  destruct (xgb_exec_model (XGBoosterFree b) s3) as [err4 s4].
  destruct (decide (err4 ≠ 0%Z)) as [Hne4|He4]; cbn [fst snd blog].
  { eexists [_; _; _; _; _]. rewrite <- !app_assoc. split; [done|]. right.
    split; [done|]. do 4 apply not_all_bench_ok_cons.
    intros Hall. inversion Hall; subst. done. }
  assert (err4 = 0%Z) as -> by (by destruct (decide (err4 = 0%Z))).
  eexists. rewrite <- !app_assoc. split; [reflexivity|]. left.
  split; [done|]. by exists b.
Qed.

Lemma loop_run (data : xgboost_data) h range0 range1 n bw :
  sb_dmats data = Some h ->
  let r := each_iteration n
             (BM_XGBOOST_BDTTesting_iteration bench_file hxx_file data
                range0 range1) bw in
  exists L,
    blog r.2 = blog bw ++ L
    /\ ((r.1 = Ok tt
         /\ exists bs, length bs = n
              /\ L = flat_map (iteration_trace bench_file hxx_file
                                 range0 range1 h) bs)
        \/ (r.1 <> Ok tt /\ ~ Forall bench_ok L)).
Proof.
  intros Hd. revert bw. induction n as [|n IH]; intros bw r.
  { exists []. rewrite app_nil_r. split; [done|]. left. split; [done|].
    by exists []. }
  unfold r. cbn [each_iteration]. rewrite BM_bind_run.
  destruct (iteration_run data h range0 range1 bw Hd) as (L1 & Hlog1 & Hcase1).
  destruct Hcase1 as [(Hr1 & b & ->) | (Hr1 & Hn1)].
  - rewrite Hr1.
    destruct (IH (BM_XGBOOST_BDTTesting_iteration bench_file hxx_file data
                    range0 range1 bw).2) as (L2 & Hlog2 & Hcase2).
    exists (iteration_trace bench_file hxx_file range0 range1 h b ++ L2).
    rewrite Hlog2, Hlog1, <- app_assoc. split; [done|].
    destruct Hcase2 as [(Hr2 & bs & Hlen & ->) | (Hr2 & Hn2)].
    + left. split; [done|]. exists (b :: bs). split; [by rewrite <- Hlen|done].
    + right. split; [done|]. intros Hall. apply Hn2.
      by apply Forall_app in Hall as [_ ?].
  - exists L1.
    destruct (BM_XGBOOST_BDTTesting_iteration bench_file hxx_file data
                range0 range1 bw) as [[[]|e|ub] bw1]; cbn [fst snd] in *;
      (split; [done|]); right; done.
Qed.

Lemma adapter_handle dataset_info type (w : world lib) data :
  (ROOTToXGBoost_dataset cxx_file dataset_info type w).1 = Ok data ->
  exists h, sb_dmats data = Some h.
Proof.
  destruct (recorded (GetDataSet dataset_info) type)
    as [[n_s n_b]|] eqn:Hrec.
  2: { by rewrite dataset_run_invalid. }
  rewrite (dataset_run_eq cxx_file dataset_info type n_s n_b w Hrec).
  case_decide; [|done].
  intros Hconv. apply wrap_matrix_handle in Hconv. eauto.
Qed.

Lemma testing_run dataset_info range0 range1 n bw data :
  let converted := ROOTToXGBoost_dataset cxx_file dataset_info kTesting
                     {| xgb := bxgb bw; log := [] |} in
  let run := BM_XGBOOST_BDTTesting bench_file cxx_file hxx_file dataset_info
               range0 range1 n bw in
  converted.1 = Ok data ->
  exists h L,
    sb_dmats data = Some h
    /\ blog run.2 = blog bw ++ map Core (log converted.2) ++ L
    /\ ((run.1 = Ok tt
         /\ exists bs, length bs = n
              /\ L = flat_map (iteration_trace bench_file hxx_file
                                 range0 range1 h) bs)
        \/ (run.1 <> Ok tt /\ ~ Forall bench_ok L)).
Proof.
  intros converted run Hconv.
  destruct (adapter_handle _ _ _ _ Hconv) as (h & Hd). exists h.
  unfold run, BM_XGBOOST_BDTTesting. rewrite BM_bind_run, core_run.
  cbv zeta. fold converted. cbn [fst snd]. rewrite Hconv.
  match goal with |- context [each_iteration n ?body ?bw1] =>
    destruct (loop_run data h range0 range1 n bw1 Hd) as (L & Hlog & Hcase)
  end.
  exists L. split; [done|]. rewrite Hlog. cbn [blog].
  rewrite <- app_assoc. split; [done|]. exact Hcase.
Qed.

End benchmark_runs.

Section benchmark_claims.
Context {lib : Type} `{XGBoost lib} `{XGBoostModels lib}.
Variables (bench_file cxx_file hxx_file : string).

Lemma frees_in_iterations range0 range1 h bs :
  length (List.filter (frees_matrix h)
            (flat_map (iteration_trace bench_file hxx_file range0 range1 h)
               bs))
  = length bs.
Proof.
  induction bs as [|b bs IH]; [done|].
  cbn [flat_map]. rewrite List.filter_app, length_app, IH.
  cbn. by rewrite bool_decide_eq_true_2.
Qed.

(** X12.  The testing benchmark with a library that accepts every call:
    once the testing partition is converted, each of the [n] iterations
    creates a booster without looking at the status, loads the model file
    named after the two benchmark arguments into it, predicts on the
    matrix of the bundle, frees that matrix and frees the booster; the run
    completes, and nothing else reaches the library. *)
Theorem X12_testing_benchmark_iterations
    (dataset_info : DataSetInfo) (range0 range1 : Z) (n : nat)
    (bw : bench_world lib) (data : xgboost_data) :
  let converted := ROOTToXGBoost_dataset cxx_file dataset_info kTesting
                     {| xgb := bxgb bw; log := [] |} in
  let run := BM_XGBOOST_BDTTesting bench_file cxx_file hxx_file dataset_info
               range0 range1 n bw in
  converted.1 = Ok data ->
  bench_calls_succeed bw run.2 ->
  exists h bs,
    sb_dmats data = Some h
    /\ length bs = n
    /\ run.1 = Ok tt
    /\ blog run.2
       = blog bw ++ map Core (log converted.2)
         ++ flat_map (iteration_trace bench_file hxx_file range0 range1 h) bs.
Proof.
  intros converted run Hconv (L & HL & Hall).
  destruct (testing_run bench_file cxx_file hxx_file dataset_info
              range0 range1 n bw data Hconv) as (h & L' & Hd & Hlog & Hcase).
  fold run converted in Hlog, Hcase.
  rewrite Hlog in HL. apply app_inv_head in HL. subst L.
  apply Forall_app in Hall as [_ Hall].
  destruct Hcase as [(Hr & bs & Hlen & ->) | (_ & Hn)]; [|done].
  by exists h, bs.
Qed.

(** X13.  The matrix is released in every iteration: a run of the testing
    benchmark that completes has freed the one matrix of the bundle once
    per iteration, and with two or more iterations it has predicted on
    that matrix after freeing it. *)
Theorem X13_testing_benchmark_frees_the_matrix_in_every_iteration
    (dataset_info : DataSetInfo) (range0 range1 : Z) (n : nat)
    (bw : bench_world lib) (data : xgboost_data) :
  let converted := ROOTToXGBoost_dataset cxx_file dataset_info kTesting
                     {| xgb := bxgb bw; log := [] |} in
  let run := BM_XGBOOST_BDTTesting bench_file cxx_file hxx_file dataset_info
               range0 range1 n bw in
  converted.1 = Ok data ->
  run.1 = Ok tt ->
  exists h L,
    sb_dmats data = Some h
    /\ blog run.2 = blog bw ++ map Core (log converted.2) ++ L
    /\ length (List.filter (frees_matrix h) L) = n
    /\ (2 <= n ->
        exists b s_free s_predict L1 L2 L3,
          L = L1 ++ Core (Called s_free (XGDMatrixFree h) 0)
                 :: L2 ++ Called_model s_predict (XGBoosterPredict b h 0 0) 0
                 :: L3).
Proof.
  intros converted run Hconv Hrun.
  destruct (testing_run bench_file cxx_file hxx_file dataset_info
              range0 range1 n bw data Hconv) as (h & L & Hd & Hlog & Hcase).
  fold run converted in Hlog, Hcase.
  destruct Hcase as [(_ & bs & Hlen & ->) | (Hn & _)]; [|done].
  exists h. eexists. split; [done|]. split; [exact Hlog|].
  split; [by rewrite frees_in_iterations|].
  intros Hn. destruct bs as [|b1 [|b2 bs]]; cbn [length] in Hlen; [lia..|].
  cbn [flat_map]. unfold iteration_trace at 1 2.
  eexists b2, _, _, [_; _; _], [_; _; _], (_ :: _ :: _). reflexivity.
Qed.

(** X14.  The creation of the booster is not checked.  When the library
    turns the [XGBoosterCreate] of the first iteration down, the testing
    benchmark raises nothing, where [safe_xgboost] would have thrown: the
    status is dropped, and the run goes on to use a booster handle that
    was never written, which is undefined behaviour. *)
Theorem X14_testing_benchmark_ignores_a_rejected_creation
    (dataset_info : DataSetInfo) (range0 range1 : Z) (n : nat)
    (bw : bench_world lib) (data : xgboost_data) :
  let converted := ROOTToXGBoost_dataset cxx_file dataset_info kTesting
                     {| xgb := bxgb bw; log := [] |} in
  let run := BM_XGBOOST_BDTTesting bench_file cxx_file hxx_file dataset_info
               range0 range1 n bw in
  let created := xgb_exec (XGBoosterCreate [] 0) (xgb converted.2) in
  converted.1 = Ok data ->
  0 < n ->
  created.1.1 ≠ 0%Z ->
  run.1 = Undefined IndeterminateHandle
  /\ (forall e, run.1 <> Throw e)
  /\ (blog bw ++ map Core (log converted.2)
      ++ [Unchecked (XGBoosterCreate [] 0) created.1.1])
     `prefix_of` blog run.2.
Proof.
  intros converted run created Hconv Hn Hrej.
  assert (Hrun : run
    = (Undefined IndeterminateHandle,
       {| bxgb := created.2;
          blog := (blog bw ++ map Core (log converted.2))
                  ++ [Unchecked (XGBoosterCreate [] 0) created.1.1] |})).
  { unfold run, BM_XGBOOST_BDTTesting. rewrite BM_bind_run, core_run.
    cbv zeta. fold converted. cbn [fst snd]. rewrite Hconv.
    destruct n as [|n]; [lia|]. cbn [each_iteration].
    rewrite BM_bind_run. unfold BM_XGBOOST_BDTTesting_iteration.
    rewrite unchecked_bind. cbn [bxgb blog]. fold created.
    destruct created as [[err b] s] eqn:Hc. cbn [fst snd] in *.
    rewrite decide_False by done. cbn [from_option].
    by rewrite blift_bind_Undefined. }
  rewrite Hrun. cbn [fst snd blog]. split; [done|]. split; [done|].
  by rewrite <- app_assoc.
Qed.

End benchmark_claims.

(** * The calls of an adapter *)

Section adapter_calls.
Context {lib : Type} `{XGBoost lib}.
Variables (cxx_file : string).

Lemma wrap_matrix_plan s1 s2 sb_mat n nv (d : xgboost_data) (w : world lib) :
  let r := wrap_matrix s1 s2 sb_mat n nv d w in
  let h := (xgb_exec (XGDMatrixCreateFromMat sb_mat n nv Float.zero)
              (xgb w)).1.2 in
  exists L,
    log r.2 = log w ++ L
    /\ omap issued L
       `prefix_of` [XGDMatrixCreateFromMat sb_mat n nv Float.zero;
                    XGDMatrixSetFloatInfo h "label" (labels d) n]
    /\ (forall d1, r.1 = Ok d1 ->
          d1 = set_sb_dmats d h
          /\ omap issued L
             = [XGDMatrixCreateFromMat sb_mat n nv Float.zero;
                XGDMatrixSetFloatInfo h "label" (labels d) n])
    /\ (forall s err,
          Called s (XGDMatrixSetFloatInfo h "label" (labels d) n) err ∈ L ->
          err ≠ 0%Z -> exists e, r.1 = Throw e).
Proof.
  intros r h. unfold r, h, wrap_matrix. clear r h.
  rewrite safe_xgboost_bind.
  destruct (xgb_exec _ (xgb w)) as [[err1 h] s].
  case_decide as Herr1; cbn [fst snd log].
  { eexists [_]. split; [done|]. split; [apply prefix_cons, prefix_nil|].
    split; [done|]. intros s0 err Hin.
    apply list_elem_of_singleton in Hin. discriminate Hin. }
  rewrite safe_xgboost_bind. cbn [xgb log].
  destruct (xgb_exec _ s) as [[err2 o] s'].
  case_decide as Herr2; cbn [fst snd log].
  - eexists [_; _]. rewrite <- app_assoc. split; [done|].
    split; [done|]. split; [done|]. intros; eauto.
  - eexists [_; _]. rewrite <- app_assoc. split; [done|].
    split; [done|]. split; [by intros d1 [= <-]|].
    intros s0 err Hin Hne.
    apply elem_of_cons in Hin as [Hin|Hin]; [discriminate Hin|].
    apply list_elem_of_singleton in Hin. injection Hin as _ <-.
    done.
Qed.

Lemma issued_visits (l : list nat) : omap issued (map Get_event l) = [].
Proof. by induction l. Qed.

(** X15.  The calls of an adapter: whatever the library answers, either
    adapter issues at most two calls, the creation of the matrix and then
    the attachment of the labels to the handle that creation wrote, and
    never a release.  A bundle that is returned holds that handle and
    those labels; when the attachment is turned down the adapter throws,
    so the matrix it created is in no bundle and was not freed. *)
Theorem X15_adapter_creates_then_attaches
    (convert : M lib xgboost_data) (w : world lib) :
  let run := convert w in
  is_adapter cxx_file convert ->
  exists L sb_mat n nv lbls,
    let h := (xgb_exec (XGDMatrixCreateFromMat sb_mat n nv Float.zero)
                (xgb w)).1.2 in
    log run.2 = log w ++ L
    /\ omap issued L
       `prefix_of` [XGDMatrixCreateFromMat sb_mat n nv Float.zero;
                    XGDMatrixSetFloatInfo h "label" lbls n]
    /\ (forall data, run.1 = Ok data ->
          sb_dmats data = Some h /\ labels data = lbls
          /\ n_sig data + n_bgd data = n
          /\ omap issued L
             = [XGDMatrixCreateFromMat sb_mat n nv Float.zero;
                XGDMatrixSetFloatInfo h "label" lbls n])
    /\ (forall s err,
          Called s (XGDMatrixSetFloatInfo h "label" lbls n) err ∈ L ->
          err ≠ 0%Z -> exists e, run.1 = Throw e).
Proof.
  intros run Hadapter.
  assert (Hnone : forall L0,
    (forall data, run.1 <> Ok data) ->
    log run.2 = log w ++ L0 -> omap issued L0 = [] ->
    exists L sb_mat n nv lbls,
      let h := (xgb_exec (XGDMatrixCreateFromMat sb_mat n nv Float.zero)
                  (xgb w)).1.2 in
      log run.2 = log w ++ L
      /\ omap issued L
         `prefix_of` [XGDMatrixCreateFromMat sb_mat n nv Float.zero;
                      XGDMatrixSetFloatInfo h "label" lbls n]
      /\ (forall data, run.1 = Ok data ->
            sb_dmats data = Some h /\ labels data = lbls
            /\ n_sig data + n_bgd data = n
            /\ omap issued L
               = [XGDMatrixCreateFromMat sb_mat n nv Float.zero;
                  XGDMatrixSetFloatInfo h "label" lbls n])
      /\ (forall s err,
            Called s (XGDMatrixSetFloatInfo h "label" lbls n) err ∈ L ->
            err ≠ 0%Z -> exists e, run.1 = Throw e)).
  { intros L0 Hno Hlog Hiss.
    exists L0, [], 0, 0, []. cbv zeta. split; [done|].
    rewrite Hiss. split; [apply prefix_nil|].
    split; [intros data Hd; by destruct (Hno data)|].
    intros s err Hin. exfalso.
    assert (Hc : XGDMatrixSetFloatInfo
                   (xgb_exec (XGDMatrixCreateFromMat [] 0 0 Float.zero)
                      (xgb w)).1.2 "label" [] 0 ∈ omap issued L0).
    { apply list_elem_of_omap. by eexists. }
    rewrite Hiss in Hc. by apply elem_of_nil in Hc. }
  assert (Hwrap : forall s1 s2 sb_mat n nv (d : xgboost_data) Lpre,
    run = wrap_matrix s1 s2 sb_mat n nv d
            {| xgb := xgb w; log := log w ++ Lpre |} ->
    omap issued Lpre = [] -> n_sig d + n_bgd d = n ->
    exists L sb_mat n nv lbls,
      let h := (xgb_exec (XGDMatrixCreateFromMat sb_mat n nv Float.zero)
                  (xgb w)).1.2 in
      log run.2 = log w ++ L
      /\ omap issued L
         `prefix_of` [XGDMatrixCreateFromMat sb_mat n nv Float.zero;
                      XGDMatrixSetFloatInfo h "label" lbls n]
      /\ (forall data, run.1 = Ok data ->
            sb_dmats data = Some h /\ labels data = lbls
            /\ n_sig data + n_bgd data = n
            /\ omap issued L
               = [XGDMatrixCreateFromMat sb_mat n nv Float.zero;
                  XGDMatrixSetFloatInfo h "label" lbls n])
      /\ (forall s err,
            Called s (XGDMatrixSetFloatInfo h "label" lbls n) err ∈ L ->
            err ≠ 0%Z -> exists e, run.1 = Throw e)).
  { intros s1 s2 sb_mat n nv d Lpre Hrun Hpre Hn.
    destruct (wrap_matrix_plan s1 s2 sb_mat n nv d
                {| xgb := xgb w; log := log w ++ Lpre |})
      as (L & Hlog & Hplan & Hret & Hrej).
    rewrite <- Hrun in Hlog, Hret, Hrej. cbn [xgb log] in *.
    exists (Lpre ++ L), sb_mat, n, nv, (labels d). cbv zeta.
    rewrite omap_app, Hpre, app_nil_l, Hlog, <- app_assoc.
    split; [done|]. split; [done|]. split.
    - intros data Hd. destruct (Hret data Hd) as (-> & Hall).
      by repeat split.
    - intros s err Hin Hne. apply elem_of_app in Hin as [Hin|Hin].
      + exfalso.
        assert (Hc : XGDMatrixSetFloatInfo
                       (xgb_exec (XGDMatrixCreateFromMat sb_mat n nv
                                    Float.zero) (xgb w)).1.2
                       "label" (labels d) n ∈ omap issued Lpre).
        { apply list_elem_of_omap. by eexists. }
        rewrite Hpre in Hc. by apply elem_of_nil in Hc.
      + by apply (Hrej s err). }
  destruct Hadapter as
    [(signal_tree & background_tree & variables & sig_weight & bgd_weight
      & Hconv) | (dataset_info & type & Hconv)].
  - pose proof (trees_run_cases cxx_file signal_tree background_tree
                  variables sig_weight bgd_weight w) as Heq.
    cbv zeta in Heq. rewrite <- Hconv in Heq. fold run in Heq.
    set (allocated := New_xgboost_data (Count signal_tree)
                        (Count background_tree)) in *.
    destruct (fill_tree_matrix _ _ _ _) as [sb_mat|e|ub].
    2,3: apply (Hnone []); rewrite ?Heq;
         [done | by rewrite app_nil_r | done].
    destruct (class_weight sig_weight _ _) as [sw|e|ub].
    2,3: apply (Hnone [allocated]); rewrite ?Heq; done.
    destruct (class_weight bgd_weight _ _) as [bw|e|ub].
    2,3: apply (Hnone [allocated]); rewrite ?Heq; done.
    by eapply (Hwrap _ _ _ _ _ _ [allocated] Heq).
  - destruct (recorded (GetDataSet dataset_info) type)
      as [[n_s n_b]|] eqn:Hrec.
    2: { apply (Hnone []); unfold run;
         rewrite ?Hconv, ?dataset_run_invalid by done;
         [done | by rewrite app_nil_r | done]. }
    pose proof (dataset_run_eq cxx_file dataset_info type n_s n_b w Hrec)
      as Heq.
    cbv zeta in Heq. rewrite <- Hconv in Heq. fold run in Heq.
    case_decide.
    + unfold visited in Heq. cbn [xgb log] in Heq.
      rewrite <- app_assoc in Heq.
      eapply (Hwrap _ _ _ _ _ _ _ Heq); [|done].
      rewrite omap_app. cbn [omap issued]. apply issued_visits.
    + apply (Hnone (New_xgboost_data n_s n_b
                      :: map Get_event (seq 0 (n_s + n_b + 1))));
        rewrite ?Heq; [done | by cbn; rewrite <- app_assoc |].
      cbn [omap issued]. apply issued_visits.
Qed.

End adapter_calls.

(** * The further properties on concrete inputs *)

(** X1 with a background tree that has no branch [y]. *)
Lemma X1_tree_adapter_missing_variable_witness :
  first_missing demo_signal narrow_tree ["x"; "y"] "y"
  /\ ROOTToXGBoost_trees "root2xgboost.cpp" demo_signal narrow_tree
       ["x"; "y"] None None accepting
     = (Throw (unknown_column "y"), accepting).
Proof.
  assert (Hmiss : first_missing demo_signal narrow_tree ["x"; "y"] "y").
  { exists ["x"], []. split; [reflexivity|]. split; [columns_there|].
    right. intros Hin. apply list_elem_of_singleton in Hin. discriminate Hin. }
  split; [assumption|].
  exact (X1_tree_adapter_missing_variable "root2xgboost.cpp" demo_signal
           narrow_tree ["x"; "y"] None None "y" accepting Hmiss).
Defined.

(** X2 with a signal tree without entries and no weights given. *)
Lemma X2_tree_adapter_only_divides_by_zero_witness :
  let n_s := Count empty_tree in
  let n_b := Count demo_background in
  let sig_weight : option Float_t := None in
  let bgd_weight : option Float_t := None in
  let run := ROOTToXGBoost_trees "root2xgboost.cpp" empty_tree
               demo_background ["x"; "y"] sig_weight bgd_weight accepting in
  0 < n_s + n_b
  /\ 0 < length ["x"; "y"]
  /\ run.1 = Undefined DivisionByZero
  /\ DivisionByZero = DivisionByZero
  /\ ((sig_weight = None /\ n_s = 0) \/ (bgd_weight = None /\ n_b = 0))
  /\ run.2 = {| xgb := xgb accepting;
                log := log accepting ++ [New_xgboost_data n_s n_b] |}.
Proof.
  intros n_s n_b sig_weight bgd_weight run.
  assert (Hrows : 0 < n_s + n_b) by (unfold n_s, n_b, Count; simpl; lia).
  assert (Hvars : 0 < length ["x"; "y"]) by (simpl; lia).
  assert (Hrun : run.1 = Undefined DivisionByZero) by reflexivity.
  repeat (split; [assumption|]).
  exact (X2_tree_adapter_only_divides_by_zero "root2xgboost.cpp" empty_tree
           demo_background ["x"; "y"] sig_weight bgd_weight accepting
           DivisionByZero Hrows Hvars Hrun).
Defined.

(** X3 on the two demonstration trees: the weights are 2 and 1, the
    totals 6 and 4. *)
Lemma X3_balanced_totals_differ_by_at_most_the_smaller_class_witness :
  let n_s := Count demo_signal in
  let n_b := Count demo_background in
  let run := ROOTToXGBoost_trees "root2xgboost.cpp" demo_signal
               demo_background ["x"; "y"] None None accepting in
  let sw := (1 + Z.of_nat (n_b / n_s))%Z in
  let bw := (1 + Z.of_nat (n_s / n_b))%Z in
  columns_present demo_signal demo_background ["x"; "y"]
  /\ 0 < n_s /\ 0 < n_b
  /\ (Z.of_nat (n_b / n_s) < 65536)%Z /\ (Z.of_nat (n_s / n_b) < 65536)%Z
  /\ calls_succeed accepting run.2
  /\ exists data fs fb,
       run.1 = Ok data
       /\ (forall k, k < n_s -> weights data !! k = Some (Some fs))
       /\ (forall k, n_s <= k < n_s + n_b ->
             weights data !! k = Some (Some fb))
       /\ Float.to_Z fs = Some sw /\ Float.to_Z fb = Some bw
       /\ (weighted_gap sw bw n_s n_b
           <= Z.min (Z.of_nat n_s) (Z.of_nat n_b))%Z
       /\ (n_s = n_b -> weighted_gap sw bw n_s n_b = 0%Z).
Proof.
  intros n_s n_b run sw bw.
  assert (Hcols : columns_present demo_signal demo_background ["x"; "y"])
    by columns_there.
  assert (Hs : 0 < n_s) by (unfold n_s, Count; simpl; lia).
  assert (Hb : 0 < n_b) by (unfold n_b, Count; simpl; lia).
  assert (Hqs : (Z.of_nat (n_b / n_s) < 65536)%Z) by reflexivity.
  assert (Hqb : (Z.of_nat (n_s / n_b) < 65536)%Z) by reflexivity.
  assert (Hok : calls_succeed accepting run.2) by run_succeeds.
  repeat (split; [assumption|]).
  exact (X3_balanced_totals_differ_by_at_most_the_smaller_class
           "root2xgboost.cpp" demo_signal demo_background ["x"; "y"]
           accepting Hcols Hs Hb Hqs Hqb Hok).
Defined.

(** X4 on the two demonstration trees: the background class is the larger
    one. *)
Lemma X4_majority_class_weight_is_one_witness :
  let n_s := Count demo_signal in
  let n_b := Count demo_background in
  let sig_weight : option Float_t := None in
  let bgd_weight : option Float_t := None in
  let run := ROOTToXGBoost_trees "root2xgboost.cpp" demo_signal
               demo_background ["x"; "y"] sig_weight bgd_weight accepting in
  columns_present demo_signal demo_background ["x"; "y"]
  /\ class_weight sig_weight n_b n_s = Ok (float_of_nat 2)
  /\ class_weight bgd_weight n_s n_b = Ok (float_of_nat 1)
  /\ calls_succeed accepting run.2
  /\ exists data,
       run.1 = Ok data
       /\ (sig_weight = None -> n_b < n_s -> forall k, k < n_s ->
             weights data !! k = Some (Some Float.one))
       /\ (bgd_weight = None -> n_s < n_b ->
           forall k, n_s <= k < n_s + n_b ->
             weights data !! k = Some (Some Float.one))
       /\ (sig_weight = None -> bgd_weight = None -> n_s = n_b ->
           forall k, k < n_s + n_b ->
             weights data !! k = Some (Some Float_two)).
Proof.
  intros n_s n_b sig_weight bgd_weight run.
  assert (Hcols : columns_present demo_signal demo_background ["x"; "y"])
    by columns_there.
  assert (Hsw : class_weight sig_weight n_b n_s = Ok (float_of_nat 2))
    by reflexivity.
  assert (Hbw : class_weight bgd_weight n_s n_b = Ok (float_of_nat 1))
    by reflexivity.
  assert (Hok : calls_succeed accepting run.2) by run_succeeds.
  repeat (split; [assumption|]).
  exact (X4_majority_class_weight_is_one "root2xgboost.cpp" demo_signal
           demo_background ["x"; "y"] sig_weight bgd_weight _ _ accepting
           Hcols Hsw Hbw Hok).
Defined.

(** X5 on the training part of the demonstration dataset. *)
Lemma X5_dataset_matrix_rows_witness :
  let dataset := GetDataSet demo_dataset in
  let evs := GetEventCollection dataset kTraining in
  let n_v := GetNVariables dataset in
  let run := ROOTToXGBoost_dataset "root2xgboost.cpp" demo_dataset kTraining
               accepting in
  recorded dataset kTraining = Some (2, 1)
  /\ length evs <= 2 + 1
  /\ calls_succeed accepting run.2
  /\ exists data sb_mat s,
       run.1 = Ok data
       /\ Called s (XGDMatrixCreateFromMat sb_mat (2 + 1) n_v Float.zero) 0
          ∈ log run.2
       /\ length sb_mat = (2 + 1) * n_v
       /\ (forall i ev j, evs !! i = Some ev -> j < n_v ->
             sb_mat !! (i * n_v + j) = Some (Some (GetValue ev j))).
Proof.
  intros dataset evs n_v run.
  assert (Hrec : recorded dataset kTraining = Some (2, 1)) by reflexivity.
  assert (Hlen : length evs <= 2 + 1) by (unfold evs; simpl; lia).
  assert (Hok : calls_succeed accepting run.2) by run_succeeds.
  repeat (split; [assumption|]).
  exact (X5_dataset_matrix_rows "root2xgboost.cpp" demo_dataset kTraining
           2 1 accepting Hrec Hlen Hok).
Defined.

(** X6 on the training part of the demonstration dataset. *)
Lemma X6_dataset_weights_are_event_weights_witness :
  let dataset := GetDataSet demo_dataset in
  let evs := GetEventCollection dataset kTraining in
  let run := ROOTToXGBoost_dataset "root2xgboost.cpp" demo_dataset kTraining
               accepting in
  recorded dataset kTraining = Some (2, 1)
  /\ length evs <= 2 + 1
  /\ calls_succeed accepting run.2
  /\ exists data,
       run.1 = Ok data
       /\ length (weights data) = 2 + 1
       /\ (forall i ev, evs !! i = Some ev ->
             weights data !! i
             = Some (Some (Float.of_Double (GetOriginalWeight ev)))).
Proof.
  intros dataset evs run.
  assert (Hrec : recorded dataset kTraining = Some (2, 1)) by reflexivity.
  assert (Hlen : length evs <= 2 + 1) by (unfold evs; simpl; lia).
  assert (Hok : calls_succeed accepting run.2) by run_succeeds.
  repeat (split; [assumption|]).
  exact (X6_dataset_weights_are_event_weights "root2xgboost.cpp" demo_dataset
           kTraining 2 1 accepting Hrec Hlen Hok).
Defined.

(** X7 on the training part of the miscounted dataset: four rows recorded,
    three events held. *)
Lemma X7_dataset_short_collection_leaves_rows_unset_witness :
  let dataset := GetDataSet miscounted_dataset in
  let evs := GetEventCollection dataset kTraining in
  let n_v := GetNVariables dataset in
  let run := ROOTToXGBoost_dataset "root2xgboost.cpp" miscounted_dataset
               kTraining accepting in
  recorded dataset kTraining = Some (2, 2)
  /\ length evs <= 2 + 2
  /\ calls_succeed accepting run.2
  /\ exists data sb_mat h s1 s2,
       run.1 = Ok data
       /\ Called s1 (XGDMatrixCreateFromMat sb_mat (2 + 2) n_v Float.zero) 0
          ∈ log run.2
       /\ Called s2 (XGDMatrixSetFloatInfo h "label" (labels data) (2 + 2)) 0
          ∈ log run.2
       /\ (forall k, length evs <= k < 2 + 2 ->
             labels data !! k = Some None /\ weights data !! k = Some None
             /\ forall j, j < n_v -> sb_mat !! (k * n_v + j) = Some None).
Proof.
  intros dataset evs n_v run.
  assert (Hrec : recorded dataset kTraining = Some (2, 2)) by reflexivity.
  assert (Hlen : length evs <= 2 + 2) by (unfold evs; simpl; lia).
  assert (Hok : calls_succeed accepting run.2) by run_succeeds.
  repeat (split; [assumption|]).
  exact (X7_dataset_short_collection_leaves_rows_unset "root2xgboost.cpp"
           miscounted_dataset kTraining 2 2 accepting Hrec Hlen Hok).
Defined.

(** X8 on the testing part of the miscounted dataset: one row recorded,
    two events held. *)
Lemma X8_dataset_long_collection_overflows_witness :
  let dataset := GetDataSet miscounted_dataset in
  let evs := GetEventCollection dataset kTesting in
  let run := ROOTToXGBoost_dataset "root2xgboost.cpp" miscounted_dataset
               kTesting accepting in
  recorded dataset kTesting = Some (1, 0)
  /\ 1 + 0 < length evs
  /\ run.1 = Undefined OutOfBounds
  /\ xgb run.2 = xgb accepting
  /\ log run.2 = log accepting ++ New_xgboost_data 1 0
                    :: map Get_event (seq 0 (1 + 0 + 1)).
Proof.
  intros dataset evs run.
  assert (Hrec : recorded dataset kTesting = Some (1, 0)) by reflexivity.
  assert (Hlong : 1 + 0 < length evs) by (unfold evs; simpl; lia).
  repeat (split; [assumption|]).
  exact (X8_dataset_long_collection_overflows "root2xgboost.cpp"
           miscounted_dataset kTesting 1 0 accepting Hrec Hlong).
Defined.

(** X9 on the demonstration bundle, whose matrix is the handle 7. *)
Lemma X9_free_twice_frees_twice_witness :
  let run := (_ ← free "root2xgboost.h" demo_bundle;
              free "root2xgboost.h" demo_bundle) accepting in
  let st := {| site_file := "root2xgboost.h"; site_line := 52;
               site_text := "XGDMatrixFree(sb_dmats[0])" |} in
  let first := xgb_exec (XGDMatrixFree 7%Z) (xgb accepting) in
  let second := xgb_exec (XGDMatrixFree 7%Z) first.2 in
  sb_dmats demo_bundle = Some 7%Z
  /\ (first.1.1 = 0%Z ->
        log run.2 = log accepting ++ [Called st (XGDMatrixFree 7%Z) 0;
                                      Called st (XGDMatrixFree 7%Z)
                                        second.1.1]
        /\ xgb run.2 = second.2
        /\ run.1 = if decide (second.1.1 = 0%Z) then Ok tt
                   else Throw (runtime_error
                                 (error_message st
                                    (XGBGetLastError second.2))))
  /\ (first.1.1 <> 0%Z ->
        log run.2 = log accepting ++ [Called st (XGDMatrixFree 7%Z) first.1.1]
        /\ xgb run.2 = first.2
        /\ run.1 = Throw (runtime_error
                            (error_message st (XGBGetLastError first.2)))).
Proof.
  intros run st first second.
  assert (Hd : sb_dmats demo_bundle = Some 7%Z) by reflexivity.
  split; [assumption|].
  exact (X9_free_twice_frees_twice "root2xgboost.h" demo_bundle 7%Z accepting
           Hd).
Defined.

(** X10 on the demonstration bundle, with one option and two iterations. *)
Lemma X10_trainer_and_free_use_the_bundle_matrix_witness :
  let opts : xgbooster_opts := [("max_depth", "2")] in
  let trained := xgboost_train "root2xgboost.cpp" demo_bundle opts 2
                   accepting in
  let released := free "root2xgboost.h" demo_bundle accepting in
  sb_dmats demo_bundle = Some 7%Z
  /\ (forall ub, trained.1 <> Undefined ub)
  /\ (exists L, log trained.2 = log accepting ++ L
        /\ Forall (fun call => names_only 7%Z call) (omap issued L))
  /\ (forall ub, released.1 <> Undefined ub)
  /\ (exists L, log released.2 = log accepting ++ L
        /\ omap issued L = [XGDMatrixFree 7%Z]).
Proof.
  intros opts trained released.
  assert (Hd : sb_dmats demo_bundle = Some 7%Z) by reflexivity.
  split; [assumption|].
  exact (X10_trainer_and_free_use_the_bundle_matrix "root2xgboost.cpp"
           "root2xgboost.h" demo_bundle 7%Z opts 2 accepting Hd).
Defined.

(** X11 on the two demonstration trees, with one option and two
    iterations. *)
Lemma X11_adapter_bundle_trains_and_releases_witness :
  let convert := ROOTToXGBoost_trees "root2xgboost.cpp" demo_signal
                   demo_background ["x"; "y"] None None in
  let opts : xgbooster_opts := [("max_depth", "2")] in
  let data := set_sb_dmats
                (tree_bundle (Count demo_signal) (Count demo_background)
                   (float_of_nat 2) (float_of_nat 1)) 100%Z in
  let converted := convert accepting in
  let rest := train_release "root2xgboost.cpp" "root2xgboost.h" data opts 2
                converted.2 in
  is_adapter "root2xgboost.cpp" convert
  /\ converted.1 = Ok data
  /\ calls_succeed converted.2 rest.2
  /\ exists sb_mat n nv h L,
       let booster :=
         (xgb_exec (XGBoosterCreate [h] 1) (xgb converted.2)).1.2 in
       h = (xgb_exec (XGDMatrixCreateFromMat sb_mat n nv Float.zero)
              (xgb accepting)).1.2
       /\ sb_dmats data = Some h
       /\ rest.1 = Ok booster
       /\ log rest.2 = log converted.2 ++ L
       /\ omap issued L
          = training_plan booster h opts 2 ++ [XGDMatrixFree h].
Proof.
  intros convert opts data converted rest.
  assert (Had : is_adapter "root2xgboost.cpp" convert).
  { left. by exists demo_signal, demo_background, ["x"; "y"], None, None. }
  assert (Hconv : converted.1 = Ok data) by reflexivity.
  assert (Hok : calls_succeed converted.2 rest.2) by run_succeeds.
  repeat (split; [assumption|]).
  exact (X11_adapter_bundle_trains_and_releases "root2xgboost.cpp"
           "root2xgboost.h" convert opts 2 accepting data Had Hconv Hok).
Defined.

(** X12 on the demonstration dataset, with the benchmark arguments 2000
    and 10 and two iterations. *)
Lemma X12_testing_benchmark_iterations_witness :
  let data := set_sb_dmats
                (dataset_bundle demo_dataset 1 1
                   (GetEventCollection (GetDataSet demo_dataset) kTesting))
                100%Z in
  let converted := ROOTToXGBoost_dataset "root2xgboost.cpp" demo_dataset
                     kTesting
                     {| xgb := bxgb bench_accepting; log := [] |} in
  let run := BM_XGBOOST_BDTTesting "BoostedDTBenchmarks.cxx"
               "root2xgboost.cpp" "root2xgboost.h" demo_dataset 2000 10 2
               bench_accepting in
  converted.1 = Ok data
  /\ bench_calls_succeed bench_accepting run.2
  /\ exists h bs,
       sb_dmats data = Some h
       /\ length bs = 2
       /\ run.1 = Ok tt
       /\ blog run.2
          = blog bench_accepting ++ map Core (log converted.2)
            ++ flat_map (iteration_trace "BoostedDTBenchmarks.cxx"
                           "root2xgboost.h" 2000 10 h) bs.
Proof.
  intros data converted run.
  assert (Hconv : converted.1 = Ok data) by reflexivity.
  assert (Hok : bench_calls_succeed bench_accepting run.2) by run_succeeds.
  repeat (split; [assumption|]).
  exact (X12_testing_benchmark_iterations "BoostedDTBenchmarks.cxx"
           "root2xgboost.cpp" "root2xgboost.h" demo_dataset 2000 10 2
           bench_accepting data Hconv Hok).
Defined.

(** X13 on the same run of two iterations. *)
Lemma X13_testing_benchmark_frees_the_matrix_in_every_iteration_witness :
  let data := set_sb_dmats
                (dataset_bundle demo_dataset 1 1
                   (GetEventCollection (GetDataSet demo_dataset) kTesting))
                100%Z in
  let converted := ROOTToXGBoost_dataset "root2xgboost.cpp" demo_dataset
                     kTesting
                     {| xgb := bxgb bench_accepting; log := [] |} in
  let run := BM_XGBOOST_BDTTesting "BoostedDTBenchmarks.cxx"
               "root2xgboost.cpp" "root2xgboost.h" demo_dataset 2000 10 2
               bench_accepting in
  converted.1 = Ok data
  /\ run.1 = Ok tt
  /\ exists h L,
       sb_dmats data = Some h
       /\ blog run.2 = blog bench_accepting ++ map Core (log converted.2) ++ L
       /\ length (List.filter (frees_matrix h) L) = 2
       /\ (2 <= 2 ->
           exists b s_free s_predict L1 L2 L3,
             L = L1 ++ Core (Called s_free (XGDMatrixFree h) 0)
                    :: L2
                       ++ Called_model s_predict (XGBoosterPredict b h 0 0) 0
                       :: L3).
Proof.
  intros data converted run.
  assert (Hconv : converted.1 = Ok data) by reflexivity.
  assert (Hrun : run.1 = Ok tt) by reflexivity.
  repeat (split; [assumption|]).
  exact (X13_testing_benchmark_frees_the_matrix_in_every_iteration
           "BoostedDTBenchmarks.cxx" "root2xgboost.cpp" "root2xgboost.h"
           demo_dataset 2000 10 2 bench_accepting data Hconv Hrun).
Defined.

(** X14 with a library that accepts the two calls of the adapter and
    turns the first creation of a booster down. *)
Lemma X14_testing_benchmark_ignores_a_rejected_creation_witness :
  let data := set_sb_dmats
                (dataset_bundle demo_dataset 1 1
                   (GetEventCollection (GetDataSet demo_dataset) kTesting))
                100%Z in
  let converted := ROOTToXGBoost_dataset "root2xgboost.cpp" demo_dataset
                     kTesting
                     {| xgb := bxgb bench_rejecting; log := [] |} in
  let run := BM_XGBOOST_BDTTesting "BoostedDTBenchmarks.cxx"
               "root2xgboost.cpp" "root2xgboost.h" demo_dataset 2000 10 2
               bench_rejecting in
  let created := xgb_exec (XGBoosterCreate [] 0) (xgb converted.2) in
  converted.1 = Ok data
  /\ 0 < 2
  /\ created.1.1 ≠ 0%Z
  /\ run.1 = Undefined IndeterminateHandle
  /\ (forall e, run.1 <> Throw e)
  /\ (blog bench_rejecting ++ map Core (log converted.2)
      ++ [Unchecked (XGBoosterCreate [] 0) created.1.1])
     `prefix_of` blog run.2.
Proof.
  intros data converted run created.
  assert (Hconv : converted.1 = Ok data) by reflexivity.
  assert (Hn : 0 < 2) by lia.
  assert (Hrej : created.1.1 ≠ 0%Z) by (vm_compute; discriminate).
  repeat (split; [assumption|]).
  exact (X14_testing_benchmark_ignores_a_rejected_creation
           "BoostedDTBenchmarks.cxx" "root2xgboost.cpp" "root2xgboost.h"
           demo_dataset 2000 10 2 bench_rejecting data Hconv Hn Hrej).
Defined.

(** X15 on the two demonstration trees, with a library that creates the
    matrix and turns the attachment of the labels down. *)
Lemma X15_adapter_creates_then_attaches_witness :
  let convert := ROOTToXGBoost_trees "root2xgboost.cpp" demo_signal
                   demo_background ["x"; "y"] None None in
  let run := convert failing_second in
  is_adapter "root2xgboost.cpp" convert
  /\ exists L sb_mat n nv lbls,
       let h := (xgb_exec (XGDMatrixCreateFromMat sb_mat n nv Float.zero)
                   (xgb failing_second)).1.2 in
       log run.2 = log failing_second ++ L
       /\ omap issued L
          `prefix_of` [XGDMatrixCreateFromMat sb_mat n nv Float.zero;
                       XGDMatrixSetFloatInfo h "label" lbls n]
       /\ (forall data, run.1 = Ok data ->
             sb_dmats data = Some h /\ labels data = lbls
             /\ n_sig data + n_bgd data = n
             /\ omap issued L
                = [XGDMatrixCreateFromMat sb_mat n nv Float.zero;
                   XGDMatrixSetFloatInfo h "label" lbls n])
       /\ (forall s err,
             Called s (XGDMatrixSetFloatInfo h "label" lbls n) err ∈ L ->
             err ≠ 0%Z -> exists e, run.1 = Throw e).
Proof.
  intros convert run.
  assert (Had : is_adapter "root2xgboost.cpp" convert).
  { left. by exists demo_signal, demo_background, ["x"; "y"], None, None. }
  split; [assumption|].
  exact (X15_adapter_creates_then_attaches "root2xgboost.cpp" convert
           failing_second Had).
Defined.
